(** * Stock movement Excel report wizard: a shallow embedding

    Model of [wizard/stock_movement_report_wizard.py] (Odoo transient model
    [stock.movement.report.wizard]) and the properties its specification
    states about it.

    Conventions of the model:
    - Python exceptions are explicit: every fallible operation returns an
      [outcome].
    - [datetime.date] is a record of three integers; the invariant Python
      enforces on construction is [valid_date].
    - Quantities and amounts are exact rationals ([Qc]); the rounding of the
      floating point and [numeric] arithmetic of the real system is not
      modelled.
    - A database table is the list of its rows in the order a search returns
      them; a Python [dict] is a [gmap].
    - What the ORM adds to a search on its own (record rules, archived
      records, companies) and time zones are outside the model. *)

From Stdlib Require Import QArith Qcanon.
From stdpp Require Import gmap strings list fin_maps numbers sorting pretty.

#[local] Open Scope Z_scope.

(** ** Python runtime: exceptions *)

Module Py.

Inductive exn : Type :=
| UserError (msg : string)   (* odoo.exceptions.UserError *)
| ValueError                 (* date fields out of range, illegal month *)
| OverflowError              (* date arithmetic leaves 0001-01-01 .. 9999-12-31 *)
| KeyError                   (* missing dict key *)
| ProgrammingError.          (* psycopg2: the statement is not valid SQL *)

(** [Diverge] is only produced when a loop exhausts its iteration budget. *)
Inductive outcome (A : Type) : Type :=
| Ok (a : A)
| Raise (e : exn)
| Diverge.
Arguments Ok {A} a.
Arguments Raise {A} e.
Arguments Diverge {A}.

Definition bind {A B : Type} (m : outcome A) (k : A → outcome B) : outcome B :=
  match m with
  | Ok a => k a
  | Raise e => Raise e
  | Diverge => Diverge
  end.

Definition is_user_error {A : Type} (m : outcome A) : bool :=
  match m with
  | Raise (UserError _) => true
  | _ => false
  end.

Definition is_ok {A : Type} (m : outcome A) : bool :=
  match m with
  | Ok _ => true
  | _ => false
  end.

End Py.
Export Py.

Notation "x ←! m ; k" := (Py.bind m (fun x => k))
  (at level 20, m at level 100, k at level 200, right associativity,
   format "'[' x  ←!  m ; '/' k ']'").

(** ** Python runtime: [datetime.date], [timedelta(days=1)],
       [relativedelta(months=1)] *)

Module Date.

Record date : Type := mkdate { year : Z; month : Z; day : Z }.

Definition MINYEAR : Z := 1.
Definition MAXYEAR : Z := 9999.

Definition is_leap (y : Z) : bool :=
  (y mod 4 =? 0) && (negb (y mod 100 =? 0) || (y mod 400 =? 0)).

(** [calendar.monthrange(y, m)[1]] for a month in 1..12. *)
Definition days_in_month (y m : Z) : Z :=
  if m =? 2 then (if is_leap y then 29 else 28)
  else if (m =? 4) || (m =? 6) || (m =? 9) || (m =? 11) then 30
  else 31.

Definition valid_ymd (y m d : Z) : bool :=
  (MINYEAR <=? y) && (y <=? MAXYEAR) && (1 <=? m) && (m <=? 12)
  && (1 <=? d) && (d <=? days_in_month y m).

Definition valid_date (d : date) : bool := valid_ymd (year d) (month d) (day d).

(** [date(y, m, d)]: the constructor checks its fields. *)
Definition make_date (y m d : Z) : outcome date :=
  if valid_ymd y m d then Ok (mkdate y m d) else Raise ValueError.

(** [d.replace(day=n)] builds a new date through the constructor. *)
Definition replace_day (d : date) (n : Z) : outcome date :=
  make_date (year d) (month d) n.

(** Dates compare as the tuples (year, month, day). *)
Definition date_leb (a b : date) : bool :=
  (year a <? year b)
  || ((year a =? year b)
      && ((month a <? month b) || ((month a =? month b) && (day a <=? day b)))).

Definition date_ltb (a b : date) : bool := negb (date_leb b a).

Definition date_eqb (a b : date) : bool :=
  (year a =? year b) && (month a =? month b) && (day a =? day b).

(** [d + relativedelta(months=1)], as dateutil computes it: bump the month,
    carry into the year, clip the day to the length of the new month, and
    rebuild the date with [replace]. *)
Definition add_month (d : date) : outcome date :=
  let m1 := month d + 1 in
  let '(y, m) :=
    if 12 <? m1 then (year d + 1, m1 - 12)
    else if m1 <? 1 then (year d - 1, m1 + 12)
    else (year d, m1) in
  if negb ((1 <=? m) && (m <=? 12)) then Raise ValueError   (* calendar.monthrange *)
  else make_date y m (Z.min (days_in_month y m) (day d)).

(** [d - timedelta(days=1)]: the previous calendar day; Python raises
    [OverflowError] when the result would precede 0001-01-01. *)
Definition sub_day (d : date) : outcome date :=
  if 1 <? day d then Ok (mkdate (year d) (month d) (day d - 1))
  else if 1 <? month d then
    Ok (mkdate (year d) (month d - 1) (days_in_month (year d) (month d - 1)))
  else if MINYEAR <? year d then Ok (mkdate (year d - 1) 12 31)
  else Raise OverflowError.

(** [d.toordinal()], as in CPython's [_ymd2ord]; used to check [sub_day]. *)
Definition days_before_year (y : Z) : Z :=
  let y1 := y - 1 in y1 * 365 + y1 / 4 - y1 / 100 + y1 / 400.

Definition days_before_month_table (m : Z) : Z :=
  match m with
  | 1 => 0 | 2 => 31 | 3 => 59 | 4 => 90 | 5 => 120 | 6 => 151
  | 7 => 181 | 8 => 212 | 9 => 243 | 10 => 273 | 11 => 304 | 12 => 334
  | _ => 0
  end.

Definition days_before_month (y m : Z) : Z :=
  days_before_month_table m + (if (2 <? m) && is_leap y then 1 else 0).

Definition toordinal (d : date) : Z :=
  days_before_year (year d) + days_before_month (year d) (month d) + day d.

(** Position of the month of [d] on the axis of all calendar months. *)
Definition month_index (d : date) : Z := 12 * year d + (month d - 1).

Definition month_name (m : Z) : string :=
  match m with
  | 1 => "January" | 2 => "February" | 3 => "March" | 4 => "April"
  | 5 => "May" | 6 => "June" | 7 => "July" | 8 => "August"
  | 9 => "September" | 10 => "October" | 11 => "November" | 12 => "December"
  | _ => String.EmptyString
  end.

(** [d.strftime('%B %Y')] (C locale; the padding of years below 1000 depends
    on the platform and is not modelled). *)
Definition strftime_B_Y (d : date) : string :=
  month_name (month d) +:+ " " +:+ pretty (year d).

End Date.
Export Date.

(** ** The database: the tables the wizard reads

    Only the columns the wizard reads are kept. Timestamps are stored with
    the date they are cast to ([::date]); numeric columns are taken
    [NOT NULL]. *)

Module Db.

Record product_category : Type := {
  categ_id : Z;
  categ_parent_path : list Z   (* ids of the ancestors, the category included *)
}.

Record product_template : Type := {
  tmpl_id : Z;
  tmpl_name : string;
  tmpl_type : string;          (* 'consu', 'service', 'combo' *)
  tmpl_categ_id : Z;
  tmpl_uom_id : Z
}.

Record product_product : Type := {
  prod_id : Z;
  prod_tmpl_id : Z
}.

Record uom_uom : Type := {
  uom_id : Z;
  uom_factor : Qc              (* nonzero, by a constraint of the table *)
}.

Record mrp_bom : Type := {
  bom_id : Z;
  bom_type : string;           (* 'normal' or 'phantom' *)
  bom_product_id : option Z;   (* set when the BoM is for one variant *)
  bom_product_tmpl_id : Z
}.

Record mrp_bom_line : Type := {
  line_id : Z;
  line_product_id : Z;         (* the component *)
  line_bom_id : Z;
  line_product_qty : Qc;
  line_product_uom_id : Z
}.

Record stock_location : Type := {
  loc_id : Z;
  loc_usage : string;
  loc_warehouse_id : option Z
}.

Record stock_move : Type := {
  move_id : Z;
  move_product_id : Z;
  move_state : string;
  move_date : date;
  move_location_id : Z;
  move_location_dest_id : Z;
  move_product_qty : Qc;
  move_price_unit : Qc;
  move_purchase_line_id : option Z
}.

Record purchase_order : Type := {
  po_id : Z;
  po_state : string;
  po_date_approve : date
}.

Record purchase_order_line : Type := {
  pol_id : Z;
  pol_order_id : Z;
  pol_product_id : Z;
  pol_product_uom_id : Z;
  pol_qty_received : Qc;
  pol_price_unit : Qc
}.

Record sale_order : Type := {
  so_id : Z;
  so_state : string;
  so_date_order : date
}.

Record sale_order_line : Type := {
  sol_id : Z;
  sol_order_id : Z;
  sol_product_id : Z;
  sol_product_uom_id : Z;
  sol_qty_delivered : Qc;
  sol_price_unit : Qc
}.

Record pos_order : Type := {
  pos_id : Z;
  pos_state : string;
  pos_date_order : date
}.

Record pos_order_line : Type := {
  posl_id : Z;
  posl_order_id : Z;
  posl_product_id : Z;
  posl_qty : Qc;
  posl_price_subtotal_incl : Qc
}.

(** The environment of a call: the tables, whether [import xlsxwriter]
    succeeded, and Odoo's [uom.uom._compute_quantity] (not part of this
    repository): [uom_compute_quantity from qty to]. *)
Record env : Type := {
  xlsxwriter : bool;
  uom_compute_quantity : Z → Qc → option Z → Qc;
  t_product_category : list product_category;
  t_product_template : list product_template;
  t_product_product : list product_product;
  t_uom_uom : list uom_uom;
  t_mrp_bom : list mrp_bom;
  t_mrp_bom_line : list mrp_bom_line;
  t_stock_location : list stock_location;
  t_stock_move : list stock_move;
  t_purchase_order : list purchase_order;
  t_purchase_order_line : list purchase_order_line;
  t_sale_order : list sale_order;
  t_sale_order_line : list sale_order_line;
  t_pos_order : list pos_order;
  t_pos_order_line : list pos_order_line
}.

(** [SUM(...)] wrapped in [COALESCE(..., 0)]. *)
Definition sql_sum (xs : list Qc) : Qc := foldr Qcplus 0%Qc xs.

(** An integer as a quantity or amount. *)
Definition qz (z : Z) : Qc := Q2Qc (inject_Z z).

(** [x >= lo AND x <= hi] on dates. *)
Definition in_window (d lo hi : date) : Prop := date_leb lo d ∧ date_leb d hi.

(** Following a many2one field: the record with the given id, if any. *)
Definition browse {A : Type} (key : A → Z) (table : list A) (i : Z) : option A :=
  head (filter (λ r, key r = i) table).

Definition template_of (e : env) (p : product_product) : option product_template :=
  browse tmpl_id (t_product_template e) (prod_tmpl_id p).

Definition product_name (e : env) (p : product_product) : string :=
  default String.EmptyString (tmpl_name <$> template_of e p).

(** [product.uom_id] for a product id; [None] is the empty recordset. *)
Definition uom_of_product (e : env) (pid : Z) : option Z :=
  p ← browse prod_id (t_product_product e) pid;
  t ← template_of e p;
  Some (tmpl_uom_id t).

(** [categ_id child_of ids]. *)
Definition child_of (e : env) (categ : Z) (ids : list Z) : Prop :=
  ∃ c, c ∈ t_product_category e ∧ categ_id c = categ
       ∧ ∃ a, a ∈ categ_parent_path c ∧ a ∈ ids.

End Db.
Export Db.

(** ** The wizard [stock.movement.report.wizard] *)

Module Wizard.

Record wizard : Type := {
  date_from : date;
  date_to : date;
  product_ids : list Z;
  category_ids : list Z;
  warehouse_ids : list Z;
  include_pos : bool;
  include_sales : bool;
  include_purchases : bool
}.

(** *** [_check_dates] *)

Definition _check_dates (w : wizard) : outcome unit :=
  if date_ltb (date_to w) (date_from w)   (* date_from > date_to *)
  then Raise (UserError "Start Date must be before End Date.")
  else Ok ().

(** *** [_get_months_in_range] *)

Record month_bucket : Type := {
  m_date : date;
  m_name : string;
  m_year : Z;
  m_month : Z;
  m_start : date;
  m_end : date
}.

(** The [while current <= end] loop. Each unit of [fuel] pays for one
    evaluation of the loop condition. *)
Fixpoint months_loop (fuel : nat) (current end_ : date)
    (months : list month_bucket) : outcome (list month_bucket) :=
  match fuel with
  | O => Diverge
  | S fuel' =>
    if date_leb current end_ then
      next ←! add_month current;
      month_end ←! sub_day next;
      let months' := months ++ [ {| m_date := current;
                                    m_name := strftime_B_Y current;
                                    m_year := year current;
                                    m_month := month current;
                                    m_start := current;
                                    m_end := month_end |} ] in
      current' ←! add_month current;
      months_loop fuel' current' end_ months'
    else Ok months
  end.

(** One more than the number of months from [current] to [end_]: enough for
    every iteration and the final, failing, test of the condition
    (lemma [months_loop_fuel_mono] shows that a larger budget changes
    nothing). *)
Definition months_budget (current end_ : date) : nat :=
  S (Z.to_nat (month_index end_ - month_index current + 1)).

Definition _get_months_in_range (w : wizard) : outcome (list month_bucket) :=
  current ←! replace_day (date_from w) 1;
  end_ ←! replace_day (date_to w) 1;
  months_loop (months_budget current end_) current end_ [].

(** *** [_get_products] *)

(** The leaves of the search domains the wizard builds on [product.product]. *)
Inductive leaf : Type :=
| Type_eq (v : string)               (* ('type', '=', v) *)
| Id_in (ids : list Z)               (* ('id', 'in', ids) *)
| Categ_child_of (ids : list Z).     (* ('categ_id', 'child_of', ids) *)

Definition leaf_holds (e : env) (p : product_product) (l : leaf) : bool :=
  match l with
  | Type_eq v => bool_decide (tmpl_type <$> template_of e p = Some v)
  | Id_in ids => bool_decide (prod_id p ∈ ids)
  | Categ_child_of ids =>
    match template_of e p with
    | Some t =>
      bool_decide (Exists (λ c, categ_id c = tmpl_categ_id t
                                ∧ Exists (λ a, a ∈ ids) (categ_parent_path c))
                          (t_product_category e))
    | None => false
    end
  end.

Definition name_le (e : env) (p q : product_product) : Prop :=
  String.leb (product_name e p) (product_name e q).

(** [self.env['product.product'].search(domain, order='name')]; the collation
    of the database is taken to be the bytewise order of [String.leb]. *)
Definition search_products (e : env) (domain : list leaf) : list product_product :=
  merge_sort (name_le e)
    (filter (λ p, forallb (leaf_holds e p) domain) (t_product_product e)).

Definition _get_products (e : env) (w : wizard) : list product_product :=
  let domain := [Type_eq "consu"] in
  let domain :=
    if product_ids w is [] then domain else domain ++ [Id_in (product_ids w)] in
  let domain :=
    if category_ids w is [] then domain
    else domain ++ [Categ_child_of (category_ids w)] in
  let products := search_products e domain in
  if products is [] then products
  else
    let phantom_bom_product_tmpl_ids :=
      remove_dups
        (bom_product_tmpl_id <$>
           filter (λ b, bom_type b = "phantom"
                        ∧ bom_product_tmpl_id b ∈ remove_dups (prod_tmpl_id <$> products))
                  (t_mrp_bom e)) in
    if phantom_bom_product_tmpl_ids is [] then products
    else filter (λ p, prod_tmpl_id p ∉ phantom_bom_product_tmpl_ids) products.

(** *** [_get_location_ids] *)

Definition m2o_in (x : option Z) (ids : list Z) : bool :=
  match x with
  | Some i => bool_decide (i ∈ ids)
  | None => false
  end.

Definition _get_location_ids (e : env) (w : wizard) : list Z :=
  let locations :=
    if warehouse_ids w is [] then
      filter (λ l, loc_usage l = "internal") (t_stock_location e)
    else
      filter (λ l, loc_usage l = "internal"
                   ∧ m2o_in (loc_warehouse_id l) (warehouse_ids w))
             (t_stock_location e) in
  loc_id <$> locations.

(** *** [_get_stock_at_date] *)

(** The [WHERE] clause of the balance query. *)
Definition stock_at_date_where (product_id : Z) (d : date) (location_ids : list Z)
    (sm : stock_move) : Prop :=
  move_product_id sm = product_id
  ∧ move_state sm = "done"
  ∧ date_leb (move_date sm) d
  ∧ (move_location_id sm ∈ location_ids ∨ move_location_dest_id sm ∈ location_ids).

(** The [CASE] expression that is summed. *)
Definition stock_at_date_case (location_ids : list Z) (sm : stock_move) : Qc :=
  if decide (move_location_dest_id sm ∈ location_ids) then move_product_qty sm
  else if decide (move_location_id sm ∈ location_ids) then (- move_product_qty sm)%Qc
  else 0%Qc.

(** psycopg2 renders [tuple(location_ids)] of an empty list as [()], and
    PostgreSQL rejects [IN ()]. *)
Definition _get_stock_at_date (e : env) (product_id : Z) (d : date)
    (location_ids : list Z) : outcome Qc :=
  if location_ids is [] then Raise ProgrammingError
  else
    Ok (sql_sum (stock_at_date_case location_ids <$>
                   filter (stock_at_date_where product_id d location_ids)
                          (t_stock_move e))).

(** *** [_get_phantom_bom_components] *)

(** The quantity of a BoM line in the unit of measure of its component. *)
Definition component_qty (e : env) (line : mrp_bom_line) : Qc :=
  if decide (Some (line_product_uom_id line) ≠ uom_of_product e (line_product_id line))
  then uom_compute_quantity e (line_product_uom_id line) (line_product_qty line)
         (uom_of_product e (line_product_id line))
  else line_product_qty line.

(** The body of [for line in bom_lines]. *)
Definition kit_step (e : env) (result : gmap Z Qc) (line : mrp_bom_line) : gmap Z Qc :=
  match browse bom_id (t_mrp_bom e) (line_bom_id line) with
  | None => result
  | Some bom =>
    if decide (bom_type bom = "phantom") then
      match bom_product_id bom with
      | Some kit_product_id => <[kit_product_id := component_qty e line]> result
      | None =>
        let kit_products :=
          filter (λ p, prod_tmpl_id p = bom_product_tmpl_id bom) (t_product_product e) in
        foldl (λ result kit_product,
                 <[prod_id kit_product := component_qty e line]> result)
              result kit_products
      end
    else result
  end.

Definition _get_phantom_bom_components (e : env) (product_id : Z) : gmap Z Qc :=
  let bom_lines := filter (λ l, line_product_id l = product_id) (t_mrp_bom_line e) in
  foldl (kit_step e) ∅ bom_lines.

(** *** [_get_stock_moves_data] *)

Module MoveData.
Record t : Type := {
  qty_in : Qc; qty_out : Qc; value_in : Qc; value_out : Qc;
  purchase_qty : Qc; purchase_value : Qc;
  sale_qty : Qc; sale_value : Qc;
  pos_qty : Qc; pos_value : Qc
}.
End MoveData.

(** The correlated subquery of the incoming-moves query: the unit price of
    the purchase line the move is linked to ([LIMIT 1]), if any. *)
Definition linked_purchase_price (e : env) (sm : stock_move) : option Qc :=
  head (pol ← t_purchase_order_line e;
        sm2 ← filter (λ sm2, move_purchase_line_id sm2 = Some (pol_id pol)
                             ∧ move_id sm2 = move_id sm) (t_stock_move e);
        [pol_price_unit pol]).

Definition incoming_moves (e : env) (product_id : Z) (date_start date_end : date)
    (location_ids : list Z) : list stock_move :=
  filter (λ sm, move_product_id sm = product_id
                ∧ move_state sm = "done"
                ∧ in_window (move_date sm) date_start date_end
                ∧ move_location_dest_id sm ∈ location_ids
                ∧ move_location_id sm ∉ location_ids)
         (t_stock_move e).

Definition outgoing_moves (e : env) (product_id : Z) (date_start date_end : date)
    (location_ids : list Z) : list stock_move :=
  filter (λ sm, move_product_id sm = product_id
                ∧ move_state sm = "done"
                ∧ in_window (move_date sm) date_start date_end
                ∧ move_location_id sm ∈ location_ids
                ∧ move_location_dest_id sm ∉ location_ids)
         (t_stock_move e).

(** The purchase query: the joined rows that pass the [WHERE] clause, and
    the two sums. *)
Definition purchase_rows (e : env) (product_id : Z) (date_start date_end : date)
    : list (purchase_order_line * uom_uom * uom_uom) :=
  pol ← t_purchase_order_line e;
  po ← filter (λ po, po_id po = pol_order_id pol) (t_purchase_order e);
  pp ← filter (λ pp, prod_id pp = pol_product_id pol) (t_product_product e);
  pt ← filter (λ pt, tmpl_id pt = prod_tmpl_id pp) (t_product_template e);
  prod_uom ← filter (λ u, uom_id u = tmpl_uom_id pt) (t_uom_uom e);
  pol_uom ← filter (λ u, uom_id u = pol_product_uom_id pol) (t_uom_uom e);
  if decide (pol_product_id pol = product_id
             ∧ (po_state po = "purchase" ∨ po_state po = "done")
             ∧ in_window (po_date_approve po) date_start date_end)
  then [(pol, prod_uom, pol_uom)] else [].

Definition purchase_totals (e : env) (product_id : Z) (date_start date_end : date)
    : Qc * Qc :=
  let rows := purchase_rows e product_id date_start date_end in
  (sql_sum ((λ '(pol, prod_uom, pol_uom),
               pol_qty_received pol / uom_factor pol_uom * uom_factor prod_uom)%Qc
            <$> rows),
   sql_sum ((λ '(pol, _, _), pol_qty_received pol * pol_price_unit pol)%Qc <$> rows)).

(** The sale query; the wizard runs the same statement for the product itself
    and for each kit. *)
Definition sale_rows (e : env) (product_id : Z) (date_start date_end : date)
    : list (sale_order_line * uom_uom * uom_uom) :=
  sol ← t_sale_order_line e;
  so ← filter (λ so, so_id so = sol_order_id sol) (t_sale_order e);
  pp ← filter (λ pp, prod_id pp = sol_product_id sol) (t_product_product e);
  pt ← filter (λ pt, tmpl_id pt = prod_tmpl_id pp) (t_product_template e);
  prod_uom ← filter (λ u, uom_id u = tmpl_uom_id pt) (t_uom_uom e);
  sol_uom ← filter (λ u, uom_id u = sol_product_uom_id sol) (t_uom_uom e);
  if decide (sol_product_id sol = product_id
             ∧ (so_state so = "sale" ∨ so_state so = "done")
             ∧ in_window (so_date_order so) date_start date_end)
  then [(sol, prod_uom, sol_uom)] else [].

Definition sale_totals (e : env) (product_id : Z) (date_start date_end : date)
    : Qc * Qc :=
  let rows := sale_rows e product_id date_start date_end in
  (sql_sum ((λ '(sol, prod_uom, sol_uom),
               sol_qty_delivered sol / uom_factor sol_uom * uom_factor prod_uom)%Qc
            <$> rows),
   sql_sum ((λ '(sol, _, _), sol_qty_delivered sol * sol_price_unit sol)%Qc <$> rows)).

(** The point-of-sale query, likewise shared by the product and its kits. *)
Definition pos_rows (e : env) (product_id : Z) (date_start date_end : date)
    : list pos_order_line :=
  pol ← t_pos_order_line e;
  po ← filter (λ po, pos_id po = posl_order_id pol) (t_pos_order e);
  if decide (posl_product_id pol = product_id
             ∧ (pos_state po = "paid" ∨ pos_state po = "done"
                ∨ pos_state po = "invoiced")
             ∧ in_window (pos_date_order po) date_start date_end)
  then [pol] else [].

Definition pos_totals (e : env) (product_id : Z) (date_start date_end : date)
    : Qc * Qc :=
  let rows := pos_rows e product_id date_start date_end in
  (sql_sum (posl_qty <$> rows), sql_sum (posl_price_subtotal_incl <$> rows)).

(** The body of [for kit_product_id, bom_qty in phantom_bom_data.items()]:
    [totals] is the query run for the kit, [acc] the running
    (qty, value) pair; the kit is skipped when its quantity is falsy. The
    loop is a fold over the items of the dict; their order does not change
    the exact sums (lemma [foldl_add_kit_Permutation]). *)
Definition add_kit (totals : Z → Qc * Qc) (acc : Qc * Qc) (item : Z * Qc) : Qc * Qc :=
  let '(kit_product_id, bom_qty) := item in
  let result := totals kit_product_id in
  if decide (result.1 ≠ 0%Qc)
  then (acc.1 + result.1 * bom_qty, acc.2 + result.2 * bom_qty)%Qc
  else acc.

Definition _get_stock_moves_data (e : env) (w : wizard) (product_id : Z)
    (date_start date_end : date) (location_ids : list Z) : outcome MoveData.t :=
  let phantom_bom_data := _get_phantom_bom_components e product_id in
  if location_ids is [] then Raise ProgrammingError
  else
    let incoming := incoming_moves e product_id date_start date_end location_ids in
    let outgoing := outgoing_moves e product_id date_start date_end location_ids in
    let purchase :=
      if include_purchases w
      then purchase_totals e product_id date_start date_end
      else (0, 0)%Qc in
    let sale :=
      if include_sales w then
        foldl (add_kit (λ kit, sale_totals e kit date_start date_end))
              (sale_totals e product_id date_start date_end)
              (map_to_list phantom_bom_data)
      else (0, 0)%Qc in
    let pos :=
      if include_pos w then
        foldl (add_kit (λ kit, pos_totals e kit date_start date_end))
              (pos_totals e product_id date_start date_end)
              (map_to_list phantom_bom_data)
      else (0, 0)%Qc in
    Ok {| MoveData.qty_in := sql_sum (move_product_qty <$> incoming);
          MoveData.value_in :=
            sql_sum ((λ sm, move_product_qty sm
                            * default (move_price_unit sm) (linked_purchase_price e sm))%Qc
                     <$> incoming);
          MoveData.qty_out := sql_sum (move_product_qty <$> outgoing);
          MoveData.value_out :=
            sql_sum ((λ sm, move_product_qty sm * move_price_unit sm)%Qc <$> outgoing);
          MoveData.purchase_qty := purchase.1;
          MoveData.purchase_value := purchase.2;
          MoveData.sale_qty := sale.1;
          MoveData.sale_value := sale.2;
          MoveData.pos_qty := pos.1;
          MoveData.pos_value := pos.2 |}.

(** *** [_write_excel_content]

    The worksheet is modelled by what is written into it: the title, the
    two header groups and, for every product, the cells of its row from
    column 1 on, in the order of [col += 1]. A cell is a value and the key
    of its entry in [formats]. Labels, widths, panes and the product
    display name are left to the renderer. *)

Module MonthData.
Record t : Type := {
  opening_qty : Qc;
  purchase_qty : Qc; purchase_value : Qc;
  sale_qty : Qc; sale_value : Qc;
  pos_qty : Qc; pos_value : Qc;
  closing_qty : Qc
}.
(** [month_data.get(key, 0)] *)
Definition get (key : string) (d : t) : Qc :=
  match key with
  | "opening_qty" => opening_qty d
  | "purchase_qty" => purchase_qty d
  | "purchase_value" => purchase_value d
  | "sale_qty" => sale_qty d
  | "sale_value" => sale_value d
  | "pos_qty" => pos_qty d
  | "pos_value" => pos_value d
  | "closing_qty" => closing_qty d
  | _ => 0%Qc
  end%string.
End MonthData.

Module YearTotals.
Record t : Type := {
  total_purchase_qty : Qc; total_purchase_value : Qc;
  total_sale_qty : Qc; total_sale_value : Qc;
  total_pos_qty : Qc; total_pos_value : Qc
}.
Definition zero : t := Build_t 0 0 0 0 0 0.
(** The six [+=] of "Accumulate yearly totals". *)
Definition accumulate (y : t) (move_data : MoveData.t) : t :=
  {| total_purchase_qty := total_purchase_qty y + MoveData.purchase_qty move_data;
     total_purchase_value := total_purchase_value y + MoveData.purchase_value move_data;
     total_sale_qty := total_sale_qty y + MoveData.sale_qty move_data;
     total_sale_value := total_sale_value y + MoveData.sale_value move_data;
     total_pos_qty := total_pos_qty y + MoveData.pos_qty move_data;
     total_pos_value := total_pos_value y + MoveData.pos_value move_data |}%Qc.
(** [yearly_totals[year].get(key, 0)] *)
Definition get (key : string) (y : t) : Qc :=
  match key with
  | "total_purchase_qty" => total_purchase_qty y
  | "total_purchase_value" => total_purchase_value y
  | "total_sale_qty" => total_sale_qty y
  | "total_sale_value" => total_sale_value y
  | "total_pos_qty" => total_pos_qty y
  | "total_pos_value" => total_pos_value y
  | _ => 0%Qc
  end%string.
End YearTotals.

Record cell : Type := { cell_value : Qc; cell_format : string }.

Record sheet_row : Type := { row_product : product_product; row_cells : list cell }.

Record worksheet : Type := {
  ws_title : string;
  ws_month_headers : list string;
  ws_year_headers : list string;
  ws_rows : list sheet_row
}.

(** (key, format type) of the columns; the labels are not modelled. *)
Definition month_columns : list (string * string) :=
  [("opening_qty", "integer"); ("purchase_qty", "integer");
   ("purchase_value", "currency"); ("sale_qty", "integer");
   ("sale_value", "currency"); ("pos_qty", "integer");
   ("pos_value", "currency"); ("closing_qty", "integer")]%string.

Definition year_columns : list (string * string) :=
  [("total_purchase_qty", "integer"); ("total_purchase_value", "currency");
   ("total_sale_qty", "integer"); ("total_sale_value", "currency");
   ("total_pos_qty", "integer"); ("total_pos_value", "currency")]%string.

Definition month_cell (month_data : MonthData.t) (col_def : string * string) : cell :=
  let '(key, fmt_type) := col_def in
  let value := MonthData.get key month_data in
  if decide (fmt_type = "currency") then {| cell_value := value; cell_format := "currency" |}
  else if decide (fmt_type = "integer") then {| cell_value := value; cell_format := "integer" |}
  else {| cell_value := value; cell_format := "number" |}.

Definition year_cell (totals : YearTotals.t) (col_def : string * string) : cell :=
  let '(key, fmt_type) := col_def in
  let value := YearTotals.get key totals in
  if decide (fmt_type = "currency")
  then {| cell_value := value; cell_format := "year_currency" |}
  else {| cell_value := value; cell_format := "year_number" |}.

(** [sorted(set(m['year'] for m in months))] *)
Definition years_of (months : list month_bucket) : list Z :=
  merge_sort Z.le (remove_dups (m_year <$> months)).

(** A [for] loop whose body may raise. *)
Fixpoint for_each {A St : Type} (body : St → A → outcome St) (s : St) (l : list A)
    : outcome St :=
  match l with
  | [] => Ok s
  | x :: l' => s' ←! body s x; for_each body s' l'
  end.

(** [d[key]] on a dict. *)
Definition getitem {V : Type} (d : gmap Z V) (key : Z) : outcome V :=
  match d !! key with
  | Some v => Ok v
  | None => Raise KeyError
  end.

(** "Get opening stock": the balance on [month['start'] - timedelta(days=1)]. *)
Definition opening_stock (e : env) (product_id : Z) (location_ids : list Z)
    (month : month_bucket) : outcome Qc :=
  eve ←! sub_day (m_start month);
  _get_stock_at_date e product_id eve location_ids.

(** "Get closing stock": the balance on [month['end']]. *)
Definition closing_stock (e : env) (product_id : Z) (location_ids : list Z)
    (month : month_bucket) : outcome Qc :=
  _get_stock_at_date e product_id (m_end month) location_ids.

(** The body of [for month in months], on the cells written so far and
    [yearly_totals]. *)
Definition month_step (e : env) (w : wizard) (product : product_product)
    (location_ids : list Z) (st : list cell * gmap Z YearTotals.t)
    (month : month_bucket) : outcome (list cell * gmap Z YearTotals.t) :=
  let '(cells, yearly_totals) := st in
  opening_qty ←! opening_stock e (prod_id product) location_ids month;
  move_data ←! _get_stock_moves_data e w (prod_id product)
                 (m_start month) (m_end month) location_ids;
  closing_qty ←! closing_stock e (prod_id product) location_ids month;
  let month_data :=
    {| MonthData.opening_qty := opening_qty;
       MonthData.purchase_qty := MoveData.purchase_qty move_data;
       MonthData.purchase_value := MoveData.purchase_value move_data;
       MonthData.sale_qty := MoveData.sale_qty move_data;
       MonthData.sale_value := MoveData.sale_value move_data;
       MonthData.pos_qty := MoveData.pos_qty move_data;
       MonthData.pos_value := MoveData.pos_value move_data;
       MonthData.closing_qty := closing_qty |} in
  let cells := cells ++ (month_cell month_data <$> month_columns) in
  totals ←! getitem yearly_totals (m_year month);
  Ok (cells, <[m_year month := YearTotals.accumulate totals move_data]> yearly_totals).

(** The body of the "Write yearly totals" loop. *)
Definition year_step (yearly_totals : gmap Z YearTotals.t) (cells : list cell)
    (year : Z) : outcome (list cell) :=
  totals ←! getitem yearly_totals year;
  Ok (cells ++ (year_cell totals <$> year_columns)).

(** The monthly part of a product row: the cells and the final
    [yearly_totals]. *)
Definition row_months (e : env) (w : wizard) (product : product_product)
    (months : list month_bucket) (location_ids : list Z)
    : outcome (list cell * gmap Z YearTotals.t) :=
  let years_in_range := years_of months in
  let yearly_totals : gmap Z YearTotals.t :=
    list_to_map ((λ year, (year, YearTotals.zero)) <$> years_in_range) in
  for_each (month_step e w product location_ids) ([], yearly_totals) months.

(** The body of [for product in products]. *)
Definition write_product_row (e : env) (w : wizard) (months : list month_bucket)
    (location_ids : list Z) (rows : list sheet_row) (product : product_product)
    : outcome (list sheet_row) :=
  st ←! row_months e w product months location_ids;
  cells ←! for_each (year_step st.2) st.1 (years_of months);
  Ok (rows ++ [ {| row_product := product; row_cells := cells |} ]).

(** [str(d)]: ISO format, zero padded. *)
Fixpoint zeros (n : nat) : string :=
  match n with
  | O => String.EmptyString
  | S n' => "0" +:+ zeros n'
  end.

Definition zero_pad (width : nat) (s : string) : string :=
  zeros (width - String.length s) +:+ s.

Definition isoformat (d : date) : string :=
  zero_pad 4 (pretty (year d)) +:+ "-" +:+ zero_pad 2 (pretty (month d))
  +:+ "-" +:+ zero_pad 2 (pretty (day d)).

Definition _write_excel_content (e : env) (w : wizard)
    (products : list product_product) (months : list month_bucket)
    (location_ids : list Z) : outcome worksheet :=
  rows ←! for_each (write_product_row e w months location_ids) [] products;
  Ok {| ws_title := "Stock Movement Report (" +:+ isoformat (date_from w)
                    +:+ " to " +:+ isoformat (date_to w) +:+ ")";
        ws_month_headers := m_name <$> months;
        ws_year_headers :=
          (λ year, "Year " +:+ pretty year +:+ " Total") <$> years_of months;
        ws_rows := rows |}.

(** *** [action_generate_report] *)

(** What a successful run stores on the wizard. *)
Record report : Type := { excel_file : worksheet; file_name : string }.

Definition action_generate_report (e : env) (w : wizard) : outcome report :=
  if negb (xlsxwriter e) then
    Raise (UserError "xlsxwriter library is required. Please install it using: pip install xlsxwriter")
  else
    let products := _get_products e w in
    if products is [] then
      Raise (UserError "No products found with the given criteria.")
    else
      months ←! _get_months_in_range w;
      if months is [] then
        Raise (UserError "No months found in the selected date range.")
      else
        let location_ids := _get_location_ids e w in
        if location_ids is [] then Raise (UserError "No stock locations found.")
        else
          ws ←! _write_excel_content e w products months location_ids;
          Ok {| excel_file := ws;
                file_name := "Stock_Movement_Report_" +:+ isoformat (date_from w)
                             +:+ "_" +:+ isoformat (date_to w) +:+ ".xlsx" |}.

(** The ORM runs the [@api.constrains] methods of a record whenever it is
    created or written, so the button method only ever runs on a wizard that
    passed [_check_dates]: a report request is the two in sequence. *)
Definition generate_report (e : env) (w : wizard) : outcome report :=
  _ ←! _check_dates w;
  action_generate_report e w.

End Wizard.
Export Wizard.

(** ** The calls on the worksheet

    A second, finer view of [_write_excel_content]: the calls it makes on
    the xlsxwriter worksheet, with their row and column arguments, in the
    order of the source; together with [_get_product_display_name], whose
    result is written in column 0, and the formats of
    [_create_excel_formats] that the calls name. *)

Module Layout.

(** *** [_get_product_display_name] *)

(** An element of [product.product_template_attribute_value_ids]:
    [attribute_id.name] and [name]. *)
Record attribute_value : Type := {
  av_attribute_name : string;
  av_name : string
}.

(** [attribute_value_ids] gives the attribute values of a variant, by
    product id, in the order of the recordset. *)
Definition _get_product_display_name (e : env)
    (attribute_value_ids : Z → list attribute_value) (product : product_product)
    : string :=
  let name := product_name e product in
  if attribute_value_ids (prod_id product) is [] then name
  else
    let attributes :=
      (λ attr_value, av_attribute_name attr_value +:+ ": " +:+ av_name attr_value)
      <$> attribute_value_ids (prod_id product) in
    if attributes is [] then name
    else name +:+ " (" +:+ String.concat ", " attributes +:+ ")".

(** *** [_create_excel_formats] *)

Inductive format_value : Type :=
| FBool (b : bool)
| FInt (n : Z)
| FStr (s : string).

Definition format : Type := list (string * format_value).

(** The dict [formats], built by the eleven assignments of the method. *)
Definition _create_excel_formats : gmap string format :=
  let formats : gmap string format := ∅ in
  let formats := <["title" :=
    [("bold", FBool true); ("font_size", FInt 16); ("align", FStr "center");
     ("valign", FStr "vcenter"); ("font_color", FStr "#FFFFFF");
     ("bg_color", FStr "#2E7D32"); ("border", FInt 1)]]> formats in
  let formats := <["header_month" :=
    [("bold", FBool true); ("font_size", FInt 12); ("align", FStr "center");
     ("valign", FStr "vcenter"); ("font_color", FStr "#FFFFFF");
     ("bg_color", FStr "#1565C0"); ("border", FInt 1);
     ("text_wrap", FBool true)]]> formats in
  let formats := <["header_col" :=
    [("bold", FBool true); ("font_size", FInt 10); ("align", FStr "center");
     ("valign", FStr "vcenter"); ("font_color", FStr "#FFFFFF");
     ("bg_color", FStr "#42A5F5"); ("border", FInt 1);
     ("text_wrap", FBool true)]]> formats in
  let formats := <["product" :=
    [("bold", FBool true); ("font_size", FInt 10); ("align", FStr "left");
     ("valign", FStr "vcenter"); ("bg_color", FStr "#E3F2FD"); ("border", FInt 1);
     ("text_wrap", FBool true)]]> formats in
  let formats := <["number" :=
    [("font_size", FInt 10); ("align", FStr "right"); ("valign", FStr "vcenter");
     ("num_format", FStr "#,##0.00"); ("border", FInt 1)]]> formats in
  let formats := <["currency" :=
    [("font_size", FInt 10); ("align", FStr "right"); ("valign", FStr "vcenter");
     ("num_format", FStr "Rp #,##0.00"); ("border", FInt 1)]]> formats in
  let formats := <["integer" :=
    [("font_size", FInt 10); ("align", FStr "right"); ("valign", FStr "vcenter");
     ("num_format", FStr "#,##0"); ("border", FInt 1)]]> formats in
  let formats := <["header_year" :=
    [("bold", FBool true); ("font_size", FInt 12); ("align", FStr "center");
     ("valign", FStr "vcenter"); ("font_color", FStr "#FFFFFF");
     ("bg_color", FStr "#FF6F00"); ("border", FInt 1);
     ("text_wrap", FBool true)]]> formats in
  let formats := <["header_year_col" :=
    [("bold", FBool true); ("font_size", FInt 10); ("align", FStr "center");
     ("valign", FStr "vcenter"); ("font_color", FStr "#FFFFFF");
     ("bg_color", FStr "#FFB300"); ("border", FInt 1);
     ("text_wrap", FBool true)]]> formats in
  let formats := <["year_number" :=
    [("font_size", FInt 10); ("align", FStr "right"); ("valign", FStr "vcenter");
     ("num_format", FStr "#,##0.00"); ("border", FInt 1);
     ("bg_color", FStr "#FFF3E0")]]> formats in
  let formats := <["year_currency" :=
    [("font_size", FInt 10); ("align", FStr "right"); ("valign", FStr "vcenter");
     ("num_format", FStr "Rp #,##0.00"); ("border", FInt 1);
     ("bg_color", FStr "#FFF3E0")]]> formats in
  formats.

(** *** The calls of [_write_excel_content] *)

(** A call on the worksheet; [fmt] is the key of the format in [formats]. *)
Inductive sheet_call : Type :=
| Merge_range (first_row first_col last_row last_col : Z) (data : string) (fmt : string)
| Write_string (row col : Z) (data : string) (fmt : string)
| Write_number (row col : Z) (value : Qc) (fmt : string)
| Set_column (first_col last_col width : Z)
| Set_row (row height : Z)
| Freeze_panes (row col : Z)
| Autofilter (first_row first_col last_row last_col : Z).

(** The line feed of the two-line labels. *)
Definition LF : string := String (Ascii.ascii_of_nat 10) String.EmptyString.

(** (key, label, format type), as in the source. *)
Definition month_column_defs : list (string * string * string) :=
  [("opening_qty", "Opening" +:+ LF +:+ "Stock", "integer");
   ("purchase_qty", "Purchased" +:+ LF +:+ "Qty", "integer");
   ("purchase_value", "Purchase" +:+ LF +:+ "Value", "currency");
   ("sale_qty", "Sold Qty" +:+ LF +:+ "(Sales)", "integer");
   ("sale_value", "Sales" +:+ LF +:+ "Value", "currency");
   ("pos_qty", "Sold Qty" +:+ LF +:+ "(POS)", "integer");
   ("pos_value", "POS" +:+ LF +:+ "Value", "currency");
   ("closing_qty", "Closing" +:+ LF +:+ "Stock", "integer")].

Definition year_column_defs : list (string * string * string) :=
  [("total_purchase_qty", "Total" +:+ LF +:+ "Purchased", "integer");
   ("total_purchase_value", "Total" +:+ LF +:+ "Purchase Value", "currency");
   ("total_sale_qty", "Total" +:+ LF +:+ "Sold (Sales)", "integer");
   ("total_sale_value", "Total" +:+ LF +:+ "Sales Value", "currency");
   ("total_pos_qty", "Total" +:+ LF +:+ "Sold (POS)", "integer");
   ("total_pos_value", "Total" +:+ LF +:+ "POS Value", "currency")].

Definition cols_per_month : Z := Z.of_nat (length month_column_defs).

Definition total_cols (months : list month_bucket) : Z :=
  let total_month_cols := Z.of_nat (length months) * cols_per_month in
  let total_year_cols :=
    Z.of_nat (length (years_of months)) * Z.of_nat (length year_column_defs) in
  1 + total_month_cols + total_year_cols.

(** The state of the writing loops: the local [col] and the calls made so
    far. *)
Definition cursor : Type := Z * list sheet_call.

(** The body of the two loops of row 1: a header merged across [width]
    columns. *)
Definition merge_header (row width : Z) (fmt : string) (st : cursor) (data : string)
    : cursor :=
  let '(col, calls) := st in
  let end_col := col + width - 1 in
  (end_col + 1, calls ++ [Merge_range row col row end_col data fmt]).

(** The body of [for col_def in ...] of row 2. *)
Definition write_sub_header (row : Z) (fmt : string) (st : cursor)
    (col_def : string * string * string) : cursor :=
  let '(col, calls) := st in
  (col + 1, calls ++ [Write_string row col col_def.1.2 fmt]).

(** The calls up to "Write product data". *)
Definition write_headers (w : wizard) (months : list month_bucket) : list sheet_call :=
  let years_in_range := years_of months in
  let calls :=
    [Merge_range 0 0 0 (total_cols months - 1)
       ("Stock Movement Report (" +:+ isoformat (date_from w)
        +:+ " to " +:+ isoformat (date_to w) +:+ ")") "title"] in
  let row := 1 in
  let col := 1 in
  let calls := calls ++ [Write_string row 0 "Product" "header_month"] in
  let calls := calls ++ [Write_string (row + 1) 0 "Variant" "header_col"] in
  let st := foldl (merge_header row cols_per_month "header_month") (col, calls)
              (m_name <$> months) in
  let st := foldl (merge_header row (Z.of_nat (length year_column_defs)) "header_year") st
              ((λ year, "Year " +:+ pretty year +:+ " Total") <$> years_in_range) in
  let row := 2 in
  let col := 1 in
  let st := foldl (λ st _, foldl (write_sub_header row "header_col") st month_column_defs)
              (col, st.2) months in
  let st := foldl (λ st _, foldl (write_sub_header row "header_year_col") st
                             year_column_defs)
              st years_in_range in
  st.2 ++ [Set_column 0 0 45; Set_column 1 (total_cols months - 1) 12;
           Set_row 0 30; Set_row 1 25; Set_row 2 40].

(** The body of the cell loops of a product row: one [write] and
    [col += 1]. *)
Definition write_cell (data_row : Z) (st : cursor) (c : cell) : cursor :=
  let '(col, calls) := st in
  (col + 1, calls ++ [Write_number data_row col (cell_value c) (cell_format c)]).

(** The writes of [for product in products], on the rows computed for the
    products; the state is [data_row] and the calls made so far. *)
Definition write_data_row (e : env) (attribute_value_ids : Z → list attribute_value)
    (st : cursor) (row : sheet_row) : cursor :=
  let '(data_row, calls) := st in
  let product_name := _get_product_display_name e attribute_value_ids (row_product row) in
  let calls := calls ++ [Write_string data_row 0 product_name "product"] in
  let col := 1 in
  let st := foldl (write_cell data_row) (col, calls) (row_cells row) in
  (data_row + 1, st.2).

(** All the calls of a run that computed the rows [ws_rows ws]. *)
Definition sheet_calls (e : env) (attribute_value_ids : Z → list attribute_value)
    (w : wizard) (months : list month_bucket) (ws : worksheet) : list sheet_call :=
  let data_row := 3 in
  let st := foldl (write_data_row e attribute_value_ids)
              (data_row, write_headers w months) (ws_rows ws) in
  st.2 ++ [Freeze_panes 3 1; Autofilter 2 0 (st.1 - 1) (total_cols months - 1)].

Definition _write_excel_calls (e : env) (attribute_value_ids : Z → list attribute_value)
    (w : wizard) (products : list product_product) (months : list month_bucket)
    (location_ids : list Z) : outcome (list sheet_call) :=
  ws ←! _write_excel_content e w products months location_ids;
  Ok (sheet_calls e attribute_value_ids w months ws).

End Layout.
Export Layout.

(** * Vocabulary of the specification *)

Module Spec.

(** The calendar month after month [m] of year [y]. *)
Definition next_ym (y m : Z) : Z * Z := if m =? 12 then (y + 1, 1) else (y, m + 1).

(** The bucket of a whole calendar month. *)
Definition bucket_at (y m : Z) : month_bucket :=
  {| m_date := mkdate y m 1; m_name := strftime_B_Y (mkdate y m 1);
     m_year := y; m_month := m; m_start := mkdate y m 1;
     m_end := mkdate y m (days_in_month y m) |}.

(** [n] consecutive whole months, from month [m] of year [y] on. *)
Fixpoint buckets_from (n : nat) (y m : Z) : list month_bucket :=
  match n with
  | O => []
  | S n' => bucket_at y m :: buckets_from n' (next_ym y m).1 (next_ym y m).2
  end.

(** (year, month) of [a] is before (year, month) of [b]. *)
Definition ym_lt (a b : month_bucket) : Prop :=
  m_year a < m_year b ∨ (m_year a = m_year b ∧ m_month a < m_month b).

Definition bucket_contains (b : month_bucket) (d : date) : Prop :=
  date_leb (m_start b) d ∧ date_leb d (m_end b).

(** The bucket runs from the first to the last calendar day of its month. *)
Definition full_month (b : month_bucket) : Prop :=
  1 ≤ m_month b ≤ 12
  ∧ m_start b = mkdate (m_year b) (m_month b) 1
  ∧ m_end b = mkdate (m_year b) (m_month b) (days_in_month (m_year b) (m_month b)).

(** What the specification says of the month buckets of a request:
    non-empty, strictly increasing, without gaps, the first containing
    [date_from], the last containing [date_to], each a whole month. *)
Definition bucketer_post (w : wizard) (months : list month_bucket) : Prop :=
  months ≠ []
  ∧ (∀ i j a b, (i < j)%nat → months !! i = Some a → months !! j = Some b → ym_lt a b)
  ∧ (∀ i a b, months !! i = Some a → months !! S i = Some b →
       (m_year b, m_month b) = next_ym (m_year a) (m_month a))
  ∧ (∃ b, head months = Some b ∧ bucket_contains b (date_from w))
  ∧ (∃ b, last months = Some b ∧ bucket_contains b (date_to w))
  ∧ (∀ b, b ∈ months → full_month b).

(** The dates of a request are well-formed Python dates, in order. *)
Definition valid_request (w : wizard) : Prop :=
  valid_date (date_from w) = true
  ∧ valid_date (date_to w) = true
  ∧ date_leb (date_from w) (date_to w) = true.

(** Two dates of the same calendar month. *)
Definition same_month (d d' : date) : Prop := year d = year d' ∧ month d = month d'.

(** The month of [d] is the last one Python dates can express. *)
Definition last_month_of_time (d : date) : Prop := year d = MAXYEAR ∧ month d = 12.

End Spec.
Export Spec.

Module SpecStock.

(** Adjacent buckets: the eve of the start of the later one is the end of
    the earlier one. *)
Definition contiguous (a b : month_bucket) : Prop :=
  sub_day (m_start b) = Ok (m_end a).

(** Stock-at-date in the words of the specification: over the done moves of
    the product dated on or before the date, a move into the internal set
    counts +quantity, a move out of it −quantity, and a move with both ends
    inside or both ends outside counts 0. *)
Definition spec_contribution (location_ids : list Z) (sm : stock_move) : Qc :=
  let src_in := bool_decide (move_location_id sm ∈ location_ids) in
  let dst_in := bool_decide (move_location_dest_id sm ∈ location_ids) in
  if negb src_in && dst_in then move_product_qty sm
  else if src_in && negb dst_in then (- move_product_qty sm)%Qc
  else 0%Qc.

Definition spec_stock_at_date (e : env) (product_id : Z) (d : date)
    (location_ids : list Z) : Qc :=
  sql_sum (spec_contribution location_ids <$>
             filter (λ sm, move_product_id sm = product_id
                           ∧ move_state sm = "done"
                           ∧ date_leb (move_date sm) d)
                    (t_stock_move e)).

(** The done moves of the product up to the date with both ends inside the
    location set. *)
Definition internal_transfers (e : env) (product_id : Z) (d : date)
    (location_ids : list Z) : list stock_move :=
  filter (λ sm, move_product_id sm = product_id
                ∧ move_state sm = "done"
                ∧ date_leb (move_date sm) d
                ∧ move_location_id sm ∈ location_ids
                ∧ move_location_dest_id sm ∈ location_ids)
         (t_stock_move e).

End SpecStock.
Export SpecStock.

Module SpecKit.

(** The kit products a BoM line resolves to: none unless its BoM is a
    phantom one; the variant of the BoM when it names one; otherwise every
    variant of the BoM's template. *)
Definition kit_targets (e : env) (line : mrp_bom_line) : list Z :=
  match browse bom_id (t_mrp_bom e) (line_bom_id line) with
  | Some bom =>
    if decide (bom_type bom = "phantom") then
      match bom_product_id bom with
      | Some kit => [kit]
      | None =>
        prod_id <$> filter (λ p, prod_tmpl_id p = bom_product_tmpl_id bom)
                           (t_product_product e)
      end
    else []
  | None => []
  end.

(** The BoM lines of a component, in the order the resolver visits them. *)
Definition bom_lines_of (e : env) (product_id : Z) : list mrp_bom_line :=
  filter (λ l, line_product_id l = product_id) (t_mrp_bom_line e).

(** The quantity of the component that the BoM lists: the sum over the
    BoM's lines of the component, each in the unit of measure of the
    component. *)
Definition bom_consumption (e : env) (product_id : Z) (bom : Z) : Qc :=
  sql_sum (component_qty e <$>
             filter (λ l, line_bom_id l = bom) (bom_lines_of e product_id)).

End SpecKit.
Export SpecKit.

Module SpecSales.

(** The sale figures of a product over a window in the words of the
    specification: its direct totals plus, for every kit the resolver maps
    it to, the kit's own totals times the multiplier. *)
Definition spec_sale_qty (e : env) (product_id : Z) (date_start date_end : date) : Qc :=
  ((sale_totals e product_id date_start date_end).1
   + sql_sum ((λ '(kit, multiplier),
                 (sale_totals e kit date_start date_end).1 * multiplier)
              <$> map_to_list (_get_phantom_bom_components e product_id)))%Qc.

Definition spec_sale_value (e : env) (product_id : Z) (date_start date_end : date) : Qc :=
  ((sale_totals e product_id date_start date_end).2
   + sql_sum ((λ '(kit, multiplier),
                 (sale_totals e kit date_start date_end).2 * multiplier)
              <$> map_to_list (_get_phantom_bom_components e product_id)))%Qc.

(** The same sum of values, restricted to the kits whose own quantity in the
    window is not zero. *)
Definition sold_kits_sale_value (e : env) (product_id : Z) (date_start date_end : date)
    : Qc :=
  ((sale_totals e product_id date_start date_end).2
   + sql_sum ((λ '(kit, multiplier),
                 if decide ((sale_totals e kit date_start date_end).1 ≠ 0)
                 then (sale_totals e kit date_start date_end).2 * multiplier
                 else 0)
              <$> map_to_list (_get_phantom_bom_components e product_id)))%Qc.

End SpecSales.
Export SpecSales.

Module SpecRow.

(** What the wizard computes for one month of one product. *)
Record month_entry : Type := {
  me_opening : Qc;
  me_flows : MoveData.t;
  me_closing : Qc
}.

Definition computed_entry (e : env) (w : wizard) (product_id : Z)
    (location_ids : list Z) (b : month_bucket) (en : month_entry) : Prop :=
  opening_stock e product_id location_ids b = Ok (me_opening en)
  ∧ _get_stock_moves_data e w product_id (m_start b) (m_end b) location_ids
    = Ok (me_flows en)
  ∧ closing_stock e product_id location_ids b = Ok (me_closing en).

(** The [month_data] dict built from an entry. *)
Definition month_data_of (en : month_entry) : MonthData.t :=
  {| MonthData.opening_qty := me_opening en;
     MonthData.purchase_qty := MoveData.purchase_qty (me_flows en);
     MonthData.purchase_value := MoveData.purchase_value (me_flows en);
     MonthData.sale_qty := MoveData.sale_qty (me_flows en);
     MonthData.sale_value := MoveData.sale_value (me_flows en);
     MonthData.pos_qty := MoveData.pos_qty (me_flows en);
     MonthData.pos_value := MoveData.pos_value (me_flows en);
     MonthData.closing_qty := me_closing en |}.

(** The eight monthly figures, in column order. *)
Definition month_values (en : month_entry) : list Qc :=
  [ me_opening en;
    MoveData.purchase_qty (me_flows en); MoveData.purchase_value (me_flows en);
    MoveData.sale_qty (me_flows en); MoveData.sale_value (me_flows en);
    MoveData.pos_qty (me_flows en); MoveData.pos_value (me_flows en);
    me_closing en ].

(** The flows of the months that fall in year [y]. *)
Definition flows_of_year (y : Z) (months : list month_bucket)
    (entries : list month_entry) : list MoveData.t :=
  (λ be, me_flows be.2) <$> filter (λ be, m_year be.1 = y) (zip months entries).

(** The six yearly figures, in column order: each the sum of the monthly
    figure over the months of the year. *)
Definition year_sums (y : Z) (months : list month_bucket)
    (entries : list month_entry) : list Qc :=
  let flows := flows_of_year y months entries in
  [ sql_sum (MoveData.purchase_qty <$> flows);
    sql_sum (MoveData.purchase_value <$> flows);
    sql_sum (MoveData.sale_qty <$> flows);
    sql_sum (MoveData.sale_value <$> flows);
    sql_sum (MoveData.pos_qty <$> flows);
    sql_sum (MoveData.pos_value <$> flows) ].

(** The values of a product row: the figures of each month, then the sums
    of each year of the report. *)
Definition spec_row_values (months : list month_bucket)
    (entries : list month_entry) : list Qc :=
  (entries ≫= month_values)
  ++ (years_of months ≫= λ y, year_sums y months entries).

(** A report row of a product: its values are those of the specification,
    for the entries the wizard computed for the product. *)
Definition row_of (e : env) (w : wizard) (months : list month_bucket)
    (location_ids : list Z) (product : product_product) (row : sheet_row) : Prop :=
  row_product row = product
  ∧ ∃ entries,
      Forall2 (computed_entry e w (prod_id product) location_ids) months entries
      ∧ cell_value <$> row_cells row = spec_row_values months entries.

End SpecRow.
Export SpecRow.

Module SpecProducts.

(** A kit product: a variant whose template has at least one phantom BoM. *)
Definition is_kit (e : env) (p : product_product) : Prop :=
  ∃ b, b ∈ t_mrp_bom e ∧ bom_type b = "phantom"
       ∧ bom_product_tmpl_id b = prod_tmpl_id p.

(** The filters of the request: stockable, in the id set when one is given,
    in the subtree of the categories when some are given. *)
Definition matches_filters (e : env) (w : wizard) (p : product_product) : Prop :=
  tmpl_type <$> template_of e p = Some "consu"
  ∧ (product_ids w ≠ [] → prod_id p ∈ product_ids w)
  ∧ (category_ids w ≠ [] →
     ∃ t, template_of e p = Some t ∧ child_of e (tmpl_categ_id t) (category_ids w)).

End SpecProducts.
Export SpecProducts.

Module SpecErrors.

(** The validation conditions of the specification: start date after end
    date, empty product selection after filtering, empty month range, empty
    internal location set, missing spreadsheet library. *)
Definition validation_condition (e : env) (w : wizard) : Prop :=
  date_ltb (date_to w) (date_from w) = true
  ∨ _get_products e w = []
  ∨ _get_months_in_range w = Ok []
  ∨ _get_location_ids e w = []
  ∨ xlsxwriter e = false.

End SpecErrors.
Export SpecErrors.

Module SpecFlows.

(** The done moves of the product dated within the window with both ends
    inside the location set. *)
Definition window_transfers (e : env) (product_id : Z) (date_start date_end : date)
    (location_ids : list Z) : list stock_move :=
  filter (λ sm, move_product_id sm = product_id
                ∧ move_state sm = "done"
                ∧ in_window (move_date sm) date_start date_end
                ∧ move_location_id sm ∈ location_ids
                ∧ move_location_dest_id sm ∈ location_ids)
         (t_stock_move e).

(** The point-of-sale figures of a product over a window: its direct totals
    plus, for every kit the resolver maps it to, the kit's own totals times
    the multiplier; for the value, only the kits whose own quantity in the
    window is not zero. *)
Definition spec_pos_qty (e : env) (product_id : Z) (date_start date_end : date) : Qc :=
  ((pos_totals e product_id date_start date_end).1
   + sql_sum ((λ '(kit, multiplier),
                 (pos_totals e kit date_start date_end).1 * multiplier)
              <$> map_to_list (_get_phantom_bom_components e product_id)))%Qc.

Definition sold_kits_pos_value (e : env) (product_id : Z) (date_start date_end : date)
    : Qc :=
  ((pos_totals e product_id date_start date_end).2
   + sql_sum ((λ '(kit, multiplier),
                 if decide ((pos_totals e kit date_start date_end).1 ≠ 0)
                 then (pos_totals e kit date_start date_end).2 * multiplier
                 else 0)
              <$> map_to_list (_get_phantom_bom_components e product_id)))%Qc.

(** No phantom BoM holds a line of the product. *)
Definition in_no_phantom_bom (e : env) (product_id : Z) : Prop :=
  ∀ line bom,
    line ∈ t_mrp_bom_line e → line_product_id line = product_id →
    browse bom_id (t_mrp_bom e) (line_bom_id line) = Some bom →
    bom_type bom ≠ "phantom".

(** No stock move, purchase line, sale line or point-of-sale line names the
    product, and no sale line or point-of-sale line names one of its kits. *)
Definition without_activity (e : env) (product_id : Z) : Prop :=
  let kits := _get_phantom_bom_components e product_id in
  (∀ sm, sm ∈ t_stock_move e → move_product_id sm ≠ product_id)
  ∧ (∀ pol, pol ∈ t_purchase_order_line e → pol_product_id pol ≠ product_id)
  ∧ (∀ sol, sol ∈ t_sale_order_line e →
       sol_product_id sol ≠ product_id ∧ kits !! sol_product_id sol = None)
  ∧ (∀ pol, pol ∈ t_pos_order_line e →
       posl_product_id pol ≠ product_id ∧ kits !! posl_product_id pol = None).

(** The initial [data] dict of [_get_stock_moves_data]. *)
Definition zero_move_data : MoveData.t :=
  {| MoveData.qty_in := 0; MoveData.qty_out := 0;
     MoveData.value_in := 0; MoveData.value_out := 0;
     MoveData.purchase_qty := 0; MoveData.purchase_value := 0;
     MoveData.sale_qty := 0; MoveData.sale_value := 0;
     MoveData.pos_qty := 0; MoveData.pos_value := 0 |}%Qc.

End SpecFlows.
Export SpecFlows.

Module SpecLayout.

(** The calls that write the row of a product in sheet row [r]: the display
    name in column 0, then the cells from column 1 on. *)
Definition data_row_calls (e : env) (attribute_value_ids : Z → list attribute_value)
    (r : Z) (row : sheet_row) : list sheet_call :=
  Write_string r 0 (_get_product_display_name e attribute_value_ids (row_product row))
    "product"
  :: imap (λ j c, Write_number r (1 + Z.of_nat j) (cell_value c) (cell_format c))
          (row_cells row).

(** The labels of the columns from column 1 on, with the format of their
    sub-header. *)
Definition sub_header_labels (months : list month_bucket) : list (string * string) :=
  (months ≫= λ _, (λ col_def, (col_def.1.2, "header_col")) <$> month_column_defs)
  ++ (years_of months ≫= λ _,
        (λ col_def, (col_def.1.2, "header_year_col")) <$> year_column_defs).

(** The formats of the cells of a product row from column 1 on. *)
Definition cell_formats (months : list month_bucket) : list string :=
  (months ≫= λ _, ["integer"; "integer"; "currency"; "integer";
                    "currency"; "integer"; "currency"; "integer"])
  ++ (years_of months ≫= λ _, ["year_number"; "year_currency"; "year_number";
                                "year_currency"; "year_number"; "year_currency"]).

(** The key of each column from column 1 on. *)
Definition column_keys (months : list month_bucket) : list string :=
  (months ≫= λ _, (λ col_def, col_def.1.1) <$> month_column_defs)
  ++ (years_of months ≫= λ _, (λ col_def, col_def.1.1) <$> year_column_defs).

(** The column shows a figure of a channel that the request switched off. *)
Definition switched_off (w : wizard) (key : string) : bool :=
  match key with
  | "purchase_qty" | "purchase_value"
  | "total_purchase_qty" | "total_purchase_value" => negb (include_purchases w)
  | "sale_qty" | "sale_value"
  | "total_sale_qty" | "total_sale_value" => negb (include_sales w)
  | "pos_qty" | "pos_value"
  | "total_pos_qty" | "total_pos_value" => negb (include_pos w)
  | _ => false
  end%string.

(** The key of the format a call names. *)
Definition call_format (c : sheet_call) : option string :=
  match c with
  | Merge_range _ _ _ _ _ fmt | Write_string _ _ _ fmt | Write_number _ _ _ fmt =>
      Some fmt
  | _ => None
  end.

(** The size of an xlsx sheet. xlsxwriter ignores a call that addresses a
    row or a column outside of it. *)
Definition xlsx_max_rows : Z := 1048576.
Definition xlsx_max_cols : Z := 16384.

Definition cell_in_sheet (row col : Z) : Prop :=
  0 ≤ row < xlsx_max_rows ∧ 0 ≤ col < xlsx_max_cols.

(** The call addresses cells of the sheet only. *)
Definition call_in_sheet (c : sheet_call) : Prop :=
  match c with
  | Merge_range first_row first_col last_row last_col _ _
  | Autofilter first_row first_col last_row last_col =>
      cell_in_sheet first_row first_col ∧ cell_in_sheet last_row last_col
      ∧ first_row ≤ last_row ∧ first_col ≤ last_col
  | Write_string row col _ _ | Write_number row col _ _ | Freeze_panes row col =>
      cell_in_sheet row col
  | Set_column first_col last_col _ =>
      0 ≤ first_col ∧ first_col ≤ last_col ∧ last_col < xlsx_max_cols
  | Set_row row _ => 0 ≤ row < xlsx_max_rows
  end.

End SpecLayout.
Export SpecLayout.

(** * Concrete inputs *)

Module Examples.

Definition request (d_from d_to : date) : wizard :=
  {| date_from := d_from; date_to := d_to;
     product_ids := []; category_ids := []; warehouse_ids := [];
     include_pos := true; include_sales := true; include_purchases := true |}.

(** 2024-01-15 .. 2024-03-02 *)
Definition w_2024 : wizard := request (mkdate 2024 1 15) (mkdate 2024 3 2).

(** 9999-12-15 .. 9999-12-31 *)
Definition w_9999 : wizard := request (mkdate 9999 12 15) (mkdate 9999 12 31).

(** 2024-01-20 .. 2024-01-10: the start is after the end, in the same month. *)
Definition w_reversed : wizard := request (mkdate 2024 1 20) (mkdate 2024 1 10).

(** A small database. Product 10 (Bolt) is a component of two kits: Kit K
    (template 2, variants 20 and 21; a template-level phantom BoM with 2
    bolts and a second phantom BoM, for variant 20 only, with 5) and Kit L
    (product 30, 1 bolt). Product 40 (Anvil) is in no BoM. Locations 1 and 2
    are internal, 8 is a supplier and 9 a customer location. *)
Definition shop : env := {|
  xlsxwriter := true;
  uom_compute_quantity := λ _ qty _, qty;
  t_product_category := [ {| categ_id := 1; categ_parent_path := [1] |} ];
  t_product_template :=
    [ {| tmpl_id := 1; tmpl_name := "Bolt"; tmpl_type := "consu";
         tmpl_categ_id := 1; tmpl_uom_id := 1 |};
      {| tmpl_id := 2; tmpl_name := "Kit K"; tmpl_type := "consu";
         tmpl_categ_id := 1; tmpl_uom_id := 1 |};
      {| tmpl_id := 3; tmpl_name := "Kit L"; tmpl_type := "consu";
         tmpl_categ_id := 1; tmpl_uom_id := 1 |};
      {| tmpl_id := 4; tmpl_name := "Anvil"; tmpl_type := "consu";
         tmpl_categ_id := 1; tmpl_uom_id := 1 |} ];
  t_product_product :=
    [ {| prod_id := 10; prod_tmpl_id := 1 |};
      {| prod_id := 20; prod_tmpl_id := 2 |};
      {| prod_id := 21; prod_tmpl_id := 2 |};
      {| prod_id := 30; prod_tmpl_id := 3 |};
      {| prod_id := 40; prod_tmpl_id := 4 |} ];
  t_uom_uom := [ {| uom_id := 1; uom_factor := qz 1 |} ];
  t_mrp_bom :=
    [ {| bom_id := 100; bom_type := "phantom"; bom_product_id := None;
         bom_product_tmpl_id := 2 |};
      {| bom_id := 101; bom_type := "phantom"; bom_product_id := Some 30;
         bom_product_tmpl_id := 3 |};
      {| bom_id := 102; bom_type := "phantom"; bom_product_id := Some 20;
         bom_product_tmpl_id := 2 |} ];
  t_mrp_bom_line :=
    [ {| line_id := 1; line_product_id := 10; line_bom_id := 100;
         line_product_qty := qz 2; line_product_uom_id := 1 |};
      {| line_id := 2; line_product_id := 10; line_bom_id := 101;
         line_product_qty := qz 1; line_product_uom_id := 1 |};
      {| line_id := 3; line_product_id := 10; line_bom_id := 102;
         line_product_qty := qz 5; line_product_uom_id := 1 |} ];
  t_stock_location :=
    [ {| loc_id := 1; loc_usage := "internal"; loc_warehouse_id := Some 1 |};
      {| loc_id := 2; loc_usage := "internal"; loc_warehouse_id := Some 1 |};
      {| loc_id := 8; loc_usage := "supplier"; loc_warehouse_id := None |};
      {| loc_id := 9; loc_usage := "customer"; loc_warehouse_id := None |} ];
  t_stock_move :=
    [ (* a receipt of 10 bolts from the supplier *)
      {| move_id := 1; move_product_id := 10; move_state := "done";
         move_date := mkdate 2024 1 15; move_location_id := 8;
         move_location_dest_id := 1; move_product_qty := qz 10;
         move_price_unit := qz 100; move_purchase_line_id := Some 1 |};
      (* 5 of them moved between the two internal locations *)
      {| move_id := 2; move_product_id := 10; move_state := "done";
         move_date := mkdate 2024 1 18; move_location_id := 1;
         move_location_dest_id := 2; move_product_qty := qz 5;
         move_price_unit := qz 0; move_purchase_line_id := None |} ];
  t_purchase_order :=
    [ {| po_id := 1; po_state := "purchase"; po_date_approve := mkdate 2024 1 15 |} ];
  t_purchase_order_line :=
    [ {| pol_id := 1; pol_order_id := 1; pol_product_id := 10;
         pol_product_uom_id := 1; pol_qty_received := qz 10;
         pol_price_unit := qz 100 |} ];
  t_sale_order :=
    [ {| so_id := 1; so_state := "sale"; so_date_order := mkdate 2024 1 20 |};
      {| so_id := 2; so_state := "sale"; so_date_order := mkdate 2024 2 10 |};
      {| so_id := 3; so_state := "sale"; so_date_order := mkdate 2024 1 5 |} ];
  t_sale_order_line :=
    [ (* 20 January: 4 bolts and 3 kits K (variant 21) *)
      {| sol_id := 1; sol_order_id := 1; sol_product_id := 10;
         sol_product_uom_id := 1; sol_qty_delivered := qz 4;
         sol_price_unit := qz 150 |};
      {| sol_id := 2; sol_order_id := 1; sol_product_id := 21;
         sol_product_uom_id := 1; sol_qty_delivered := qz 3;
         sol_price_unit := qz 50 |};
      (* 10 February: one kit L delivered at 10, one taken back at 20 *)
      {| sol_id := 3; sol_order_id := 2; sol_product_id := 30;
         sol_product_uom_id := 1; sol_qty_delivered := qz 1;
         sol_price_unit := qz 10 |};
      {| sol_id := 4; sol_order_id := 2; sol_product_id := 30;
         sol_product_uom_id := 1; sol_qty_delivered := qz (-1);
         sol_price_unit := qz 20 |};
      (* 5 January: 1 bolt *)
      {| sol_id := 5; sol_order_id := 3; sol_product_id := 10;
         sol_product_uom_id := 1; sol_qty_delivered := qz 1;
         sol_price_unit := qz 150 |} ];
  t_pos_order := [];
  t_pos_order_line := []
|}.

(** The same database without any stock location. *)
Definition shop_without_locations : env := {|
  xlsxwriter := xlsxwriter shop;
  uom_compute_quantity := uom_compute_quantity shop;
  t_product_category := t_product_category shop;
  t_product_template := t_product_template shop;
  t_product_product := t_product_product shop;
  t_uom_uom := t_uom_uom shop;
  t_mrp_bom := t_mrp_bom shop;
  t_mrp_bom_line := t_mrp_bom_line shop;
  t_stock_location := [];
  t_stock_move := t_stock_move shop;
  t_purchase_order := t_purchase_order shop;
  t_purchase_order_line := t_purchase_order_line shop;
  t_sale_order := t_sale_order shop;
  t_sale_order_line := t_sale_order_line shop;
  t_pos_order := t_pos_order shop;
  t_pos_order_line := t_pos_order_line shop
|}.

Definition bolt : product_product := {| prod_id := 10; prod_tmpl_id := 1 |}.
Definition january_2024 : month_bucket := bucket_at 2024 1.
Definition february_2024 : month_bucket := bucket_at 2024 2.

End Examples.
Export Examples.

Module MoreExamples.

(** The database [shop] with two point-of-sale orders: a paid one of
    12 January 2024 with 2 bolts (300) and 1 Kit K, variant 21 (120), and a
    draft of 13 January with 7 bolts. *)
Definition pos_shop : env := {|
  xlsxwriter := xlsxwriter shop;
  uom_compute_quantity := uom_compute_quantity shop;
  t_product_category := t_product_category shop;
  t_product_template := t_product_template shop;
  t_product_product := t_product_product shop;
  t_uom_uom := t_uom_uom shop;
  t_mrp_bom := t_mrp_bom shop;
  t_mrp_bom_line := t_mrp_bom_line shop;
  t_stock_location := t_stock_location shop;
  t_stock_move := t_stock_move shop;
  t_purchase_order := t_purchase_order shop;
  t_purchase_order_line := t_purchase_order_line shop;
  t_sale_order := t_sale_order shop;
  t_sale_order_line := t_sale_order_line shop;
  t_pos_order :=
    [ {| pos_id := 1; pos_state := "paid"; pos_date_order := mkdate 2024 1 12 |};
      {| pos_id := 2; pos_state := "draft"; pos_date_order := mkdate 2024 1 13 |} ];
  t_pos_order_line :=
    [ {| posl_id := 1; posl_order_id := 1; posl_product_id := 10;
         posl_qty := qz 2; posl_price_subtotal_incl := qz 300 |};
      {| posl_id := 2; posl_order_id := 1; posl_product_id := 21;
         posl_qty := qz 1; posl_price_subtotal_incl := qz 120 |};
      {| posl_id := 3; posl_order_id := 2; posl_product_id := 10;
         posl_qty := qz 7; posl_price_subtotal_incl := qz 1050 |} ]
|}.

(** The internal locations of [shop]. *)
Definition shop_locations : list Z := [1; 2].

(** Variant 21 of Kit K is the red one of size M; the other products have
    no attribute values. *)
Definition shop_attribute_values (product_id : Z) : list attribute_value :=
  if decide (product_id = 21)
  then [ {| av_attribute_name := "Color"; av_name := "Red" |};
         {| av_attribute_name := "Size"; av_name := "M" |} ]
  else [].

(** January 2024 with the purchase and point-of-sale channels switched
    off. *)
Definition w_sales_only : wizard :=
  {| date_from := mkdate 2024 1 1; date_to := mkdate 2024 1 31;
     product_ids := []; category_ids := []; warehouse_ids := [];
     include_pos := false; include_sales := true; include_purchases := false |}.

(** 0001-01-15 .. 0001-02-01: a range that starts in the first month of
    Python's calendar. *)
Definition w_year_1 : wizard := request (mkdate 1 1 15) (mkdate 1 2 1).

(** 2023-11-30 .. 2025-02-01: sixteen months over three years. *)
Definition w_three_years : wizard := request (mkdate 2023 11 30) (mkdate 2025 2 1).

(** The database [shop] where the only phantom BoM lines of the bolt are two
    lines of 1 bolt on the BoM of Kit L (product 30), and where 3 Kit L were
    sold on 20 January 2024. *)
Definition two_line_shop : env := {|
  xlsxwriter := xlsxwriter shop;
  uom_compute_quantity := uom_compute_quantity shop;
  t_product_category := t_product_category shop;
  t_product_template := t_product_template shop;
  t_product_product := t_product_product shop;
  t_uom_uom := t_uom_uom shop;
  t_mrp_bom := t_mrp_bom shop;
  t_mrp_bom_line :=
    [ {| line_id := 1; line_product_id := 10; line_bom_id := 101;
         line_product_qty := qz 1; line_product_uom_id := 1 |};
      {| line_id := 2; line_product_id := 10; line_bom_id := 101;
         line_product_qty := qz 1; line_product_uom_id := 1 |} ];
  t_stock_location := t_stock_location shop;
  t_stock_move := t_stock_move shop;
  t_purchase_order := t_purchase_order shop;
  t_purchase_order_line := t_purchase_order_line shop;
  t_sale_order := t_sale_order shop;
  t_sale_order_line :=
    [ {| sol_id := 1; sol_order_id := 1; sol_product_id := 30;
         sol_product_uom_id := 1; sol_qty_delivered := qz 3;
         sol_price_unit := qz 50 |} ];
  t_pos_order := t_pos_order shop;
  t_pos_order_line := t_pos_order_line shop
|}.

End MoreExamples.
Export MoreExamples.

(** * Properties *)

(** ** Tactics and general facts *)

(** Case analysis on the integer comparisons of the goal and the context. *)
Ltac zbool :=
  repeat match goal with
  | |- context [Z.ltb ?a ?b] => destruct (Z.ltb_spec a b)
  | |- context [Z.leb ?a ?b] => destruct (Z.leb_spec a b)
  | |- context [Z.eqb ?a ?b] => destruct (Z.eqb_spec a b)
  | H : context [Z.ltb ?a ?b] |- _ => destruct (Z.ltb_spec a b)
  | H : context [Z.leb ?a ?b] |- _ => destruct (Z.leb_spec a b)
  | H : context [Z.eqb ?a ?b] |- _ => destruct (Z.eqb_spec a b)
  end; simpl in *.

(** Equality of two closed rationals, by computation. *)
Ltac qc_compute := apply Qc_is_canon; vm_compute; reflexivity.

Lemma bind_Ok_inv {A B : Type} (m : outcome A) (k : A → outcome B) (b : B) :
  (x ←! m; k x) = Ok b → ∃ a, m = Ok a ∧ k a = Ok b.
Proof. destruct m as [a| |]; simpl; [eauto|done|done]. Qed.

Lemma sql_sum_cons x xs : sql_sum (x :: xs) = (x + sql_sum xs)%Qc.
Proof. done. Qed.

(** A sum does not depend on the order of its terms. *)
Lemma sql_sum_Permutation (xs ys : list Qc) : xs ≡ₚ ys → sql_sum xs = sql_sum ys.
Proof.
  induction 1 as [|x xs ys _ IH|x y xs|xs ys zs _ IH1 _ IH2]; simpl.
  - done.
  - by rewrite IH.
  - ring.
  - by rewrite IH1.
Qed.

(** ** Facts about dates *)

Lemma days_in_month_bounds y m : 28 ≤ days_in_month y m ≤ 31.
Proof. unfold days_in_month. destruct (is_leap y); zbool; lia. Qed.

Lemma valid_ymd_spec y m d :
  valid_ymd y m d = true ↔
  1 ≤ y ≤ 9999 ∧ 1 ≤ m ≤ 12 ∧ 1 ≤ d ≤ days_in_month y m.
Proof. unfold valid_ymd, MINYEAR, MAXYEAR. zbool; split; intros; try lia; try done. Qed.

Lemma make_date_ok y m d :
  valid_ymd y m d = true → make_date y m d = Ok (mkdate y m d).
Proof. intros H. unfold make_date. by rewrite H. Qed.

Lemma replace_day_1 d :
  valid_date d = true → replace_day d 1 = Ok (mkdate (year d) (month d) 1).
Proof.
  intros [Hy [Hm Hd]]%valid_ymd_spec. unfold replace_day.
  pose proof (days_in_month_bounds (year d) (month d)).
  apply make_date_ok, valid_ymd_spec. lia.
Qed.

Lemma next_ym_spec y m :
  1 ≤ m ≤ 12 →
  1 ≤ (next_ym y m).2 ≤ 12
  ∧ 12 * (next_ym y m).1 + (next_ym y m).2 = 12 * y + m + 1.
Proof. intros Hm. unfold next_ym. destruct (Z.eqb_spec m 12); simpl; lia. Qed.

Lemma add_month_first y m :
  1 ≤ y → 1 ≤ m ≤ 12 → (next_ym y m).1 ≤ 9999 →
  add_month (mkdate y m 1) = Ok (mkdate (next_ym y m).1 (next_ym y m).2 1).
Proof.
  intros Hy Hm Hn. unfold add_month, next_ym in *. simpl.
  destruct (Z.eqb_spec m 12) as [->|Hne]; simpl in *.
  - change (12 + 1 - 12) with 1.
    pose proof (days_in_month_bounds (y + 1) 1).
    rewrite Z.min_r by lia. apply make_date_ok, valid_ymd_spec. lia.
  - destruct (Z.ltb_spec 12 (m + 1)); [lia|].
    destruct (Z.ltb_spec (m + 1) 1); [lia|]. simpl.
    destruct (Z.leb_spec 1 (m + 1)); [|lia].
    destruct (Z.leb_spec (m + 1) 12); [|lia]. simpl.
    pose proof (days_in_month_bounds y (m + 1)).
    rewrite Z.min_r by lia. apply make_date_ok, valid_ymd_spec. lia.
Qed.

(** Past December 9999 there is no month to step to. *)
Lemma add_month_overflow d :
  last_month_of_time d → add_month d = Raise ValueError.
Proof.
  intros [Hy Hm]. unfold add_month. rewrite Hy, Hm. simpl.
  unfold make_date, valid_ymd, MAXYEAR. simpl. done.
Qed.

(** The eve of the first day of a month is the last day of the month before. *)
Lemma sub_day_next_first y m :
  1 ≤ y → 1 ≤ m ≤ 12 →
  sub_day (mkdate (next_ym y m).1 (next_ym y m).2 1)
  = Ok (mkdate y m (days_in_month y m)).
Proof.
  intros Hy Hm. unfold sub_day, next_ym, MINYEAR.
  destruct (Z.eqb_spec m 12) as [->|Hne]; simpl.
  - destruct (Z.ltb_spec 1 (y + 1)); [|lia]. do 3 f_equal; lia.
  - destruct (Z.ltb_spec 1 (m + 1)); [|lia]. replace (m + 1 - 1) with m by lia. done.
Qed.

Lemma date_leb_month_index a b :
  1 ≤ month a ≤ 12 → 1 ≤ month b ≤ 12 →
  date_leb a b = true → month_index a ≤ month_index b.
Proof. unfold date_leb, month_index. intros. zbool; lia. Qed.

Lemma days_before_year_succ y :
  days_before_year (y + 1) = days_before_year y + 365 + (if is_leap y then 1 else 0).
Proof.
  unfold days_before_year, is_leap. cbn zeta.
  replace (y + 1 - 1) with y by lia.
  destruct (Z.eqb_spec (y mod 4) 0), (Z.eqb_spec (y mod 100) 0),
    (Z.eqb_spec (y mod 400) 0); simpl;
    Z.div_mod_to_equations; lia.
Qed.

Lemma days_before_month_succ y m :
  1 ≤ m < 12 →
  days_before_month y (m + 1) = days_before_month y m + days_in_month y m.
Proof.
  intros Hm. unfold days_before_month, days_in_month.
  assert (m = 1 ∨ m = 2 ∨ m = 3 ∨ m = 4 ∨ m = 5 ∨ m = 6 ∨ m = 7 ∨ m = 8 ∨ m = 9
          ∨ m = 10 ∨ m = 11) as Hcases by lia.
  destruct (is_leap y);
    repeat (destruct Hcases as [->|Hcases]; [reflexivity|]); subst; reflexivity.
Qed.

(** [sub_day] agrees with Python's ordinal arithmetic: it steps the ordinal
    down by one and stays within the dates, and it fails only on
    0001-01-01. *)
Lemma sub_day_toordinal d :
  valid_date d = true →
  match sub_day d with
  | Ok d' => valid_date d' = true ∧ toordinal d' = toordinal d - 1
  | Raise ex => ex = OverflowError ∧ d = mkdate 1 1 1
  | Diverge => False
  end.
Proof.
  intros (Hy & Hm & Hd)%valid_ymd_spec. destruct d as [y m dd]. simpl in *.
  unfold sub_day, MINYEAR. simpl.
  destruct (Z.ltb_spec 1 dd); [|destruct (Z.ltb_spec 1 m); [|destruct (Z.ltb_spec 1 y)]].
  - split; [apply valid_ymd_spec; simpl; lia|]. unfold toordinal. simpl. lia.
  - pose proof (days_in_month_bounds y (m - 1)).
    split; [apply valid_ymd_spec; simpl; lia|]. unfold toordinal. simpl.
    pose proof (days_before_month_succ y (m - 1)) as Hs.
    replace (m - 1 + 1) with m in Hs by lia. lia.
  - split; [apply valid_ymd_spec; simpl; unfold days_in_month; simpl; lia|].
    unfold toordinal. simpl. assert (m = 1) as -> by lia. assert (dd = 1) as -> by lia.
    pose proof (days_before_year_succ (y - 1)) as Hs.
    replace (y - 1 + 1) with y in Hs by lia.
    unfold days_before_month. simpl. destruct (is_leap (y - 1)); simpl; lia.
  - split; [done|]. f_equal; lia.
Qed.

(** ** The Time Bucketer *)

(** The loop, started on the first day of a month with a sufficient budget,
    appends the whole months up to the month of [end_]. *)
Lemma months_loop_spec n : ∀ fuel y m end_ acc,
  1 ≤ y → 1 ≤ m ≤ 12 → 1 ≤ month end_ ≤ 12 → day end_ = 1 →
  year end_ ≤ 9999 → ¬ last_month_of_time end_ →
  month_index end_ - month_index (mkdate y m 1) + 1 = Z.of_nat n →
  (n < fuel)%nat →
  months_loop fuel (mkdate y m 1) end_ acc = Ok (acc ++ buckets_from n y m).
Proof.
  unfold last_month_of_time, MAXYEAR.
  induction n as [|n IH]; intros fuel y m end_ acc Hy Hm Hme Hde Hye Hmax Hn Hfuel.
  - destruct fuel as [|fuel]; [lia|]. simpl.
    assert (date_leb (mkdate y m 1) end_ = false) as ->.
    { unfold date_leb, month_index in *. simpl in *. zbool; lia. }
    by rewrite app_nil_r.
  - destruct fuel as [|fuel]; [lia|]. simpl.
    assert (date_leb (mkdate y m 1) end_ = true) as ->.
    { unfold date_leb, month_index in *. simpl in *. zbool; lia. }
    destruct (next_ym_spec y m Hm) as [Hm' Hidx].
    assert ((next_ym y m).1 ≤ 9999) as Hy'.
    { unfold month_index, next_ym in *. simpl in *.
      destruct (Z.eqb_spec m 12); simpl in *; lia. }
    rewrite add_month_first by done. simpl.
    rewrite sub_day_next_first by done. simpl.
    rewrite IH; try done.
    + by rewrite <- app_assoc.
    + unfold next_ym. destruct (Z.eqb_spec m 12); simpl; lia.
    + unfold month_index in *. simpl in *. lia.
    + lia.
Qed.

(** A run that ends within its budget is not changed by a larger budget. *)
Lemma months_loop_fuel_mono fuel : ∀ fuel' current end_ acc,
  (fuel ≤ fuel')%nat →
  months_loop fuel current end_ acc ≠ Diverge →
  months_loop fuel' current end_ acc = months_loop fuel current end_ acc.
Proof.
  induction fuel as [|fuel IH]; intros fuel' current end_ acc Hle Hnd; [done|].
  destruct fuel' as [|fuel']; [lia|]. simpl in *.
  destruct (date_leb current end_); [|done].
  destruct (add_month current) as [next| |]; simpl in *; try done.
  destruct (sub_day next) as [lst| |]; simpl in *; try done.
  apply IH; [lia|done].
Qed.

Lemma buckets_from_length n : ∀ y m, length (buckets_from n y m) = n.
Proof. induction n; intros; simpl; [done|]. by rewrite IHn. Qed.

Lemma buckets_from_lookup n : ∀ y m i b,
  1 ≤ m ≤ 12 → buckets_from n y m !! i = Some b →
  12 * m_year b + m_month b = 12 * y + m + Z.of_nat i
  ∧ 1 ≤ m_month b ≤ 12
  ∧ b = bucket_at (m_year b) (m_month b).
Proof.
  induction n as [|n IH]; intros y m i b Hm Hb; [done|].
  destruct i as [|i]; simpl in Hb.
  - injection Hb as <-. simpl. split; [lia|split; [lia|done]].
  - destruct (next_ym_spec y m Hm) as [Hm' Hidx].
    destruct (IH _ _ _ _ Hm' Hb) as (? & ? & ?). split; [lia|split; [lia|done]].
Qed.

Lemma bucket_at_contains d :
  valid_date d = true → bucket_contains (bucket_at (year d) (month d)) d.
Proof.
  intros (Hy & Hm & Hd)%valid_ymd_spec.
  unfold bucket_contains, date_leb. simpl.
  split; apply Is_true_true; zbool; lia.
Qed.

(** The result of the Time Bucketer, in closed form; only the months of the
    two dates matter. *)
Lemma months_in_range_ok_idx (w : wizard) :
  valid_date (date_from w) = true →
  valid_date (date_to w) = true →
  month_index (date_from w) ≤ month_index (date_to w) →
  ¬ last_month_of_time (date_to w) →
  ∃ n, (0 < n)%nat
    ∧ month_index (date_to w) = month_index (date_from w) + Z.of_nat n - 1
    ∧ _get_months_in_range w
      = Ok (buckets_from n (year (date_from w)) (month (date_from w))).
Proof.
  intros Hf Ht Hidx Hmax.
  pose proof Hf as (Hfy & Hfm & Hfd)%valid_ymd_spec.
  pose proof Ht as (Hty & Htm & Htd)%valid_ymd_spec.
  exists (Z.to_nat (month_index (date_to w) - month_index (date_from w) + 1)).
  split; [lia|split; [lia|]].
  unfold _get_months_in_range. rewrite !replace_day_1 by done.
  cbv beta iota delta [Py.bind]. unfold months_budget.
  change (month_index {| year := year (date_to w); month := month (date_to w); day := 1 |})
    with (month_index (date_to w)).
  change (month_index {| year := year (date_from w); month := month (date_from w); day := 1 |})
    with (month_index (date_from w)).
  rewrite (months_loop_spec
             (Z.to_nat (month_index (date_to w) - month_index (date_from w) + 1)));
    simpl; try done; try lia.
  unfold month_index in *. simpl. lia.
Qed.

Lemma months_in_range_ok (w : wizard) :
  valid_request w →
  ¬ last_month_of_time (date_to w) →
  ∃ n, (0 < n)%nat
    ∧ month_index (date_to w) = month_index (date_from w) + Z.of_nat n - 1
    ∧ _get_months_in_range w
      = Ok (buckets_from n (year (date_from w)) (month (date_from w))).
Proof.
  intros (Hf & Ht & Hle) Hmax.
  pose proof Hf as (Hfy & Hfm & Hfd)%valid_ymd_spec.
  pose proof Ht as (Hty & Htm & Htd)%valid_ymd_spec.
  apply months_in_range_ok_idx; try done.
  by apply date_leb_month_index.
Qed.

Lemma buckets_from_post (w : wizard) n :
  valid_date (date_from w) = true →
  valid_date (date_to w) = true →
  (0 < n)%nat →
  month_index (date_to w) = month_index (date_from w) + Z.of_nat n - 1 →
  bucketer_post w (buckets_from n (year (date_from w)) (month (date_from w))).
Proof.
  intros Hf Ht Hn Hidx.
  pose proof Hf as (Hfy & Hfm & Hfd)%valid_ymd_spec.
  pose proof Ht as (Hty & Htm & Htd)%valid_ymd_spec.
  unfold bucketer_post. repeat apply conj.
  - destruct n; [lia|done].
  - intros i j a b Hij Ha Hb.
    destruct (buckets_from_lookup _ _ _ _ _ Hfm Ha) as (Ha1 & Ha2 & _).
    destruct (buckets_from_lookup _ _ _ _ _ Hfm Hb) as (Hb1 & Hb2 & _).
    unfold ym_lt. lia.
  - intros i a b Ha Hb.
    destruct (buckets_from_lookup _ _ _ _ _ Hfm Ha) as (Ha1 & Ha2 & _).
    destruct (buckets_from_lookup _ _ _ _ _ Hfm Hb) as (Hb1 & Hb2 & _).
    unfold next_ym. destruct (Z.eqb_spec (m_month a) 12); f_equal; lia.
  - exists (bucket_at (year (date_from w)) (month (date_from w))). split.
    + destruct n; [lia|done].
    + by apply bucket_at_contains.
  - exists (bucket_at (year (date_to w)) (month (date_to w))). split.
    + rewrite last_lookup, buckets_from_length.
      destruct (buckets_from n (year (date_from w)) (month (date_from w)) !! pred n)
        as [b|] eqn:Hb.
      * destruct (buckets_from_lookup _ _ _ _ _ Hfm Hb) as (Hb1 & Hb2 & Hb3).
        unfold month_index in Hidx. rewrite Hb3.
        replace (m_year b) with (year (date_to w)) by lia.
        replace (m_month b) with (month (date_to w)) by lia. done.
      * apply lookup_ge_None in Hb. rewrite buckets_from_length in Hb. lia.
    + by apply bucket_at_contains.
  - intros b [i Hb]%list_elem_of_lookup.
    destruct (buckets_from_lookup _ _ _ _ _ Hfm Hb) as (Hb1 & Hb2 & Hb3).
    unfold full_month. split; [done|]. by rewrite Hb3.
Qed.

(** C4 (amended). For every valid date range (well-formed dates,
    date_from ≤ date_to) whose end is before December 9999,
    [_get_months_in_range] returns a non-empty list of month buckets, in
    strictly increasing (year, month) order and without gaps, whose first
    bucket contains date_from and whose last bucket contains date_to; every
    bucket runs from the first to the last calendar day of its month. *)
Theorem months_in_range_buckets (w : wizard) :
  valid_request w →
  ¬ last_month_of_time (date_to w) →
  ∃ months, _get_months_in_range w = Ok months ∧ bucketer_post w months.
Proof.
  intros Hv Hmax.
  destruct (months_in_range_ok w Hv Hmax) as (n & Hn & Hidx & Hrun).
  destruct Hv as (Hf & Ht & _).
  exists (buckets_from n (year (date_from w)) (month (date_from w))).
  split; [done|]. by apply buckets_from_post.
Qed.

Lemma months_in_range_buckets_witness :
  ∃ months, _get_months_in_range w_2024 = Ok months ∧ bucketer_post w_2024 months.
Proof.
  apply (months_in_range_buckets w_2024).
  - repeat split; reflexivity.
  - intros [H _]. discriminate H.
Defined.

(** C4 as stated fails in December 9999: the range 9999-12-15 .. 9999-12-31
    is valid, but stepping to the next month raises [ValueError], so no
    bucket list is returned. *)
Lemma months_in_range_december_9999 :
  valid_request w_9999
  ∧ _get_months_in_range w_9999 = Raise ValueError
  ∧ ¬ ∃ months, _get_months_in_range w_9999 = Ok months ∧ bucketer_post w_9999 months.
Proof.
  split; [repeat split; reflexivity|]. split; [reflexivity|].
  intros (months & H & _). discriminate H.
Qed.

(** ** Opening and closing stock of adjacent months *)

Lemma months_loop_contiguous fuel : ∀ current end_ acc months,
  months_loop fuel current end_ acc = Ok months →
  (∀ i a b, acc !! i = Some a → acc !! S i = Some b → contiguous a b) →
  (∀ a, last acc = Some a → sub_day current = Ok (m_end a)) →
  ∀ i a b, months !! i = Some a → months !! S i = Some b → contiguous a b.
Proof.
  induction fuel as [|fuel IH]; intros current end_ acc months Hrun Hacc Hlast; [done|].
  simpl in Hrun. destruct (date_leb current end_).
  - destruct (add_month current) as [next| |] eqn:Hnext; simpl in Hrun; try done.
    destruct (sub_day next) as [lst| |] eqn:Hlst; simpl in Hrun; try done.
    eapply IH; [exact Hrun| |].
    + intros i a b Ha Hb.
      destruct (decide (S i < length acc)%nat) as [Hlt|Hge].
      * rewrite lookup_app_l in Ha by lia. rewrite lookup_app_l in Hb by done. eauto.
      * apply lookup_lt_Some in Hb as Hlen. rewrite length_app in Hlen. simpl in Hlen.
        assert (S i = length acc) as Hi by lia.
        rewrite lookup_app_l in Ha by lia.
        rewrite lookup_app_r in Hb by lia.
        replace (S i - length acc)%nat with 0%nat in Hb by lia.
        injection Hb as <-. unfold contiguous. simpl.
        apply Hlast. rewrite last_lookup.
        replace (pred (length acc)) with i by lia. done.
    + intros a. rewrite last_snoc. intros [= <-]. done.
  - injection Hrun as <-. done.
Qed.

Lemma months_in_range_contiguous w months i a b :
  _get_months_in_range w = Ok months →
  months !! i = Some a → months !! S i = Some b → contiguous a b.
Proof.
  unfold _get_months_in_range.
  intros (current & _ & (end_ & _ & Hrun)%bind_Ok_inv)%bind_Ok_inv.
  eapply months_loop_contiguous; [exact Hrun|done|done].
Qed.

(** C5. For every product and every two adjacent buckets M, M' returned by
    [_get_months_in_range], the opening stock of M' (the balance on the eve
    of its start) is the closing stock of M (the balance on its end), on
    the same ledger and location set. *)
Theorem opening_is_previous_closing (e : env) (w : wizard) (product_id : Z)
    (location_ids : list Z) (months : list month_bucket) (i : nat)
    (M M' : month_bucket) :
  _get_months_in_range w = Ok months →
  months !! i = Some M →
  months !! S i = Some M' →
  opening_stock e product_id location_ids M'
  = closing_stock e product_id location_ids M.
Proof.
  intros Hrun HM HM'.
  pose proof (months_in_range_contiguous _ _ _ _ _ Hrun HM HM') as Hc.
  unfold opening_stock, closing_stock. unfold contiguous in Hc. by rewrite Hc.
Qed.

Lemma opening_is_previous_closing_witness :
  opening_stock shop 10 [1; 2] february_2024
  = closing_stock shop 10 [1; 2] january_2024.
Proof.
  apply (opening_is_previous_closing shop w_2024 10 [1; 2]
           [january_2024; february_2024; bucket_at 2024 3] 0);
    reflexivity.
Defined.

(** ** Stock-at-date *)

(** What the balance query computes: the balance of the specification plus
    the quantity of every internal transfer. *)
Lemma stock_at_date_sum (product_id : Z) (d : date) (location_ids : list Z)
    (moves : list stock_move) :
  sql_sum (stock_at_date_case location_ids <$>
             filter (stock_at_date_where product_id d location_ids) moves)
  = (sql_sum (spec_contribution location_ids <$>
               filter (λ sm, move_product_id sm = product_id
                             ∧ move_state sm = "done"
                             ∧ date_leb (move_date sm) d) moves)
     + sql_sum (move_product_qty <$>
                 filter (λ sm, move_product_id sm = product_id
                               ∧ move_state sm = "done"
                               ∧ date_leb (move_date sm) d
                               ∧ move_location_id sm ∈ location_ids
                               ∧ move_location_dest_id sm ∈ location_ids) moves))%Qc.
Proof.
  induction moves as [|sm moves IH]; [simpl; ring|].
  rewrite !filter_cons.
  unfold stock_at_date_where at 1.
  repeat case_decide; rewrite ?fmap_cons, ?sql_sum_cons, IH;
    unfold stock_at_date_case, spec_contribution;
    repeat case_decide; repeat case_bool_decide; simpl;
    try ring; exfalso; tauto.
Qed.

Lemma stock_at_date_characterised (e : env) (product_id : Z) (d : date)
    (location_ids : list Z) :
  location_ids ≠ [] →
  _get_stock_at_date e product_id d location_ids
  = Ok (spec_stock_at_date e product_id d location_ids
        + sql_sum (move_product_qty <$>
                     internal_transfers e product_id d location_ids))%Qc.
Proof.
  intros Hne. unfold _get_stock_at_date. destruct location_ids as [|l ls]; [done|].
  f_equal. apply stock_at_date_sum.
Qed.

(** C1 fails on the code. On the ledger of [shop], 10 bolts were received and
    5 of them were then moved between the internal locations 1 and 2: the
    specification gives a balance of 10 at the end of January, the query
    gives 15, because the transfer matches the first [WHEN] of the [CASE]. *)
Theorem stock_at_date_counts_internal_transfer :
  _get_stock_at_date shop 10 (mkdate 2024 1 31) [1; 2] = Ok (qz 15)
  ∧ spec_stock_at_date shop 10 (mkdate 2024 1 31) [1; 2] = qz 10.
Proof. split; [f_equal|]; qc_compute. Qed.

(** ** The Kit Resolver *)

Lemma foldl_insert_lookup {A : Type} (f : A → Z) (v : Qc) (l : list A) :
  ∀ (r : gmap Z Qc) (k : Z),
  foldl (λ r x, <[f x := v]> r) r l !! k
  = if decide (k ∈ f <$> l) then Some v else r !! k.
Proof.
  induction l as [|x l IH]; intros r k; simpl.
  - destruct (decide (k ∈ [])) as [H|]; [|done]. by apply elem_of_nil in H.
  - rewrite IH.
    destruct (decide (k ∈ f <$> l)) as [Hin|Hnin].
    + rewrite decide_True; [done|]. by apply list_elem_of_further.
    + destruct (decide (k = f x)) as [->|Hne].
      * rewrite lookup_insert_eq, decide_True; [done|]. apply list_elem_of_here.
      * rewrite lookup_insert_ne by done. rewrite decide_False; [done|].
        intros [?|?]%elem_of_cons; done.
Qed.

(** One iteration of the loop sets the entry of every kit the line resolves
    to, and only those. *)
Lemma kit_step_lookup (e : env) (r : gmap Z Qc) (line : mrp_bom_line) (k : Z) :
  kit_step e r line !! k
  = if decide (k ∈ kit_targets e line) then Some (component_qty e line) else r !! k.
Proof.
  unfold kit_step, kit_targets.
  destruct (browse bom_id (t_mrp_bom e) (line_bom_id line)) as [bom|].
  - destruct (decide (bom_type bom = "phantom")).
    + destruct (bom_product_id bom) as [kit|].
      * destruct (decide (k = kit)) as [->|Hne].
        -- rewrite lookup_insert_eq, decide_True; [done|]. apply list_elem_of_here.
        -- rewrite lookup_insert_ne by done. rewrite decide_False; [done|].
           by intros ->%list_elem_of_singleton.
      * apply foldl_insert_lookup.
    + rewrite decide_False; [done|]. apply not_elem_of_nil.
  - rewrite decide_False; [done|]. apply not_elem_of_nil.
Qed.

Lemma kit_fold_untouched (e : env) (lines : list mrp_bom_line) :
  ∀ (r : gmap Z Qc) (k : Z),
  (∀ l, l ∈ lines → k ∉ kit_targets e l) →
  foldl (kit_step e) r lines !! k = r !! k.
Proof.
  induction lines as [|l lines IH]; intros r k Hnot; [done|]. simpl.
  rewrite IH by (intros; apply Hnot; by apply list_elem_of_further).
  rewrite kit_step_lookup, decide_False; [done|].
  apply Hnot, list_elem_of_here.
Qed.

Lemma kit_fold_last (e : env) (pre post : list mrp_bom_line) (line : mrp_bom_line)
    (r : gmap Z Qc) (k : Z) :
  k ∈ kit_targets e line →
  (∀ l, l ∈ post → k ∉ kit_targets e l) →
  foldl (kit_step e) r (pre ++ line :: post) !! k = Some (component_qty e line).
Proof.
  intros Hin Hpost. rewrite foldl_app. simpl.
  rewrite kit_fold_untouched by done.
  rewrite kit_step_lookup. by case_decide.
Qed.











(** C10. When several phantom BoM lines of a component resolve to the same
    kit, the mapping returned by [_get_phantom_bom_components] holds for that
    kit the multiplier of the last of them in processing order, whatever
    the earlier ones were: the entry is overwritten, not summed. *)
Theorem kit_resolver_last_line_wins (e : env) (product_id : Z)
    (pre post : list mrp_bom_line) (line : mrp_bom_line) (k : Z) :
  bom_lines_of e product_id = pre ++ line :: post →
  k ∈ kit_targets e line →
  (∀ l, l ∈ post → k ∉ kit_targets e l) →
  _get_phantom_bom_components e product_id !! k = Some (component_qty e line).
Proof.
  intros Hlines Hk Hpost. unfold _get_phantom_bom_components.
  fold (bom_lines_of e product_id). rewrite Hlines. by apply kit_fold_last.
Qed.

(** In [shop] the bolt has a line of 2 in the template-level BoM of Kit K
    and, later, a line of 5 in the BoM of its variant 20: variant 20 gets 5,
    not 2 + 5. *)
Lemma kit_resolver_last_line_wins_witness :
  _get_phantom_bom_components shop 10 !! 20 = Some (qz 5).
Proof.
  apply (kit_resolver_last_line_wins shop 10
           [ {| line_id := 1; line_product_id := 10; line_bom_id := 100;
                line_product_qty := qz 2; line_product_uom_id := 1 |};
             {| line_id := 2; line_product_id := 10; line_bom_id := 101;
                line_product_qty := qz 1; line_product_uom_id := 1 |} ]
           []
           {| line_id := 3; line_product_id := 10; line_bom_id := 102;
              line_product_qty := qz 5; line_product_uom_id := 1 |}
           20).
  - reflexivity.
  - apply list_elem_of_here.
  - intros l Hl. by apply elem_of_nil in Hl.
Defined.

(** ** Window-moves: sales and kit attribution *)

(** The kit loop adds, for each kit, quantity times multiplier, and value
    times multiplier unless the kit's quantity is zero. *)
Lemma foldl_add_kit (totals : Z → Qc * Qc) (items : list (Z * Qc)) :
  ∀ acc : Qc * Qc,
  foldl (add_kit totals) acc items
  = (acc.1 + sql_sum ((λ '(kit, multiplier), (totals kit).1 * multiplier) <$> items),
     acc.2 + sql_sum ((λ '(kit, multiplier),
                         if decide ((totals kit).1 ≠ 0) then (totals kit).2 * multiplier
                         else 0) <$> items))%Qc.
Proof.
  induction items as [|[kit multiplier] items IH]; intros [q v].
  - simpl. apply (f_equal2 pair); ring.
  - rewrite !fmap_cons, !sql_sum_cons.
    change (foldl (add_kit totals) (q, v) ((kit, multiplier) :: items))
      with (foldl (add_kit totals) (add_kit totals (q, v) (kit, multiplier)) items).
    rewrite IH. unfold add_kit.
    destruct (decide ((totals kit).1 ≠ 0%Qc)) as [Hnz|Hz]; cbn [fst snd].
    + apply (f_equal2 pair); ring.
    + apply dec_stable in Hz. rewrite Hz. apply (f_equal2 pair); ring.
Qed.

(** The order in which the kits are visited does not matter. *)
Lemma foldl_add_kit_Permutation (totals : Z → Qc * Qc) (items items' : list (Z * Qc))
    (acc : Qc * Qc) :
  items ≡ₚ items' →
  foldl (add_kit totals) acc items = foldl (add_kit totals) acc items'.
Proof.
  intros Hperm. rewrite !foldl_add_kit.
  apply (f_equal2 pair); apply (f_equal (Qcplus _)), sql_sum_Permutation;
    by apply fmap_Permutation.
Qed.

Lemma stock_moves_data_sales (e : env) (w : wizard) (product_id : Z)
    (date_start date_end : date) (location_ids : list Z) :
  include_sales w = true →
  location_ids ≠ [] →
  ∃ data,
    _get_stock_moves_data e w product_id date_start date_end location_ids = Ok data
    ∧ MoveData.sale_qty data = spec_sale_qty e product_id date_start date_end
    ∧ MoveData.sale_value data = sold_kits_sale_value e product_id date_start date_end.
Proof.
  intros Hs Hl. unfold _get_stock_moves_data.
  destruct location_ids as [|l ls]; [done|]. rewrite Hs.
  eexists. split; [reflexivity|]. simpl. rewrite foldl_add_kit. simpl. done.
Qed.

(** The term of one kit in the sum of the kit loop. *)
Lemma kit_sum_split (totals : Z → Qc) (r : gmap Z Qc) (kit : Z) (multiplier : Qc) :
  r !! kit = Some multiplier →
  sql_sum ((λ '(k, m), totals k * m)%Qc <$> map_to_list r)
  = (totals kit * multiplier
     + sql_sum ((λ '(k, m), totals k * m)%Qc <$> map_to_list (delete kit r)))%Qc.
Proof.
  intros Hkit.
  rewrite <- (sql_sum_Permutation _ _
                (fmap_Permutation _ _ _ (map_to_list_delete r kit multiplier Hkit))).
  by rewrite fmap_cons, sql_sum_cons.
Qed.

(** C3 (amended). With the sales channel enabled, the sale_qty of a product
    over a window is its direct confirmed sale-order-line quantity plus, for
    every kit of the Kit Resolver, the kit's own sale quantity times the
    multiplier; its sale_value is the direct value plus, for every kit whose
    own sale quantity over the window is not zero, the kit's own sale value
    times the multiplier. In particular a kit that exactly one phantom BoM
    line of the component resolves to, that line holding 2 units of the
    component, and whose own sale quantity is 3, adds 6 to the sale_qty: the
    sale_qty is the direct quantity plus 6 plus the terms of the other
    kits. *)
Theorem sales_with_kit_attribution (e : env) (w : wizard) (product_id : Z)
    (date_start date_end : date) (location_ids : list Z) :
  include_sales w = true →
  location_ids ≠ [] →
  ∃ data,
    _get_stock_moves_data e w product_id date_start date_end location_ids = Ok data
    ∧ MoveData.sale_qty data = spec_sale_qty e product_id date_start date_end
    ∧ MoveData.sale_value data = sold_kits_sale_value e product_id date_start date_end
    ∧ (∀ pre line post kit,
         bom_lines_of e product_id = pre ++ line :: post →
         kit ∈ kit_targets e line →
         (∀ l, l ∈ pre ++ post → kit ∉ kit_targets e l) →
         component_qty e line = qz 2 →
         (sale_totals e kit date_start date_end).1 = qz 3 →
         MoveData.sale_qty data
         = ((sale_totals e product_id date_start date_end).1 + qz 6
            + sql_sum ((λ '(k, multiplier),
                          (sale_totals e k date_start date_end).1 * multiplier)
                       <$> map_to_list
                             (delete kit (_get_phantom_bom_components e product_id))))%Qc).
Proof.
  intros Hs Hl.
  destruct (stock_moves_data_sales e w product_id date_start date_end location_ids Hs Hl)
    as (data & Hrun & Hq & Hv).
  exists data. repeat apply conj; try done.
  intros pre line post kit Hlines Hkit Hothers Hqty Hsold. rewrite Hq.
  assert (_get_phantom_bom_components e product_id !! kit = Some (qz 2)) as Hentry.
  { unfold _get_phantom_bom_components. fold (bom_lines_of e product_id).
    rewrite Hlines, kit_fold_last, Hqty; [done|done|].
    intros l Hl'. apply Hothers, elem_of_app. by right. }
  unfold spec_sale_qty.
  rewrite (kit_sum_split (λ k, (sale_totals e k date_start date_end).1) _ kit (qz 2) Hentry).
  cbv beta. rewrite Hsold.
  replace (qz 3 * qz 2)%Qc with (qz 6) by qc_compute. ring.
Qed.

Lemma sales_with_kit_attribution_witness :
  ∃ data,
    _get_stock_moves_data shop w_2024 10 (mkdate 2024 1 1) (mkdate 2024 1 31) [1; 2]
    = Ok data
    ∧ MoveData.sale_qty data = spec_sale_qty shop 10 (mkdate 2024 1 1) (mkdate 2024 1 31)
    ∧ MoveData.sale_qty data
      = ((sale_totals shop 10 (mkdate 2024 1 1) (mkdate 2024 1 31)).1 + qz 6
         + sql_sum ((λ '(k, multiplier),
                       (sale_totals shop k (mkdate 2024 1 1) (mkdate 2024 1 31)).1
                       * multiplier)
                    <$> map_to_list (delete 21 (_get_phantom_bom_components shop 10))))%Qc.
Proof.
  destruct (sales_with_kit_attribution shop w_2024 10 (mkdate 2024 1 1)
              (mkdate 2024 1 31) [1; 2]) as (data & H1 & H2 & _ & H4).
  - reflexivity.
  - discriminate.
  - exists data. split; [assumption|]. split; [assumption|].
    apply (H4 [] {| line_id := 1; line_product_id := 10; line_bom_id := 100;
                    line_product_qty := qz 2; line_product_uom_id := 1 |}
              [ {| line_id := 2; line_product_id := 10; line_bom_id := 101;
                   line_product_qty := qz 1; line_product_uom_id := 1 |};
                {| line_id := 3; line_product_id := 10; line_bom_id := 102;
                   line_product_qty := qz 5; line_product_uom_id := 1 |} ] 21).
    + reflexivity.
    + apply list_elem_of_further, list_elem_of_here.
    + intros l Hl Hin.
      repeat (apply elem_of_cons in Hl as [->|Hl];
              [apply elem_of_cons in Hin as [Hin|Hin];
               [discriminate Hin|by apply elem_of_nil in Hin]|]).
      by apply elem_of_nil in Hl.
    + reflexivity.
    + qc_compute.
Defined.

(** C3 as stated fails for the value. In February 2024 one Kit L was
    delivered at 10 and one taken back at 20: the kit's own quantity is 0 and
    its own value -10. The bolt, of which Kit L contains 1, gets a sale_value
    of 0 where the specification gives -10. *)
Lemma kit_value_dropped_when_kit_qty_zero :
  include_sales w_2024 = true
  ∧ (sale_totals shop 30 (mkdate 2024 2 1) (mkdate 2024 2 29)).1 = qz 0
  ∧ (sale_totals shop 30 (mkdate 2024 2 1) (mkdate 2024 2 29)).2 = qz (-10)
  ∧ spec_sale_value shop 10 (mkdate 2024 2 1) (mkdate 2024 2 29) = qz (-10)
  ∧ ∃ data,
      _get_stock_moves_data shop w_2024 10 (mkdate 2024 2 1) (mkdate 2024 2 29) [1; 2]
      = Ok data
      ∧ MoveData.sale_value data = qz 0
      ∧ MoveData.sale_value data
        ≠ spec_sale_value shop 10 (mkdate 2024 2 1) (mkdate 2024 2 29).
Proof.
  split; [reflexivity|]. split; [qc_compute|]. split; [qc_compute|].
  split; [qc_compute|].
  eexists. split; [reflexivity|]. split; [qc_compute|].
  intros H. apply (f_equal this) in H. vm_compute in H. discriminate H.
Qed.

(** The example of C3 needs the single line. On [two_line_shop] a Kit L
    consumes 2 bolts, listed as two lines of 1; the resolver keeps the
    multiplier 1, and 3 Kit L sold in January add 3, not 6, to the sale_qty
    of the bolt. *)
Lemma kit_of_two_lines_adds_three :
  bom_consumption two_line_shop 10 101 = qz 2
  ∧ (sale_totals two_line_shop 30 (mkdate 2024 1 1) (mkdate 2024 1 31)).1 = qz 3
  ∧ (sale_totals two_line_shop 10 (mkdate 2024 1 1) (mkdate 2024 1 31)).1 = qz 0
  ∧ ∃ data,
      _get_stock_moves_data two_line_shop w_2024 10 (mkdate 2024 1 1) (mkdate 2024 1 31)
        [1; 2] = Ok data
      ∧ MoveData.sale_qty data = qz 3.
Proof.
  split; [qc_compute|]. split; [qc_compute|]. split; [qc_compute|].
  eexists. split; [reflexivity|]. qc_compute.
Qed.

(** ** The report row of a product: monthly figures and yearly totals *)

Lemma getitem_Ok_inv {V : Type} (d : gmap Z V) (key : Z) (v : V) :
  getitem d key = Ok v → d !! key = Some v.
Proof. unfold getitem. destruct (d !! key); [by intros [= ->]|done]. Qed.

Lemma month_cells_values (en : month_entry) :
  cell_value <$> (month_cell (month_data_of en) <$> month_columns) = month_values en.
Proof. reflexivity. Qed.

Lemma year_cells_values (t : YearTotals.t) :
  cell_value <$> (year_cell t <$> year_columns)
  = [ YearTotals.total_purchase_qty t; YearTotals.total_purchase_value t;
      YearTotals.total_sale_qty t; YearTotals.total_sale_value t;
      YearTotals.total_pos_qty t; YearTotals.total_pos_value t ].
Proof. reflexivity. Qed.

Lemma month_step_Ok_inv (e : env) (w : wizard) (product : product_product)
    (location_ids : list Z) (cells cells' : list cell)
    (yt yt' : gmap Z YearTotals.t) (b : month_bucket) :
  month_step e w product location_ids (cells, yt) b = Ok (cells', yt') →
  ∃ en t,
    computed_entry e w (prod_id product) location_ids b en
    ∧ yt !! m_year b = Some t
    ∧ cells' = cells ++ (month_cell (month_data_of en) <$> month_columns)
    ∧ yt' = <[m_year b := YearTotals.accumulate t (me_flows en)]> yt.
Proof.
  unfold month_step.
  intros (o & Ho & (d & Hd & (c & Hc & (t & Ht%getitem_Ok_inv & Hret)%bind_Ok_inv)
            %bind_Ok_inv)%bind_Ok_inv)%bind_Ok_inv.
  injection Hret as <- <-.
  exists {| me_opening := o; me_flows := d; me_closing := c |}, t.
  done.
Qed.

(** The month loop: the cells written and, per year, the totals
    accumulated. *)
Lemma month_loop_spec (e : env) (w : wizard) (product : product_product)
    (location_ids : list Z) (months : list month_bucket) :
  ∀ cells0 yt0 cells yt,
  for_each (month_step e w product location_ids) (cells0, yt0) months = Ok (cells, yt) →
  ∃ entries,
    Forall2 (computed_entry e w (prod_id product) location_ids) months entries
    ∧ cells = cells0 ++ (entries ≫= λ en, month_cell (month_data_of en) <$> month_columns)
    ∧ ∀ y, yt !! y
           = (λ t0, foldl YearTotals.accumulate t0 (flows_of_year y months entries))
             <$> yt0 !! y.
Proof.
  induction months as [|b months IH]; intros cells0 yt0 cells yt Hrun.
  - injection Hrun as <- <-. exists []. split; [constructor|].
    split; [by rewrite app_nil_r|]. intros y. by destruct (yt0 !! y).
  - simpl in Hrun. apply bind_Ok_inv in Hrun as ([cells1 yt1] & Hstep & Hrest).
    apply month_step_Ok_inv in Hstep as (en & t & Hen & Ht & -> & ->).
    apply IH in Hrest as (entries & Hall & -> & Hyt).
    exists (en :: entries). split; [by constructor|].
    split; [by rewrite bind_cons, app_assoc|].
    intros y. rewrite Hyt. unfold flows_of_year. simpl. rewrite filter_cons. simpl.
    destruct (decide (m_year b = y)) as [<-|Hne].
    + rewrite lookup_insert_eq, Ht. done.
    + rewrite lookup_insert_ne by done. done.
Qed.

Lemma year_loop_spec (yt : gmap Z YearTotals.t) (years : list Z) :
  ∀ cells0 cells,
  for_each (year_step yt) cells0 years = Ok cells →
  ∃ totals,
    Forall2 (λ y t, yt !! y = Some t) years totals
    ∧ cells = cells0 ++ (totals ≫= λ t, year_cell t <$> year_columns).
Proof.
  induction years as [|y years IH]; intros cells0 cells Hrun.
  - injection Hrun as <-. exists []. split; [constructor|by rewrite app_nil_r].
  - simpl in Hrun. apply bind_Ok_inv in Hrun as (cells1 & Hstep & Hrest).
    unfold year_step in Hstep.
    apply bind_Ok_inv in Hstep as (t & Ht%getitem_Ok_inv & [= <-]).
    apply IH in Hrest as (totals & Hall & ->).
    exists (t :: totals). split; [by constructor|].
    by rewrite bind_cons, app_assoc.
Qed.

Lemma accumulate_sums (flows : list MoveData.t) :
  ∀ t0,
  let t := foldl YearTotals.accumulate t0 flows in
  YearTotals.total_purchase_qty t
    = (YearTotals.total_purchase_qty t0 + sql_sum (MoveData.purchase_qty <$> flows))%Qc
  ∧ YearTotals.total_purchase_value t
    = (YearTotals.total_purchase_value t0 + sql_sum (MoveData.purchase_value <$> flows))%Qc
  ∧ YearTotals.total_sale_qty t
    = (YearTotals.total_sale_qty t0 + sql_sum (MoveData.sale_qty <$> flows))%Qc
  ∧ YearTotals.total_sale_value t
    = (YearTotals.total_sale_value t0 + sql_sum (MoveData.sale_value <$> flows))%Qc
  ∧ YearTotals.total_pos_qty t
    = (YearTotals.total_pos_qty t0 + sql_sum (MoveData.pos_qty <$> flows))%Qc
  ∧ YearTotals.total_pos_value t
    = (YearTotals.total_pos_value t0 + sql_sum (MoveData.pos_value <$> flows))%Qc.
Proof.
  induction flows as [|d flows IH]; intros t0.
  - simpl. repeat split; ring.
  - cbn zeta. change (foldl YearTotals.accumulate t0 (d :: flows))
      with (foldl YearTotals.accumulate (YearTotals.accumulate t0 d) flows).
    destruct (IH (YearTotals.accumulate t0 d)) as (H1 & H2 & H3 & H4 & H5 & H6).
    rewrite H1, H2, H3, H4, H5, H6, !fmap_cons, !sql_sum_cons.
    unfold YearTotals.accumulate. cbn [YearTotals.total_purchase_qty
      YearTotals.total_purchase_value YearTotals.total_sale_qty
      YearTotals.total_sale_value YearTotals.total_pos_qty YearTotals.total_pos_value].
    repeat split; ring.
Qed.

Lemma zero_totals_lookup (years : list Z) (y : Z) :
  y ∈ years →
  (list_to_map ((λ year, (year, YearTotals.zero)) <$> years) : gmap Z YearTotals.t) !! y
  = Some YearTotals.zero.
Proof.
  induction years as [|y0 years IH]; intros Hy; [by apply elem_of_nil in Hy|].
  simpl. destruct (decide (y0 = y)) as [->|Hne].
  - by rewrite lookup_insert_eq.
  - rewrite lookup_insert_ne by done. apply IH.
    apply elem_of_cons in Hy as [?|?]; [congruence|done].
Qed.

Lemma year_values_are_sums (months : list month_bucket) (entries : list month_entry)
    (y : Z) :
  cell_value <$> (year_cell (foldl YearTotals.accumulate YearTotals.zero
                               (flows_of_year y months entries)) <$> year_columns)
  = year_sums y months entries.
Proof.
  rewrite year_cells_values. unfold year_sums. cbn zeta.
  destruct (accumulate_sums (flows_of_year y months entries) YearTotals.zero)
    as (H1 & H2 & H3 & H4 & H5 & H6).
  cbn zeta in *. rewrite H1, H2, H3, H4, H5, H6. cbn [YearTotals.zero
    YearTotals.total_purchase_qty YearTotals.total_purchase_value
    YearTotals.total_sale_qty YearTotals.total_sale_value
    YearTotals.total_pos_qty YearTotals.total_pos_value].
  by rewrite !Qcplus_0_l.
Qed.

Lemma fmap_bind_list {A B C : Type} (f : B → C) (g : A → list B) (l : list A) :
  f <$> (l ≫= g) = l ≫= λ x, f <$> g x.
Proof.
  induction l as [|x l IH]; [done|].
  by rewrite !bind_cons, fmap_app, IH.
Qed.

Lemma years_of_elem (months : list month_bucket) (y : Z) :
  y ∈ years_of months ↔ ∃ b, b ∈ months ∧ m_year b = y.
Proof.
  unfold years_of. rewrite merge_sort_Permutation, elem_of_remove_dups, list_elem_of_fmap.
  split; intros (b & ? & ?); exists b; done.
Qed.

Lemma year_cells_are_sums (months : list month_bucket) (entries : list month_entry)
    (yt : gmap Z YearTotals.t) (years : list Z) (totals : list YearTotals.t) :
  (∀ y, y ∈ years →
        yt !! y = Some (foldl YearTotals.accumulate YearTotals.zero
                          (flows_of_year y months entries))) →
  Forall2 (λ y t, yt !! y = Some t) years totals →
  (totals ≫= λ t, cell_value <$> (year_cell t <$> year_columns))
  = years ≫= λ y, year_sums y months entries.
Proof.
  intros Hyt Hall. induction Hall as [|y t years totals Ht Hall IH]; [done|].
  rewrite !bind_cons, IH by (intros; apply Hyt; by apply list_elem_of_further).
  f_equal. rewrite Hyt in Ht by apply list_elem_of_here. injection Ht as <-.
  apply year_values_are_sums.
Qed.

(** The row written for a product: the figures computed for each month,
    then the sums of each year. *)
Lemma write_product_row_spec (e : env) (w : wizard)
    (months : list month_bucket) (location_ids : list Z)
    (rows rows' : list sheet_row) (product : product_product) :
  write_product_row e w months location_ids rows product = Ok rows' →
  ∃ entries row,
    Forall2 (computed_entry e w (prod_id product) location_ids) months entries
    ∧ rows' = rows ++ [row]
    ∧ row_product row = product
    ∧ cell_value <$> row_cells row = spec_row_values months entries.
Proof.
  unfold write_product_row, row_months.
  intros ([cells yt] & Hmonths & (cells' & Hyears & [= <-])%bind_Ok_inv)%bind_Ok_inv.
  apply month_loop_spec in Hmonths as (entries & Hall & -> & Hyt).
  apply year_loop_spec in Hyears as (totals & Htotals & ->).
  eexists entries, _. repeat apply conj; [done|reflexivity|done|].
  cbn [row_cells fst snd app] in *. unfold spec_row_values.
  rewrite fmap_app, !fmap_bind_list. f_equal.
  eapply year_cells_are_sums; [|exact Htotals].
  intros y Hy. rewrite Hyt, zero_totals_lookup by done. done.
Qed.

(** The product loop writes one such row per product, in order. *)
Lemma rows_loop_spec (e : env) (w : wizard) (months : list month_bucket)
    (location_ids : list Z) (products : list product_product) :
  ∀ rows0 rows,
  for_each (write_product_row e w months location_ids) rows0 products = Ok rows →
  ∃ new_rows,
    rows = rows0 ++ new_rows
    ∧ Forall2 (row_of e w months location_ids) products new_rows.
Proof.
  induction products as [|product products IH]; intros rows0 rows Hrun.
  - injection Hrun as <-. exists []. split; [by rewrite app_nil_r|constructor].
  - simpl in Hrun. apply bind_Ok_inv in Hrun as (rows1 & Hrow & Hrest).
    apply write_product_row_spec in Hrow as (entries & row & Hall & -> & Hp & Hvalues).
    apply IH in Hrest as (new_rows & -> & Hrows).
    exists (row :: new_rows). split; [by rewrite <- app_assoc|].
    constructor; [|done]. split; [done|]. eauto.
Qed.

Lemma write_excel_content_rows (e : env) (w : wizard)
    (products : list product_product) (months : list month_bucket)
    (location_ids : list Z) (ws : worksheet) :
  _write_excel_content e w products months location_ids = Ok ws →
  Forall2 (row_of e w months location_ids) products (ws_rows ws).
Proof.
  unfold _write_excel_content. intros (rows & Hrows & [= <-])%bind_Ok_inv.
  apply rows_loop_spec in Hrows as (new_rows & -> & Hall). done.
Qed.

(** C6. In a report, the row of every product holds, for each month, the
    eight figures the wizard computed for it and then, for each year of the
    report, the six yearly totals, each equal to the sum of the
    corresponding monthly figure (purchase, sale and point-of-sale quantity
    and value) of that product over the months of that year in the
    report. *)
Theorem yearly_totals_are_monthly_sums (e : env) (w : wizard)
    (products : list product_product) (months : list month_bucket)
    (location_ids : list Z) (ws : worksheet) :
  _write_excel_content e w products months location_ids = Ok ws →
  Forall2 (λ product row,
             row_product row = product
             ∧ ∃ entries,
                 Forall2 (computed_entry e w (prod_id product) location_ids)
                         months entries
                 ∧ cell_value <$> row_cells row
                   = (entries ≫= month_values)
                     ++ (years_of months ≫= λ y, year_sums y months entries)
                 ∧ ∀ y, year_sums y months entries
                        = (λ f, sql_sum (f <$> flows_of_year y months entries))
                          <$> [ MoveData.purchase_qty; MoveData.purchase_value;
                                MoveData.sale_qty; MoveData.sale_value;
                                MoveData.pos_qty; MoveData.pos_value ])
          products (ws_rows ws).
Proof.
  intros Hrun. apply write_excel_content_rows in Hrun.
  eapply Forall2_impl; [exact Hrun|].
  intros product row (Hp & entries & Hall & Hvalues).
  split; [done|]. exists entries. done.
Qed.

Lemma yearly_totals_are_monthly_sums_witness :
  ∃ ws,
    _write_excel_content shop w_2024 [bolt] [january_2024; february_2024] [1; 2] = Ok ws
    ∧ Forall2 (row_of shop w_2024 [january_2024; february_2024] [1; 2])
              [bolt] (ws_rows ws).
Proof.
  eassert (_write_excel_content shop w_2024 [bolt] [january_2024; february_2024] [1; 2]
           = Ok _) as Hrun by reflexivity.
  eexists. split; [exact Hrun|].
  pose proof (yearly_totals_are_monthly_sums _ _ _ _ _ _ Hrun) as H.
  eapply Forall2_impl; [exact H|].
  intros product row (Hp & entries & Hall & Hvalues & _).
  split; [done|]. exists entries. done.
Defined.

(** ** The Product Selector *)

Lemma ascii_compare_trans_lt (a b c : Ascii.ascii) :
  Ascii.compare a b = Lt → Ascii.compare b c = Lt → Ascii.compare a c = Lt.
Proof.
  unfold Ascii.compare. rewrite !N.compare_lt_iff. apply N.lt_trans.
Qed.

Lemma ascii_compare_refl (a : Ascii.ascii) : Ascii.compare a a = Eq.
Proof. unfold Ascii.compare. apply N.compare_refl. Qed.

Lemma string_leb_trans (s1 : string) :
  ∀ s2 s3, String.leb s1 s2 = true → String.leb s2 s3 = true → String.leb s1 s3 = true.
Proof.
  unfold String.leb.
  induction s1 as [|c1 s1 IH]; intros [|c2 s2] [|c3 s3]; simpl; try done.
  destruct (Ascii.compare c1 c2) eqn:E12; try done;
    destruct (Ascii.compare c2 c3) eqn:E23; try done.
  - apply Ascii.compare_eq_iff in E12 as ->. apply Ascii.compare_eq_iff in E23 as ->.
    rewrite ascii_compare_refl. apply IH.
  - apply Ascii.compare_eq_iff in E12 as ->. by rewrite E23.
  - apply Ascii.compare_eq_iff in E23 as <-. by rewrite E12.
  - by rewrite (ascii_compare_trans_lt _ _ _ E12 E23).
Qed.

Lemma name_le_total (e : env) : Total (name_le e).
Proof.
  intros p q. unfold name_le.
  destruct (String.leb_total (product_name e p) (product_name e q)) as [H|H];
    rewrite H; [by left|by right].
Qed.

Lemma name_le_trans (e : env) : Transitive (name_le e).
Proof.
  intros p q r. unfold name_le. intros H1%Is_true_true H2%Is_true_true.
  apply Is_true_true. by eapply string_leb_trans.
Qed.

Lemma StronglySorted_filter {A : Type} (R : relation A) (P : A → Prop)
    `{∀ x, Decision (P x)} (l : list A) :
  StronglySorted R l → StronglySorted R (filter P l).
Proof.
  induction 1 as [|x l Hs IH Hall]; [constructor|].
  rewrite filter_cons. case_decide; [|done].
  constructor; [done|].
  apply Forall_forall. intros y [_ Hy]%list_elem_of_filter.
  by eapply Forall_forall in Hall.
Qed.

Lemma child_of_leaf (e : env) (t : product_template) (ids : list Z) :
  Exists (λ c, categ_id c = tmpl_categ_id t
               ∧ Exists (λ a, a ∈ ids) (categ_parent_path c)) (t_product_category e)
  ↔ child_of e (tmpl_categ_id t) ids.
Proof.
  unfold child_of. rewrite Exists_exists. split.
  - intros (c & Hc & Hid & (a & Ha & Hin)%Exists_exists). eauto 8.
  - intros (c & Hc & Hid & a & Ha & Hin). exists c. split; [done|]. split; [done|].
    apply Exists_exists. eauto.
Qed.

Lemma leaf_holds_spec (e : env) (p : product_product) (l : leaf) :
  leaf_holds e p l = true ↔
  match l with
  | Type_eq v => tmpl_type <$> template_of e p = Some v
  | Id_in ids => prod_id p ∈ ids
  | Categ_child_of ids =>
    ∃ t, template_of e p = Some t ∧ child_of e (tmpl_categ_id t) ids
  end.
Proof.
  destruct l as [v|ids|ids]; simpl.
  - apply bool_decide_eq_true.
  - apply bool_decide_eq_true.
  - destruct (template_of e p) as [t|].
    + rewrite bool_decide_eq_true, child_of_leaf. split; [eauto|].
      by intros (t' & [= <-] & ?).
    + split; [done|]. by intros (t' & ? & _).
Qed.

(** The domain the wizard builds holds of a product exactly when the product
    matches the filters of the request. *)
Lemma domain_matches_filters (e : env) (w : wizard) (p : product_product) :
  let domain := [Type_eq "consu"] in
  let domain :=
    if product_ids w is [] then domain else domain ++ [Id_in (product_ids w)] in
  let domain :=
    if category_ids w is [] then domain
    else domain ++ [Categ_child_of (category_ids w)] in
  forallb (leaf_holds e p) domain = true ↔ matches_filters e w p.
Proof.
  unfold matches_filters. cbn zeta.
  destruct (product_ids w) as [|i ids] eqn:Hids;
    destruct (category_ids w) as [|c cs] eqn:Hcs;
    rewrite ?forallb_app; cbn [forallb app];
    rewrite ?andb_true_r, ?andb_true_iff;
    rewrite ?(leaf_holds_spec e p (Type_eq _)), ?(leaf_holds_spec e p (Id_in _)),
      ?(leaf_holds_spec e p (Categ_child_of _)).
  - split; [|tauto]. intros H. split; [done|]. split; intros Hne; by destruct Hne.
  - split.
    + intros [H1 H2]. split; [done|]. split; [intros Hne; by destruct Hne|done].
    + intros (H1 & _ & H3). split; [done|]. by apply H3.
  - split.
    + intros [H1 H2]. split; [done|]. split; [done|intros Hne; by destruct Hne].
    + intros (H1 & H2 & _). split; [done|]. by apply H2.
  - split.
    + intros [[H1 H2] H3]. done.
    + intros (H1 & H2 & H3). split; [split|]; [done|by apply H2|by apply H3].
Qed.

Lemma search_products_elem (e : env) (domain : list leaf) (p : product_product) :
  p ∈ search_products e domain
  ↔ p ∈ t_product_product e ∧ forallb (leaf_holds e p) domain = true.
Proof.
  unfold search_products. rewrite merge_sort_Permutation, list_elem_of_filter.
  rewrite Is_true_true. tauto.
Qed.

Lemma search_products_sorted (e : env) (domain : list leaf) :
  StronglySorted (name_le e) (search_products e domain).
Proof.
  apply StronglySorted_merge_sort; [apply name_le_trans|apply name_le_total].
Qed.

(** Among the products found, the templates collected by the phantom BoM
    search are those of the kits. *)
Lemma phantom_templates_spec (e : env) (products : list product_product)
    (p : product_product) :
  p ∈ products →
  prod_tmpl_id p
    ∈ remove_dups
        (bom_product_tmpl_id <$>
           filter (λ b, bom_type b = "phantom"
                        ∧ bom_product_tmpl_id b ∈ remove_dups (prod_tmpl_id <$> products))
                  (t_mrp_bom e))
  ↔ is_kit e p.
Proof.
  intros Hp. rewrite elem_of_remove_dups, list_elem_of_fmap. unfold is_kit.
  split.
  - intros (b & Heq & [[Hph _] Hb]%list_elem_of_filter). eauto.
  - intros (b & Hb & Hph & Heq). exists b. split; [done|].
    apply list_elem_of_filter. split; [|done]. split; [done|].
    rewrite elem_of_remove_dups, Heq. by apply list_elem_of_fmap_2.
Qed.

(** C7. [_get_products] returns exactly the variants that are stockable,
    are in the id set when one is given, are in the subtree of the given
    categories when some are given, and whose template has no phantom BoM;
    so no kit product is in its output; and its output is ordered by name. *)
Theorem products_selected (e : env) (w : wizard) :
  (∀ p, p ∈ _get_products e w
        ↔ p ∈ t_product_product e ∧ matches_filters e w p ∧ ¬ is_kit e p)
  ∧ (∀ p, p ∈ _get_products e w → ¬ is_kit e p)
  ∧ StronglySorted (name_le e) (_get_products e w).
Proof.
  unfold _get_products. cbn zeta.
  set (domain := if category_ids w is [] then _ else _).
  pose proof (search_products_sorted e domain) as Hsorted.
  assert (∀ p, p ∈ search_products e domain
               ↔ p ∈ t_product_product e ∧ matches_filters e w p) as Hfound.
  { intros p. rewrite search_products_elem.
    pose proof (domain_matches_filters e w p) as Hd. cbn zeta in Hd.
    unfold domain. tauto. }
  pose proof (phantom_templates_spec e (search_products e domain)) as Hkits.
  destruct (search_products e domain) as [|p0 products] eqn:Hsearch.
  { repeat apply conj; [|by intros p ?%elem_of_nil|constructor].
    intros p. split; [by intros ?%elem_of_nil|].
    intros (Hp & Hm & _). apply (Hfound p). done. }
  set (found := p0 :: products) in *.
  set (ids := remove_dups _) in *.
  assert (∀ p, p ∈ (if ids is [] then found else filter (λ p, prod_tmpl_id p ∉ ids) found)
               ↔ p ∈ found ∧ ¬ is_kit e p) as Hkept.
  { intros p. destruct ids as [|i ids'] eqn:Hids.
    - split; [|tauto]. intros Hp. split; [done|].
      intros Hkit%Hkits; [|done]. by apply elem_of_nil in Hkit.
    - rewrite list_elem_of_filter. split.
      + intros [Hnot Hp]. split; [done|]. by rewrite <- Hkits.
      + intros [Hp Hnot]. split; [|done]. by rewrite Hkits. }
  repeat apply conj.
  - intros p. rewrite Hkept, Hfound. tauto.
  - intros p. rewrite Hkept. tauto.
  - destruct ids; [done|]. by apply StronglySorted_filter.
Qed.

(** In [shop] the kits (products 20, 21 and 30) are left out; the Anvil comes
    before the Bolt. *)
Lemma products_selected_witness :
  prod_id <$> _get_products shop w_2024 = [40; 10]
  ∧ ∀ p, p ∈ _get_products shop w_2024 → ¬ is_kit shop p.
Proof.
  split; [reflexivity|].
  destruct (products_selected shop w_2024) as (_ & H & _). exact H.
Defined.

(** ** Report generation and its validation errors *)

Lemma no_user_error_bind {A B : Type} (m : outcome A) (k : A → outcome B) :
  is_user_error m = false →
  (∀ a, is_user_error (k a) = false) →
  is_user_error (x ←! m; k x) = false.
Proof. destruct m as [a|ex|]; simpl; [auto|done|done]. Qed.

Lemma no_user_error_for_each {A St : Type} (body : St → A → outcome St) (l : list A) :
  (∀ s x, is_user_error (body s x) = false) →
  ∀ s, is_user_error (for_each body s l) = false.
Proof.
  intros Hbody. induction l as [|x l IH]; intros s; [done|].
  simpl. apply no_user_error_bind; [apply Hbody|apply IH].
Qed.

Lemma sub_day_no_user_error d : is_user_error (sub_day d) = false.
Proof. unfold sub_day. repeat case_match; done. Qed.

Lemma stock_at_date_no_user_error e product_id d location_ids :
  is_user_error (_get_stock_at_date e product_id d location_ids) = false.
Proof. unfold _get_stock_at_date. by destruct location_ids. Qed.

Lemma stock_moves_data_no_user_error e w product_id ds de location_ids :
  is_user_error (_get_stock_moves_data e w product_id ds de location_ids) = false.
Proof. unfold _get_stock_moves_data. by destruct location_ids. Qed.

Lemma getitem_no_user_error {V : Type} (d : gmap Z V) key :
  is_user_error (getitem d key) = false.
Proof. unfold getitem. by destruct (d !! key). Qed.

Lemma month_step_no_user_error e w product location_ids st month :
  is_user_error (month_step e w product location_ids st month) = false.
Proof.
  unfold month_step, opening_stock, closing_stock. destruct st as [cells yt].
  repeat (apply no_user_error_bind; [|intros ?]);
    auto using sub_day_no_user_error, stock_at_date_no_user_error,
      stock_moves_data_no_user_error, getitem_no_user_error.
Qed.

(** Writing the worksheet raises no user-facing error. *)
Lemma write_excel_content_no_user_error e w products months location_ids :
  is_user_error (_write_excel_content e w products months location_ids) = false.
Proof.
  unfold _write_excel_content. apply no_user_error_bind; [|done].
  apply no_user_error_for_each. intros rows product. unfold write_product_row.
  apply no_user_error_bind.
  - unfold row_months. apply no_user_error_for_each. intros.
    apply month_step_no_user_error.
  - intros st. apply no_user_error_bind; [|done].
    apply no_user_error_for_each. intros. unfold year_step.
    apply no_user_error_bind; [apply getitem_no_user_error|done].
Qed.

Lemma date_leb_refl d : date_leb d d = true.
Proof. unfold date_leb. zbool; lia. Qed.

(** C8 (amended). For a request with well-formed dates whose end date is
    before December 9999, report generation (the date constraint followed by
    [action_generate_report]) raises a user-facing error, and so produces no
    file, exactly when one of the validation conditions holds: start date
    after end date, empty product selection after filtering, empty month
    range, empty internal location set, or missing spreadsheet library; a
    range with date_from equal to date_to passes the date constraint and has
    one month. *)
Theorem report_user_errors (e : env) (w : wizard) :
  valid_date (date_from w) = true →
  valid_date (date_to w) = true →
  ¬ last_month_of_time (date_to w) →
  (is_user_error (generate_report e w) = true ↔ validation_condition e w)
  ∧ (is_user_error (generate_report e w) = true → is_ok (generate_report e w) = false)
  ∧ (date_from w = date_to w →
     _check_dates w = Ok () ∧ ∃ b, _get_months_in_range w = Ok [b]).
Proof.
  intros Hf Ht Hmax. split; [|split].
  - unfold validation_condition, generate_report, action_generate_report,
      _check_dates, date_ltb.
    destruct (date_leb (date_from w) (date_to w)) eqn:Hle; simpl;
      [|by (split; [intros _; auto 6|done])].
    destruct (months_in_range_ok w) as (n & Hn & _ & ->); [done|done|].
    destruct n as [|n]; [lia|]. cbn [buckets_from].
    destruct (xlsxwriter e); simpl; [|by (split; [intros _; auto 6|done])].
    destruct (_get_products e w) as [|p ps] eqn:Hp; simpl;
      [by (split; [intros _; auto 6|done])|].
    destruct (_get_location_ids e w) as [|l ls] eqn:Hl; simpl;
      [by (split; [intros _; auto 6|done])|].
    rewrite no_user_error_bind;
      [|apply write_excel_content_no_user_error|done].
    split; [done|]. intros [?|[?|[?|[?|?]]]]; done.
  - by destruct (generate_report e w) as [r|[]|].
  - intros Heq. split.
    + unfold _check_dates, date_ltb. by rewrite Heq, date_leb_refl.
    + destruct (months_in_range_ok w) as (n & Hn & Hidx & ->).
      * repeat split; [done|done|]. rewrite Heq. apply date_leb_refl.
      * done.
      * rewrite Heq in Hidx. assert (n = 1%nat) as -> by lia. by eexists.
Qed.

Lemma report_user_errors_witness :
  (is_user_error (generate_report shop w_2024) = true ↔ validation_condition shop w_2024)
  ∧ is_user_error (generate_report shop_without_locations w_2024) = true.
Proof.
  split.
  - apply (report_user_errors shop w_2024); [reflexivity|reflexivity|].
    intros [H _]. discriminate H.
  - apply (report_user_errors shop_without_locations w_2024);
      [reflexivity|reflexivity| |].
    + intros [H _]. discriminate H.
    + right. right. right. left. reflexivity.
Defined.

(** Why the date constraint belongs to report generation: on the request
    2024-01-20 .. 2024-01-10 [action_generate_report] alone finds the month
    of January and writes a report; it is [_check_dates] that stops it. *)
Lemma reversed_dates_are_stopped_by_the_constraint :
  is_ok (action_generate_report shop w_reversed) = true
  ∧ generate_report shop w_reversed
    = Raise (UserError "Start Date must be before End Date.").
Proof. split; reflexivity. Qed.

(** C8 as stated fails in December 9999. The request 9999-12-15 ..
    9999-12-31 on a database without stock locations meets a validation
    condition (the location set is empty), but generation stops earlier with
    the [ValueError] of the month computation, not with a user-facing
    error. *)
Lemma no_user_error_in_december_9999 :
  valid_date (date_from w_9999) = true
  ∧ valid_date (date_to w_9999) = true
  ∧ validation_condition shop_without_locations w_9999
  ∧ generate_report shop_without_locations w_9999 = Raise ValueError
  ∧ ¬ (is_user_error (generate_report shop_without_locations w_9999) = true
       ↔ validation_condition shop_without_locations w_9999).
Proof.
  assert (validation_condition shop_without_locations w_9999) as Hv.
  { right. right. right. left. reflexivity. }
  repeat apply conj; try reflexivity; [done|].
  intros [_ H]. specialize (H Hv). discriminate H.
Qed.

(** ** The windows of the report *)

(** A range that ends in December 9999 makes the loop step past the last
    month Python dates can express. *)
Lemma months_loop_overflow n : ∀ fuel y m end_ acc,
  1 ≤ y → 1 ≤ m ≤ 12 → last_month_of_time end_ → 1 ≤ day end_ →
  month_index end_ - month_index (mkdate y m 1) = Z.of_nat n →
  (n < fuel)%nat →
  months_loop fuel (mkdate y m 1) end_ acc = Raise ValueError.
Proof.
  unfold last_month_of_time, MAXYEAR.
  induction n as [|n IH]; intros fuel y m end_ acc Hy Hm [Hye Hme] Hde Hn Hfuel;
    (destruct fuel as [|fuel]; [lia|]); simpl;
    (assert (date_leb (mkdate y m 1) end_ = true) as ->;
     [unfold date_leb, month_index in *; simpl in *; zbool; lia|]).
  - rewrite add_month_overflow; [done|].
    unfold month_index, last_month_of_time, MAXYEAR in *. simpl in *. lia.
  - destruct (next_ym_spec y m Hm) as [Hm' Hidx].
    assert ((next_ym y m).1 ≤ 9999) as Hy'.
    { unfold month_index, next_ym in *. simpl in *.
      destruct (Z.eqb_spec m 12); simpl in *; lia. }
    rewrite add_month_first by done. simpl.
    rewrite sub_day_next_first by done. simpl.
    apply IH; try done.
    + unfold next_ym. destruct (Z.eqb_spec m 12); simpl; lia.
    + unfold month_index in *. simpl in *. lia.
    + lia.
Qed.

Lemma months_in_range_overflow_idx (w : wizard) :
  valid_date (date_from w) = true →
  valid_date (date_to w) = true →
  month_index (date_from w) ≤ month_index (date_to w) →
  last_month_of_time (date_to w) →
  _get_months_in_range w = Raise ValueError.
Proof.
  intros Hf Ht Hidx Hmax.
  pose proof Hf as (Hfy & Hfm & Hfd)%valid_ymd_spec.
  pose proof Ht as (Hty & Htm & Htd)%valid_ymd_spec.
  unfold _get_months_in_range. rewrite !replace_day_1 by done.
  cbv beta iota delta [Py.bind]. unfold months_budget.
  apply (months_loop_overflow
           (Z.to_nat (month_index (date_to w) - month_index (date_from w))));
    try done; simpl; try lia.
  - unfold month_index in *. simpl. lia.
  - unfold month_index in *. simpl. lia.
Qed.

Lemma months_in_range_overflow (w : wizard) :
  valid_request w →
  last_month_of_time (date_to w) →
  _get_months_in_range w = Raise ValueError.
Proof.
  intros (Hf & Ht & Hle) Hmax.
  pose proof Hf as (Hfy & Hfm & Hfd)%valid_ymd_spec.
  pose proof Ht as (Hty & Htm & Htd)%valid_ymd_spec.
  apply months_in_range_overflow_idx; try done.
  by apply date_leb_month_index.
Qed.






(** In the report of [shop] for 2024-01-15 .. 2024-03-02, the January
    sale quantity of the bolt is 11: the 4 bolts and the 3 kits K (2 bolts
    each) sold on 20 January and the bolt sold on 5 January, ten days before
    date_from. *)
Lemma january_counts_sale_before_date_from :
  date_ltb (mkdate 2024 1 5) (date_from w_2024) = true
  ∧ ∃ data,
      _get_stock_moves_data shop w_2024 10 (m_start january_2024) (m_end january_2024)
        [1; 2] = Ok data
      ∧ MoveData.sale_qty data = qz 11.
Proof.
  split; [reflexivity|]. eexists. split; [reflexivity|]. qc_compute.
Qed.

(** ** The Time Bucketer never runs out of budget *)

Lemma months_in_range_empty (w : wizard) :
  valid_date (date_from w) = true →
  valid_date (date_to w) = true →
  month_index (date_to w) < month_index (date_from w) →
  _get_months_in_range w = Ok [].
Proof.
  intros Hf Ht Hidx.
  pose proof Hf as (Hfy & Hfm & Hfd)%valid_ymd_spec.
  pose proof Ht as (Hty & Htm & Htd)%valid_ymd_spec.
  unfold _get_months_in_range. rewrite !replace_day_1 by done.
  cbv beta iota delta [Py.bind]. unfold months_budget. simpl.
  assert (date_leb (mkdate (year (date_from w)) (month (date_from w)) 1)
                   (mkdate (year (date_to w)) (month (date_to w)) 1) = false) as ->; [|done].
  unfold date_leb, month_index in *. simpl. zbool; lia.
Qed.

(** On well-formed dates [_get_months_in_range] returns a list or raises
    [ValueError]; the budget of its loop is never exhausted. *)
Lemma months_in_range_total (w : wizard) :
  valid_date (date_from w) = true →
  valid_date (date_to w) = true →
  (∃ months, _get_months_in_range w = Ok months)
  ∨ _get_months_in_range w = Raise ValueError.
Proof.
  intros Hf Ht.
  pose proof Hf as (Hfy & Hfm & Hfd)%valid_ymd_spec.
  pose proof Ht as (Hty & Htm & Htd)%valid_ymd_spec.
  destruct (decide (month_index (date_to w) < month_index (date_from w))) as [Hlt|Hge].
  { left. exists []. by apply months_in_range_empty. }
  destruct (decide (year (date_to w) = MAXYEAR ∧ month (date_to w) = 12)) as [Hmax|Hmax].
  - right. apply months_in_range_overflow_idx; try done. lia.
  - left. destruct (months_in_range_ok_idx w Hf Ht) as (n & _ & _ & ->); [lia|done|].
    eauto.
Qed.

(** * Further properties of the code *)

(** ** [_get_months_in_range]: every outcome *)

(** X1. On well-formed dates [_get_months_in_range] returns the empty list
    exactly when the month of [date_to] is before the month of [date_from];
    the days of the two dates play no part, and no error is raised. *)
Theorem months_in_range_empty_iff (w : wizard) :
  valid_date (date_from w) = true →
  valid_date (date_to w) = true →
  _get_months_in_range w = Ok []
  ↔ month_index (date_to w) < month_index (date_from w).
Proof.
  intros Hf Ht. split; [|by apply months_in_range_empty].
  intros Hrun.
  destruct (decide (month_index (date_to w) < month_index (date_from w)))
    as [|Hge]; [done|exfalso].
  destruct (decide (last_month_of_time (date_to w))) as [Hmax|Hmax].
  - rewrite months_in_range_overflow_idx in Hrun by (done || lia). done.
  - destruct (months_in_range_ok_idx w Hf Ht) as (n & Hn & _ & Hrun');
      [lia|done|].
    rewrite Hrun' in Hrun. injection Hrun as Hrun.
    apply (f_equal length) in Hrun. rewrite buckets_from_length in Hrun.
    simpl in Hrun. lia.
Qed.

Lemma months_in_range_empty_iff_witness :
  _get_months_in_range (request (mkdate 2024 3 1) (mkdate 2024 2 29)) = Ok [].
Proof.
  by apply (months_in_range_empty_iff (request (mkdate 2024 3 1) (mkdate 2024 2 29))).
Defined.

(** X2. On well-formed dates [_get_months_in_range] raises [ValueError]
    exactly when the month of [date_to] is December 9999 and is not before
    the month of [date_from]: the month after the last bucket does not
    exist. *)
Theorem months_in_range_value_error_iff (w : wizard) :
  valid_date (date_from w) = true →
  valid_date (date_to w) = true →
  _get_months_in_range w = Raise ValueError
  ↔ month_index (date_from w) ≤ month_index (date_to w)
    ∧ last_month_of_time (date_to w).
Proof.
  intros Hf Ht. split.
  - intros Hrun.
    destruct (decide (month_index (date_to w) < month_index (date_from w))) as [Hlt|Hge].
    { rewrite months_in_range_empty in Hrun by done. done. }
    split; [lia|].
    destruct (decide (last_month_of_time (date_to w))) as [|Hmax]; [done|exfalso].
    destruct (months_in_range_ok_idx w Hf Ht) as (n & _ & _ & Hrun'); [lia|done|].
    rewrite Hrun' in Hrun. done.
  - intros [Hidx Hmax]. by apply months_in_range_overflow_idx.
Qed.

Lemma months_in_range_value_error_iff_witness :
  _get_months_in_range (request (mkdate 9998 7 4) (mkdate 9999 12 1)) = Raise ValueError.
Proof.
  apply (months_in_range_value_error_iff (request (mkdate 9998 7 4) (mkdate 9999 12 1)));
    [reflexivity|reflexivity|].
  split; [vm_compute; discriminate|split; reflexivity].
Defined.

(** X3. The number of buckets. For well-formed dates whose end is before
    December 9999, [_get_months_in_range] returns one bucket per calendar
    month from the month of [date_from] to the month of [date_to]:
    12 * (difference of the years) + (difference of the months) + 1 of
    them, and none when that number is not positive. *)
Theorem months_in_range_length (w : wizard) :
  valid_date (date_from w) = true →
  valid_date (date_to w) = true →
  ¬ last_month_of_time (date_to w) →
  ∃ months, _get_months_in_range w = Ok months
    ∧ Z.of_nat (length months)
      = Z.max 0 (12 * (year (date_to w) - year (date_from w))
                 + (month (date_to w) - month (date_from w)) + 1).
Proof.
  intros Hf Ht Hmax.
  destruct (decide (month_index (date_to w) < month_index (date_from w))) as [Hlt|Hge].
  - exists []. split; [by apply months_in_range_empty|].
    unfold month_index in Hlt. simpl. lia.
  - destruct (months_in_range_ok_idx w Hf Ht) as (n & Hn & Hidx & Hrun); [lia|done|].
    eexists. split; [done|]. rewrite buckets_from_length.
    unfold month_index in Hidx. lia.
Qed.

Lemma months_in_range_length_witness :
  ∃ months, _get_months_in_range w_three_years = Ok months
    ∧ Z.of_nat (length months) = 16.
Proof.
  apply (months_in_range_length w_three_years); [reflexivity|reflexivity|].
  intros [H _]. discriminate H.
Defined.

(** X4. Only the months of the two dates matter: two requests whose start
    dates lie in the same calendar month and whose end dates lie in the same
    calendar month get the same result from [_get_months_in_range], whatever
    the days are, also when the start day is after the end day. *)
Theorem months_in_range_ignores_days (w w' : wizard) :
  valid_date (date_from w) = true → valid_date (date_to w) = true →
  valid_date (date_from w') = true → valid_date (date_to w') = true →
  same_month (date_from w) (date_from w') →
  same_month (date_to w) (date_to w') →
  _get_months_in_range w = _get_months_in_range w'.
Proof.
  intros Hf Ht Hf' Ht' [Hfy Hfm] [Hty Htm].
  unfold _get_months_in_range. rewrite !replace_day_1 by done.
  by rewrite Hfy, Hfm, Hty, Htm.
Qed.

Lemma months_in_range_ignores_days_witness :
  _get_months_in_range w_reversed
  = _get_months_in_range (request (mkdate 2024 1 1) (mkdate 2024 1 31)).
Proof.
  apply (months_in_range_ignores_days w_reversed
           (request (mkdate 2024 1 1) (mkdate 2024 1 31)));
    try reflexivity; split; reflexivity.
Defined.

(** ** Balances and flows *)

(** X5. [_get_stock_at_date] on an empty location set fails in the database
    ([IN ()]); on a non-empty one it returns, over the done moves of the
    product dated on or before the date, the quantity moved into the
    location set from outside minus the quantity moved out of it, plus the
    quantity of every move with both ends inside the set. *)
Theorem stock_at_date_balance (e : env) (product_id : Z) (d : date)
    (location_ids : list Z) :
  (location_ids = [] →
   _get_stock_at_date e product_id d location_ids = Raise ProgrammingError)
  ∧ (location_ids ≠ [] →
     _get_stock_at_date e product_id d location_ids
     = Ok (spec_stock_at_date e product_id d location_ids
           + sql_sum (move_product_qty <$>
                        internal_transfers e product_id d location_ids))%Qc).
Proof.
  split; [by intros ->|]. apply stock_at_date_characterised.
Qed.

Lemma stock_at_date_balance_witness :
  _get_stock_at_date shop 10 (mkdate 2024 1 31) shop_locations
  = Ok (spec_stock_at_date shop 10 (mkdate 2024 1 31) shop_locations
        + sql_sum (move_product_qty <$>
                     internal_transfers shop 10 (mkdate 2024 1 31) shop_locations))%Qc.
Proof.
  by apply (stock_at_date_balance shop 10 (mkdate 2024 1 31) shop_locations).
Defined.

Lemma date_leb_spec (a b : date) :
  date_leb a b = true
  ↔ year a < year b
    ∨ (year a = year b
       ∧ (month a < month b ∨ (month a = month b ∧ day a ≤ day b))).
Proof. unfold date_leb. zbool; lia. Qed.

Lemma date_leb_false (a b : date) :
  date_leb a b = false
  ↔ year b < year a
    ∨ (year a = year b
       ∧ (month b < month a ∨ (month a = month b ∧ day b < day a))).
Proof. unfold date_leb. zbool; lia. Qed.

(** A date is on or before the eve of [s] exactly when it is before [s]. *)
Lemma date_leb_eve (d s eve : date) :
  valid_date d = true → valid_date s = true → sub_day s = Ok eve →
  date_leb d eve = negb (date_leb s d).
Proof.
  intros (Hdy & Hdm & Hdd)%valid_ymd_spec (Hsy & Hsm & Hsd)%valid_ymd_spec Heve.
  unfold sub_day, MINYEAR in *.
  destruct (Z.ltb_spec 1 (day s)).
  { injection Heve as <-.
    destruct (date_leb d _) eqn:E1, (date_leb s d) eqn:E2; simpl; try done; exfalso;
      rewrite ?date_leb_spec, ?date_leb_false in E1, E2; simpl in *; lia. }
  destruct (Z.ltb_spec 1 (month s)).
  { injection Heve as <-.
    pose proof (days_in_month_bounds (year s) (month s - 1)).
    destruct (date_leb d _) eqn:E1, (date_leb s d) eqn:E2; simpl; try done; exfalso;
      rewrite ?date_leb_spec, ?date_leb_false in E1, E2; simpl in *; [lia|].
    destruct (decide (year d = year s ∧ month d = month s - 1)) as [[Hy Hm]|];
      [rewrite Hy, Hm in Hdd|]; lia. }
  destruct (Z.ltb_spec 1 (year s)); [injection Heve as <-|done].
  destruct (date_leb d _) eqn:E1, (date_leb s d) eqn:E2; simpl; try done; exfalso;
    rewrite ?date_leb_spec, ?date_leb_false in E1, E2; simpl in *; [lia|].
  destruct (decide (month d = 12)) as [Hm|]; [rewrite Hm in Hdd|]; [|lia].
  change (days_in_month (year d) 12) with 31 in Hdd. lia.
Qed.

Lemma date_leb_before (d s e : date) :
  date_leb s d = false → date_leb s e = true → date_leb d e = true.
Proof. rewrite date_leb_false, !date_leb_spec. lia. Qed.

Lemma sql_sum_filter {A : Type} (f : A → Qc) (P : A → Prop) `{!∀ x, Decision (P x)}
    (l : list A) :
  sql_sum (f <$> filter P l) = sql_sum ((λ x, if decide (P x) then f x else 0%Qc) <$> l).
Proof.
  induction l as [|x l IH]; [done|].
  rewrite filter_cons, fmap_cons, sql_sum_cons, <- IH.
  case_decide; [done|ring].
Qed.

(** The contribution of one move to the balance at the end of a window is
    its contribution to the balance on the eve of the window plus its part
    in the flows of the window. *)
Lemma window_move (product_id : Z) (date_start date_end eve : date)
    (location_ids : list Z) (sm : stock_move) :
  valid_date (move_date sm) = true →
  valid_date date_start = true →
  date_leb date_start date_end = true →
  sub_day date_start = Ok eve →
  (if decide (stock_at_date_where product_id date_end location_ids sm)
   then stock_at_date_case location_ids sm else 0%Qc)
  = ((if decide (stock_at_date_where product_id eve location_ids sm)
      then stock_at_date_case location_ids sm else 0)
     + (if decide (move_product_id sm = product_id
                   ∧ move_state sm = "done"
                   ∧ in_window (move_date sm) date_start date_end
                   ∧ move_location_dest_id sm ∈ location_ids
                   ∧ move_location_id sm ∉ location_ids)
        then move_product_qty sm else 0)
     - (if decide (move_product_id sm = product_id
                   ∧ move_state sm = "done"
                   ∧ in_window (move_date sm) date_start date_end
                   ∧ move_location_id sm ∈ location_ids
                   ∧ move_location_dest_id sm ∉ location_ids)
        then move_product_qty sm else 0)
     + (if decide (move_product_id sm = product_id
                   ∧ move_state sm = "done"
                   ∧ in_window (move_date sm) date_start date_end
                   ∧ move_location_id sm ∈ location_ids
                   ∧ move_location_dest_id sm ∈ location_ids)
        then move_product_qty sm else 0))%Qc.
Proof.
  intros Hd Hs Hle Heve.
  assert (date_leb (move_date sm) eve ↔ ¬ date_leb date_start (move_date sm)) as Ha.
  { rewrite (date_leb_eve _ _ _ Hd Hs Heve).
    destruct (date_leb date_start (move_date sm)); simpl; tauto. }
  assert (¬ date_leb date_start (move_date sm) → date_leb (move_date sm) date_end) as Hb.
  { intros Hlt. rewrite (date_leb_before (move_date sm) date_start date_end); try done.
    by destruct (date_leb date_start (move_date sm)). }
  unfold stock_at_date_where, in_window, stock_at_date_case.
  destruct (decide (move_product_id sm = product_id ∧ move_state sm = "done"))
    as [[Hp Hst]|Hno].
  - destruct (decide (Is_true (date_leb date_start (move_date sm)))),
             (decide (Is_true (date_leb (move_date sm) date_end))),
             (decide (move_location_id sm ∈ location_ids)),
             (decide (move_location_dest_id sm ∈ location_ids));
      repeat (destruct (decide (_ ∧ _)); try (exfalso; tauto));
      try ring.
  - rewrite !(decide_False (P := _ ∧ _ ∧ _)) by tauto. ring.
Qed.

Lemma window_sum (product_id : Z) (date_start date_end eve : date)
    (location_ids : list Z) (moves : list stock_move) :
  Forall (λ sm, valid_date (move_date sm) = true) moves →
  valid_date date_start = true →
  date_leb date_start date_end = true →
  sub_day date_start = Ok eve →
  sql_sum (stock_at_date_case location_ids <$>
             filter (stock_at_date_where product_id date_end location_ids) moves)
  = (sql_sum (stock_at_date_case location_ids <$>
               filter (stock_at_date_where product_id eve location_ids) moves)
     + sql_sum (move_product_qty <$>
                 filter (λ sm, move_product_id sm = product_id
                               ∧ move_state sm = "done"
                               ∧ in_window (move_date sm) date_start date_end
                               ∧ move_location_dest_id sm ∈ location_ids
                               ∧ move_location_id sm ∉ location_ids) moves)
     - sql_sum (move_product_qty <$>
                 filter (λ sm, move_product_id sm = product_id
                               ∧ move_state sm = "done"
                               ∧ in_window (move_date sm) date_start date_end
                               ∧ move_location_id sm ∈ location_ids
                               ∧ move_location_dest_id sm ∉ location_ids) moves)
     + sql_sum (move_product_qty <$>
                 filter (λ sm, move_product_id sm = product_id
                               ∧ move_state sm = "done"
                               ∧ in_window (move_date sm) date_start date_end
                               ∧ move_location_id sm ∈ location_ids
                               ∧ move_location_dest_id sm ∈ location_ids) moves))%Qc.
Proof.
  intros Hvalid Hs Hle Heve. rewrite !sql_sum_filter.
  induction Hvalid as [|sm moves Hd _ IH]; [simpl; ring|].
  rewrite !fmap_cons, !sql_sum_cons, IH.
  rewrite (window_move product_id date_start date_end eve location_ids sm) by done.
  ring.
Qed.

(** X6. How the balances and the flows of a window fit together. On a
    ledger whose move dates are well-formed, for a window that starts on a
    well-formed date and does not end before it starts, the balance
    [_get_stock_at_date] gives at the end of the window is the balance it
    gives on the eve of the window, plus the [qty_in] and minus the
    [qty_out] that [_get_stock_moves_data] gives for the window, plus the
    quantity of the moves of the window with both ends inside the location
    set (which the flows leave out and the balance counts). *)
Theorem closing_stock_reconciles (e : env) (w : wizard) (product_id : Z)
    (date_start date_end eve : date) (location_ids : list Z)
    (opening closing : Qc) (data : MoveData.t) :
  Forall (λ sm, valid_date (move_date sm) = true) (t_stock_move e) →
  valid_date date_start = true →
  date_leb date_start date_end = true →
  sub_day date_start = Ok eve →
  _get_stock_at_date e product_id eve location_ids = Ok opening →
  _get_stock_at_date e product_id date_end location_ids = Ok closing →
  _get_stock_moves_data e w product_id date_start date_end location_ids = Ok data →
  closing
  = (opening + MoveData.qty_in data - MoveData.qty_out data
     + sql_sum (move_product_qty <$>
                  window_transfers e product_id date_start date_end location_ids))%Qc.
Proof.
  intros Hvalid Hs Hle Heve Ho Hc Hdata.
  unfold _get_stock_at_date, _get_stock_moves_data in *.
  destruct location_ids as [|l ls]; [done|].
  injection Ho as <-. injection Hc as <-. injection Hdata as <-. simpl.
  by apply window_sum.
Qed.

Lemma closing_stock_reconciles_witness :
  ∃ data,
    _get_stock_moves_data shop w_2024 10 (mkdate 2024 1 1) (mkdate 2024 1 31)
      shop_locations
    = Ok data
    ∧ qz 15
      = (qz 0 + MoveData.qty_in data - MoveData.qty_out data
         + sql_sum (move_product_qty <$>
                      window_transfers shop 10 (mkdate 2024 1 1) (mkdate 2024 1 31)
                        shop_locations))%Qc.
Proof.
  eexists. split; [reflexivity|].
  apply (closing_stock_reconciles shop w_2024 10 (mkdate 2024 1 1) (mkdate 2024 1 31)
           (mkdate 2023 12 31) shop_locations).
  - repeat constructor.
  - reflexivity.
  - reflexivity.
  - reflexivity.
  - f_equal; qc_compute.
  - f_equal; qc_compute.
  - reflexivity.
Defined.

(** ** Window-moves: the other channels *)

(** X7. With the point-of-sale channel enabled and a non-empty location set,
    the [pos_qty] of a product over a window is its own paid, done or
    invoiced point-of-sale quantity plus, for every kit of the Kit Resolver,
    the kit's own quantity times the multiplier; its [pos_value] is the own
    value plus, for every kit whose own quantity over the window is not
    zero, the kit's own value times the multiplier. *)
Theorem pos_with_kit_attribution (e : env) (w : wizard) (product_id : Z)
    (date_start date_end : date) (location_ids : list Z) :
  include_pos w = true →
  location_ids ≠ [] →
  ∃ data,
    _get_stock_moves_data e w product_id date_start date_end location_ids = Ok data
    ∧ MoveData.pos_qty data = spec_pos_qty e product_id date_start date_end
    ∧ MoveData.pos_value data = sold_kits_pos_value e product_id date_start date_end.
Proof.
  intros Hp Hl. unfold _get_stock_moves_data.
  destruct location_ids as [|l ls]; [done|]. rewrite Hp.
  eexists. split; [reflexivity|]. simpl. rewrite foldl_add_kit. simpl. done.
Qed.

Lemma pos_with_kit_attribution_witness :
  ∃ data,
    _get_stock_moves_data pos_shop w_2024 10 (mkdate 2024 1 1) (mkdate 2024 1 31) [1; 2]
    = Ok data
    ∧ MoveData.pos_qty data = qz 4
    ∧ MoveData.pos_value data = qz 540.
Proof.
  destruct (pos_with_kit_attribution pos_shop w_2024 10 (mkdate 2024 1 1)
              (mkdate 2024 1 31) [1; 2]) as (data & H1 & H2 & H3).
  - reflexivity.
  - discriminate.
  - exists data. split; [assumption|]. rewrite H2, H3. split; qc_compute.
Defined.

(** Without a phantom BoM line the resolver has nothing to return. *)
Lemma resolver_empty (e : env) (product_id : Z) :
  in_no_phantom_bom e product_id → _get_phantom_bom_components e product_id = ∅.
Proof.
  intros Hno. apply map_eq. intros k. rewrite lookup_empty.
  unfold _get_phantom_bom_components. rewrite kit_fold_untouched; [done|].
  intros line [Hpid Hline]%list_elem_of_filter. unfold kit_targets.
  destruct (browse bom_id (t_mrp_bom e) (line_bom_id line)) as [bom|] eqn:Hbom;
    [|apply not_elem_of_nil].
  rewrite decide_False by eauto. apply not_elem_of_nil.
Qed.

(** X8. For a product that is a line of no phantom BoM the Kit Resolver
    returns the empty mapping, and [_get_stock_moves_data] attributes
    nothing to it: its sale and point-of-sale figures are its own totals of
    the window when the channel is switched on, and zero when it is switched
    off. *)
Theorem no_phantom_bom_no_attribution (e : env) (w : wizard) (product_id : Z)
    (date_start date_end : date) (location_ids : list Z) (data : MoveData.t) :
  in_no_phantom_bom e product_id →
  _get_stock_moves_data e w product_id date_start date_end location_ids = Ok data →
  (MoveData.sale_qty data, MoveData.sale_value data)
  = (if include_sales w then sale_totals e product_id date_start date_end else (0, 0)%Qc)
  ∧ (MoveData.pos_qty data, MoveData.pos_value data)
    = (if include_pos w then pos_totals e product_id date_start date_end else (0, 0)%Qc).
Proof.
  intros Hno Hrun. unfold _get_stock_moves_data in Hrun.
  rewrite (resolver_empty e product_id Hno), map_to_list_empty in Hrun.
  destruct location_ids as [|l ls]; [done|]. injection Hrun as <-. simpl.
  split; [destruct (include_sales w)|destruct (include_pos w)]; done.
Qed.

Lemma no_phantom_bom_no_attribution_witness :
  ∃ data,
    _get_stock_moves_data pos_shop w_2024 40 (mkdate 2024 1 1) (mkdate 2024 1 31) [1; 2]
    = Ok data
    ∧ (MoveData.sale_qty data, MoveData.sale_value data)
      = sale_totals pos_shop 40 (mkdate 2024 1 1) (mkdate 2024 1 31)
    ∧ (MoveData.pos_qty data, MoveData.pos_value data)
      = pos_totals pos_shop 40 (mkdate 2024 1 1) (mkdate 2024 1 31).
Proof.
  eexists. split; [reflexivity|].
  apply (no_phantom_bom_no_attribution pos_shop w_2024 40 (mkdate 2024 1 1)
           (mkdate 2024 1 31) [1; 2]); [|reflexivity].
  intros line bom Hline Hpid. exfalso.
  repeat (apply elem_of_cons in Hline as [->|Hline]; [discriminate Hpid|]).
  by apply elem_of_nil in Hline.
Defined.

(** The rows of the three channel queries belong to lines of the product. *)
Lemma sale_rows_product (e : env) (product_id : Z) (date_start date_end : date) row :
  row ∈ sale_rows e product_id date_start date_end →
  ∃ sol, sol ∈ t_sale_order_line e ∧ sol_product_id sol = product_id.
Proof.
  unfold sale_rows.
  intros (sol & Hrow & Hsol)%list_elem_of_bind. exists sol. split; [done|].
  apply list_elem_of_bind in Hrow as (so & Hrow & _).
  apply list_elem_of_bind in Hrow as (pp & Hrow & _).
  apply list_elem_of_bind in Hrow as (pt & Hrow & _).
  apply list_elem_of_bind in Hrow as (u1 & Hrow & _).
  apply list_elem_of_bind in Hrow as (u2 & Hrow & _).
  case_decide; [tauto|by apply elem_of_nil in Hrow].
Qed.

Lemma purchase_rows_product (e : env) (product_id : Z) (date_start date_end : date) row :
  row ∈ purchase_rows e product_id date_start date_end →
  ∃ pol, pol ∈ t_purchase_order_line e ∧ pol_product_id pol = product_id.
Proof.
  unfold purchase_rows.
  intros (pol & Hrow & Hpol)%list_elem_of_bind. exists pol. split; [done|].
  apply list_elem_of_bind in Hrow as (po & Hrow & _).
  apply list_elem_of_bind in Hrow as (pp & Hrow & _).
  apply list_elem_of_bind in Hrow as (pt & Hrow & _).
  apply list_elem_of_bind in Hrow as (u1 & Hrow & _).
  apply list_elem_of_bind in Hrow as (u2 & Hrow & _).
  case_decide; [tauto|by apply elem_of_nil in Hrow].
Qed.

Lemma pos_rows_product (e : env) (product_id : Z) (date_start date_end : date) row :
  row ∈ pos_rows e product_id date_start date_end →
  ∃ pol, pol ∈ t_pos_order_line e ∧ posl_product_id pol = product_id.
Proof.
  unfold pos_rows.
  intros (pol & Hrow & Hpol)%list_elem_of_bind. exists pol. split; [done|].
  apply list_elem_of_bind in Hrow as (po & Hrow & _).
  case_decide; [tauto|by apply elem_of_nil in Hrow].
Qed.

(** The kit loop skips the kits whose quantity is zero. *)
Lemma foldl_add_kit_zero (totals : Z → Qc * Qc) (items : list (Z * Qc)) (acc : Qc * Qc) :
  (∀ item, item ∈ items → (totals item.1).1 = 0%Qc) →
  foldl (add_kit totals) acc items = acc.
Proof.
  revert acc. induction items as [|[kit m] items IH]; intros acc Hz; [done|]. simpl.
  rewrite decide_False.
  - apply IH. intros item Hitem. by apply Hz, list_elem_of_further.
  - intros Hnz. apply Hnz, (Hz (kit, m)), list_elem_of_here.
Qed.

(** X9. A product without activity: when no stock move, purchase line, sale
    line or point-of-sale line names the product, and no sale line or
    point-of-sale line names one of its kits, [_get_stock_moves_data]
    returns the all-zero record for every window and every setting of the
    channels, and [_get_stock_at_date] returns 0, on any non-empty location
    set. *)
Theorem no_activity_all_zero (e : env) (w : wizard) (product_id : Z)
    (date_start date_end : date) (location_ids : list Z) :
  without_activity e product_id →
  location_ids ≠ [] →
  _get_stock_moves_data e w product_id date_start date_end location_ids
  = Ok zero_move_data
  ∧ _get_stock_at_date e product_id date_end location_ids = Ok 0%Qc.
Proof.
  intros (Hsm & Hpol & Hsol & Hpos) Hl.
  unfold _get_stock_moves_data, _get_stock_at_date.
  destruct location_ids as [|l ls]; [done|].
  assert (∀ P `{!∀ x, Decision (P x)},
            filter (λ sm, move_product_id sm = product_id ∧ P sm) (t_stock_move e) = [])
    as Hmoves.
  { intros P ?. apply elem_of_nil_inv. intros sm [[Hp _] Hin]%list_elem_of_filter.
    by apply (Hsm sm). }
  assert (purchase_totals e product_id date_start date_end = (0, 0)%Qc) as Hpurchase.
  { unfold purchase_totals.
    rewrite (elem_of_nil_inv (purchase_rows e product_id date_start date_end)); [done|].
    intros row (pol & Hin & Hp)%purchase_rows_product. by apply (Hpol pol). }
  assert (∀ k, k = product_id ∨ is_Some (_get_phantom_bom_components e product_id !! k) →
            sale_totals e k date_start date_end = (0, 0)%Qc) as Hsale.
  { intros k Hk. unfold sale_totals.
    rewrite (elem_of_nil_inv (sale_rows e k date_start date_end)); [done|].
    intros row (sol & Hin & Hp)%sale_rows_product.
    destruct (Hsol sol Hin) as [Hne Hnone]. rewrite Hp in Hne, Hnone.
    destruct Hk as [->|[? Hsome]]; [done|congruence]. }
  assert (∀ k, k = product_id ∨ is_Some (_get_phantom_bom_components e product_id !! k) →
            pos_totals e k date_start date_end = (0, 0)%Qc) as Hposz.
  { intros k Hk. unfold pos_totals.
    rewrite (elem_of_nil_inv (pos_rows e k date_start date_end)); [done|].
    intros row (pol & Hin & Hp)%pos_rows_product.
    destruct (Hpos pol Hin) as [Hne Hnone]. rewrite Hp in Hne, Hnone.
    destruct Hk as [->|[? Hsome]]; [done|congruence]. }
  unfold incoming_moves, outgoing_moves, stock_at_date_where.
  rewrite !Hmoves, Hpurchase.
  rewrite !foldl_add_kit_zero.
  - rewrite (Hsale product_id), (Hposz product_id) by (by left).
    by destruct (include_purchases w), (include_sales w), (include_pos w).
  - intros [k m] Hin%elem_of_map_to_list.
    change ((pos_totals e k date_start date_end).1 = 0%Qc).
    rewrite Hposz; [done|]. right. by eexists.
  - intros [k m] Hin%elem_of_map_to_list.
    change ((sale_totals e k date_start date_end).1 = 0%Qc).
    rewrite Hsale; [done|]. right. by eexists.
Qed.

Lemma no_activity_all_zero_witness :
  _get_stock_moves_data pos_shop w_2024 40 (mkdate 2024 1 1) (mkdate 2024 1 31) [1; 2]
  = Ok zero_move_data
  ∧ _get_stock_at_date pos_shop 40 (mkdate 2024 1 31) [1; 2] = Ok 0%Qc.
Proof.
  apply (no_activity_all_zero pos_shop w_2024 40 (mkdate 2024 1 1) (mkdate 2024 1 31) [1; 2]);
    [|discriminate].
  split; [|split; [|split]].
  all: intros x Hx; repeat (apply elem_of_cons in Hx as [->|Hx]; [done|]);
    by apply elem_of_nil in Hx.
Defined.

(** ** The Product Selector and the location set *)

(** The selection is a rearrangement of part of the product table. *)
Lemma get_products_sublist_perm (e : env) (w : wizard) :
  ∃ l, l `sublist_of` t_product_product e ∧ _get_products e w ≡ₚ l.
Proof.
  unfold _get_products.
  set (domain := if category_ids w is [] then _ else _).
  assert (∃ l, l `sublist_of` t_product_product e ∧ search_products e domain ≡ₚ l)
    as (l & Hsub & Hperm).
  { exists (filter (λ p, forallb (leaf_holds e p) domain) (t_product_product e)).
    split; [apply sublist_filter|apply merge_sort_Permutation]. }
  destruct (search_products e domain) as [|p ps] eqn:Hs; [eauto|].
  match goal with |- context [remove_dups ?x] =>
    destruct (remove_dups x) as [|t ts] end; [eauto|].
  exists (filter (λ p, prod_tmpl_id p ∉ t :: ts) l). split.
  - etrans; [apply sublist_filter|done].
  - by rewrite Hperm.
Qed.

(** X10. No product is selected twice: when the ids of the product table are
    pairwise distinct, so are the ids of the products [_get_products]
    returns, whatever filters the request carries. *)
Theorem products_selected_once (e : env) (w : wizard) :
  NoDup (prod_id <$> t_product_product e) →
  NoDup (prod_id <$> _get_products e w).
Proof.
  intros Hnd. destruct (get_products_sublist_perm e w) as (l & Hsub & Hperm).
  rewrite Hperm. eapply sublist_NoDup; [done|by apply fmap_sublist].
Qed.

Lemma products_selected_once_witness :
  NoDup (prod_id <$> _get_products shop w_2024).
Proof.
  apply (products_selected_once shop w_2024).
  simpl.
  repeat (apply NoDup_cons; split;
          [intros H; repeat (apply elem_of_cons in H as [H|H]; [discriminate H|]);
           by apply elem_of_nil in H|]).
  apply NoDup_nil_2.
Defined.

(** X11. [_get_location_ids] returns exactly the ids of the locations of
    usage "internal" and, when the request names warehouses, only of those
    that belong to one of the named warehouses: a location without a
    warehouse is dropped as soon as a warehouse filter is given. *)
Theorem location_ids_spec (e : env) (w : wizard) (i : Z) :
  i ∈ _get_location_ids e w
  ↔ ∃ l, l ∈ t_stock_location e ∧ loc_id l = i ∧ loc_usage l = "internal"
         ∧ (warehouse_ids w = []
            ∨ ∃ wh, loc_warehouse_id l = Some wh ∧ wh ∈ warehouse_ids w).
Proof.
  unfold _get_location_ids. rewrite list_elem_of_fmap.
  assert (∀ l, m2o_in (loc_warehouse_id l) (warehouse_ids w)
               ↔ ∃ wh, loc_warehouse_id l = Some wh ∧ wh ∈ warehouse_ids w) as Hm2o.
  { intros l. unfold m2o_in. destruct (loc_warehouse_id l) as [wh|]; simpl.
    - rewrite bool_decide_spec. split; [eauto|]. by intros (? & [= <-] & ?).
    - split; [done|]. by intros (? & ? & ?). }
  destruct (warehouse_ids w) as [|wh whs] eqn:Hwh.
  - split.
    + intros (l & -> & [Hu Hl]%list_elem_of_filter). eauto 6.
    + intros (l & Hl & <- & Hu & _). exists l. by rewrite list_elem_of_filter.
  - split.
    + intros (l & -> & [[Hu Hw] Hl]%list_elem_of_filter).
      exists l. rewrite <- Hm2o. auto.
    + intros (l & Hl & <- & Hu & [|Hw]); [done|]. exists l.
      rewrite list_elem_of_filter, Hm2o. auto.
Qed.

(** ** How writing the worksheet can fail *)

(** [d - timedelta(days=1)] gives the eve or raises [OverflowError]. *)
Lemma sub_day_cases (d : date) :
  (∃ eve, sub_day d = Ok eve) ∨ sub_day d = Raise OverflowError.
Proof. unfold sub_day. repeat case_match; eauto. Qed.

(** One month of a product row: it is written, or there is no eve of the
    month's start, or the location set is empty. *)
Lemma month_step_cases (e : env) (w : wizard) (product : product_product)
    (location_ids : list Z) (cells : list cell) (yt : gmap Z YearTotals.t)
    (b : month_bucket) :
  is_Some (yt !! m_year b) →
  (∃ cells' yt',
      month_step e w product location_ids (cells, yt) b = Ok (cells', yt')
      ∧ (∀ y, is_Some (yt' !! y) ↔ is_Some (yt !! y))
      ∧ location_ids ≠ [] ∧ is_ok (sub_day (m_start b)) = true)
  ∨ (month_step e w product location_ids (cells, yt) b = Raise OverflowError
     ∧ sub_day (m_start b) = Raise OverflowError)
  ∨ (month_step e w product location_ids (cells, yt) b = Raise ProgrammingError
     ∧ location_ids = []).
Proof.
  intros [t Ht]. unfold month_step, opening_stock, closing_stock.
  destruct (sub_day_cases (m_start b)) as [[eve ->]| ->]; [|by right; left].
  unfold _get_stock_at_date, _get_stock_moves_data.
  destruct location_ids as [|l ls]; [by right; right|]. left.
  cbv beta iota zeta delta [Py.bind]. unfold getitem. rewrite Ht.
  eexists _, _. split; [reflexivity|]. split; [|done].
  intros y. destruct (decide (m_year b = y)) as [<-|Hne].
  - rewrite lookup_insert_eq, Ht. split; eauto.
  - by rewrite lookup_insert_ne.
Qed.

(** The month loop of a product row, when [yearly_totals] has an entry for
    the year of every month. *)
Lemma month_loop_cases (e : env) (w : wizard) (product : product_product)
    (location_ids : list Z) (months : list month_bucket) :
  ∀ (cells : list cell) (yt : gmap Z YearTotals.t),
  (∀ b, b ∈ months → is_Some (yt !! m_year b)) →
  (∃ cells' yt',
      for_each (month_step e w product location_ids) (cells, yt) months
      = Ok (cells', yt')
      ∧ (∀ y, is_Some (yt' !! y) ↔ is_Some (yt !! y))
      ∧ (months ≠ [] → location_ids ≠ [])
      ∧ ∀ b, b ∈ months → is_ok (sub_day (m_start b)) = true)
  ∨ (for_each (month_step e w product location_ids) (cells, yt) months
     = Raise OverflowError
     ∧ ∃ b, b ∈ months ∧ sub_day (m_start b) = Raise OverflowError)
  ∨ (for_each (month_step e w product location_ids) (cells, yt) months
     = Raise ProgrammingError
     ∧ location_ids = [] ∧ months ≠ []).
Proof.
  induction months as [|b months IH]; intros cells yt Hkeys.
  - left. eexists _, _. split; [reflexivity|]. split; [done|]. split; [done|].
    by intros b ?%elem_of_nil.
  - cbn [for_each].
    destruct (month_step_cases e w product location_ids cells yt b)
      as [(cells1 & yt1 & -> & Hyt1 & Hl & Heve)|[[-> Hov]|[-> ->]]].
    + apply Hkeys, list_elem_of_here.
    + cbn [Py.bind].
      destruct (IH cells1 yt1)
        as [(cells2 & yt2 & -> & Hyt2 & _ & Heves)|[[-> (b' & Hb' & Hov)]|[-> [-> _]]]].
      * intros b' Hb'. apply Hyt1, Hkeys. by apply list_elem_of_further.
      * left. eexists _, _. split; [reflexivity|].
        split; [intros y; by rewrite Hyt2|]. split; [done|].
        intros b' [->|?]%elem_of_cons; auto.
      * right. left. split; [done|]. exists b'.
        split; [by apply list_elem_of_further|done].
      * done.
    + right. left. split; [done|]. exists b. split; [apply list_elem_of_here|done].
    + right. right. done.
Qed.

(** The loop over the years finds every key. *)
Lemma year_loop_total (yt : gmap Z YearTotals.t) (years : list Z) :
  (∀ y, y ∈ years → is_Some (yt !! y)) →
  ∀ cells, ∃ cells', for_each (year_step yt) cells years = Ok cells'.
Proof.
  induction years as [|y years IH]; intros Hkeys cells; [by eexists|].
  cbn [for_each]. unfold year_step at 1, getitem.
  destruct (Hkeys y) as [t ->]; [apply list_elem_of_here|]. cbn [Py.bind].
  apply IH. intros y' ?. by apply Hkeys, list_elem_of_further.
Qed.

(** One product row. *)
Lemma write_product_row_cases (e : env) (w : wizard) (months : list month_bucket)
    (location_ids : list Z) (rows : list sheet_row) (product : product_product) :
  (∃ cells,
      write_product_row e w months location_ids rows product
      = Ok (rows ++ [ {| row_product := product; row_cells := cells |} ])
      ∧ (months ≠ [] → location_ids ≠ [])
      ∧ ∀ b, b ∈ months → is_ok (sub_day (m_start b)) = true)
  ∨ (write_product_row e w months location_ids rows product = Raise OverflowError
     ∧ ∃ b, b ∈ months ∧ sub_day (m_start b) = Raise OverflowError)
  ∨ (write_product_row e w months location_ids rows product = Raise ProgrammingError
     ∧ location_ids = [] ∧ months ≠ []).
Proof.
  unfold write_product_row, row_months.
  destruct (month_loop_cases e w product location_ids months []
              (list_to_map ((λ year, (year, YearTotals.zero)) <$> years_of months)))
    as [(cells & yt & -> & Hyt & Hl & Heves)|[[-> ?]|[-> ?]]];
    [|cbn [Py.bind snd fst]|by right; left|by right; right].
  - intros b Hb. rewrite zero_totals_lookup; [by eexists|].
    apply years_of_elem. eauto.
  - destruct (year_loop_total yt (years_of months)) with (cells := cells)
      as [cells' ->].
    + intros y Hy. apply Hyt. rewrite zero_totals_lookup by done. by eexists.
    + left. by eexists.
Qed.

(** The product loop. *)
Lemma rows_loop_cases (e : env) (w : wizard) (months : list month_bucket)
    (location_ids : list Z) (products : list product_product) :
  ∀ rows,
  (∃ rows',
      for_each (write_product_row e w months location_ids) rows products = Ok rows'
      ∧ row_product <$> rows' = (row_product <$> rows) ++ products
      ∧ (products ≠ [] → (months ≠ [] → location_ids ≠ [])
                         ∧ ∀ b, b ∈ months → is_ok (sub_day (m_start b)) = true))
  ∨ (for_each (write_product_row e w months location_ids) rows products
     = Raise OverflowError
     ∧ products ≠ []
     ∧ ∃ b, b ∈ months ∧ sub_day (m_start b) = Raise OverflowError)
  ∨ (for_each (write_product_row e w months location_ids) rows products
     = Raise ProgrammingError
     ∧ products ≠ [] ∧ location_ids = [] ∧ months ≠ []).
Proof.
  induction products as [|product products IH]; intros rows.
  - left. exists rows. split; [done|]. by rewrite app_nil_r.
  - cbn [for_each].
    destruct (write_product_row_cases e w months location_ids rows product)
      as [(cells & -> & Hl & Heves)|[[-> ?]|[-> ?]]];
      [cbn [Py.bind]|by right; left|by right; right].
    destruct (IH (rows ++ [ {| row_product := product; row_cells := cells |} ]))
      as [(rows' & -> & Hrows & _)|[[-> (_ & ?)]|[-> (_ & ?)]]];
      [|by right; left|by right; right].
    left. exists rows'. split; [done|]. split; [|done].
    rewrite Hrows, fmap_app, <- app_assoc. done.
Qed.

(** The three ways [_write_excel_content] can end. *)
Lemma write_excel_content_cases (e : env) (w : wizard)
    (products : list product_product) (months : list month_bucket)
    (location_ids : list Z) :
  (∃ ws,
      _write_excel_content e w products months location_ids = Ok ws
      ∧ row_product <$> ws_rows ws = products
      ∧ (products ≠ [] → (months ≠ [] → location_ids ≠ [])
                         ∧ ∀ b, b ∈ months → is_ok (sub_day (m_start b)) = true))
  ∨ (_write_excel_content e w products months location_ids = Raise OverflowError
     ∧ products ≠ []
     ∧ ∃ b, b ∈ months ∧ sub_day (m_start b) = Raise OverflowError)
  ∨ (_write_excel_content e w products months location_ids = Raise ProgrammingError
     ∧ products ≠ [] ∧ location_ids = [] ∧ months ≠ []).
Proof.
  unfold _write_excel_content.
  destruct (rows_loop_cases e w months location_ids products [])
    as [(rows & -> & Hrows & Hok)|[[-> ?]|[-> ?]]];
    [|by right; left|by right; right].
  left. eexists. split; [reflexivity|]. done.
Qed.

(** X12. The only ways [_write_excel_content] can end. It returns a
    worksheet with one row per product, in the order of the products; or it
    raises [OverflowError], which needs a product and a month that starts on
    the first day Python dates can express (its eve does not exist); or it
    raises the database error of an empty [IN ()], which needs a product, a
    month and an empty location set. It never raises [KeyError] on
    [yearly_totals], nor a user-facing error, nor [ValueError]. *)
Theorem write_excel_content_failures (e : env) (w : wizard)
    (products : list product_product) (months : list month_bucket)
    (location_ids : list Z) :
  match _write_excel_content e w products months location_ids with
  | Ok ws => row_product <$> ws_rows ws = products
  | Raise OverflowError =>
      products ≠ [] ∧ ∃ b, b ∈ months ∧ sub_day (m_start b) = Raise OverflowError
  | Raise ProgrammingError => products ≠ [] ∧ months ≠ [] ∧ location_ids = []
  | Raise _ | Diverge => False
  end.
Proof.
  destruct (write_excel_content_cases e w products months location_ids)
    as [(ws & -> & ? & _)|[[-> ?]|[-> ?]]]; tauto.
Qed.

(** X13. On a non-empty location set and months whose start has an eve,
    [_write_excel_content] returns a worksheet, with one row per product in
    the order of the products. *)
Theorem write_excel_content_succeeds (e : env) (w : wizard)
    (products : list product_product) (months : list month_bucket)
    (location_ids : list Z) :
  location_ids ≠ [] →
  (∀ b, b ∈ months → is_ok (sub_day (m_start b)) = true) →
  ∃ ws, _write_excel_content e w products months location_ids = Ok ws
        ∧ row_product <$> ws_rows ws = products.
Proof.
  intros Hl Heves.
  destruct (write_excel_content_cases e w products months location_ids)
    as [(ws & -> & ? & _)|[[_ (_ & b & Hb & Hov)]|[_ (_ & ? & _)]]]; [eauto| |done].
  specialize (Heves b Hb). by rewrite Hov in Heves.
Qed.

Lemma write_excel_content_succeeds_witness :
  ∃ ws, _write_excel_content shop w_2024 (_get_products shop w_2024)
          [january_2024; february_2024] [1; 2] = Ok ws
        ∧ row_product <$> ws_rows ws = _get_products shop w_2024.
Proof.
  apply (write_excel_content_succeeds shop w_2024 (_get_products shop w_2024)
           [january_2024; february_2024] [1; 2]); [discriminate|].
  intros b Hb. repeat (apply elem_of_cons in Hb as [->|Hb]; [reflexivity|]).
  by apply elem_of_nil in Hb.
Defined.

(** ** Report generation: every outcome *)

(** The eve of the start of a whole-month bucket. *)
Lemma bucket_at_eve (y m : Z) :
  1 ≤ y → 1 ≤ m ≤ 12 →
  sub_day (m_start (bucket_at y m))
  = if decide (y = 1 ∧ m = 1) then Raise OverflowError
    else Ok (if decide (m = 1) then mkdate (y - 1) 12 31
             else mkdate y (m - 1) (days_in_month y (m - 1))).
Proof.
  intros Hy Hm. unfold sub_day, MINYEAR. simpl.
  destruct (Z.ltb_spec 1 m), (Z.ltb_spec 1 y);
    repeat case_decide; try lia; done.
Qed.

Lemma buckets_from_eves (n : nat) (y m : Z) (b : month_bucket) :
  1 ≤ y → 1 ≤ m ≤ 12 → ¬ (y = 1 ∧ m = 1) →
  b ∈ buckets_from n y m → is_ok (sub_day (m_start b)) = true.
Proof.
  intros Hy Hm Hfirst (i & Hi)%list_elem_of_lookup.
  destruct (buckets_from_lookup _ _ _ _ _ Hm Hi) as (Hidx & Hmb & ->).
  rewrite bucket_at_eve by lia. rewrite decide_False by lia. done.
Qed.

Lemma check_dates_passes (w : wizard) :
  _check_dates w = Ok () ↔ date_leb (date_from w) (date_to w) = true.
Proof.
  unfold _check_dates, date_ltb.
  destruct (date_leb (date_from w) (date_to w)); simpl; split; done.
Qed.

(** What [generate_report] does once the checks of the request have passed:
    it writes the worksheet for the whole months of the range. *)
Lemma generate_report_writes (e : env) (w : wizard) :
  valid_request w →
  ¬ last_month_of_time (date_to w) →
  xlsxwriter e = true →
  _get_products e w ≠ [] →
  _get_location_ids e w ≠ [] →
  ∃ n, month_index (date_to w) = month_index (date_from w) + Z.of_nat n
    ∧ generate_report e w
      = (ws ←! _write_excel_content e w (_get_products e w)
                 (buckets_from (S n) (year (date_from w)) (month (date_from w)))
                 (_get_location_ids e w);
         Ok {| excel_file := ws;
               file_name := "Stock_Movement_Report_" +:+ isoformat (date_from w)
                            +:+ "_" +:+ isoformat (date_to w) +:+ ".xlsx" |}).
Proof.
  intros Hv Hmax Hx Hp Hl.
  destruct (months_in_range_ok w Hv Hmax) as (n & Hn & Hidx & Hmonths).
  destruct n as [|n]; [lia|]. exists n. split; [lia|].
  destruct Hv as (_ & _ & Hle).
  unfold generate_report, action_generate_report.
  rewrite (proj2 (check_dates_passes w) Hle), Hx, Hmonths.
  cbn [Py.bind negb buckets_from].
  destruct (_get_products e w); [done|].
  destruct (_get_location_ids e w); done.
Qed.

Lemma write_excel_content_headers (e : env) (w : wizard)
    (products : list product_product) (months : list month_bucket)
    (location_ids : list Z) (ws : worksheet) :
  _write_excel_content e w products months location_ids = Ok ws →
  ws_month_headers ws = m_name <$> months
  ∧ ws_year_headers ws = (λ year, "Year " +:+ pretty year +:+ " Total") <$> years_of months.
Proof.
  unfold _write_excel_content. by intros (rows & _ & [= <-])%bind_Ok_inv.
Qed.

(** X15. A request that passes every check and starts in January of year 1
    makes report generation fail with [OverflowError]: the opening stock of
    the first month is asked for the day before 0001-01-01. *)
Theorem report_overflows_in_january_of_year_1 (e : env) (w : wizard) :
  valid_request w →
  ¬ last_month_of_time (date_to w) →
  xlsxwriter e = true →
  _get_products e w ≠ [] →
  _get_location_ids e w ≠ [] →
  year (date_from w) = 1 → month (date_from w) = 1 →
  generate_report e w = Raise OverflowError.
Proof.
  intros Hv Hmax Hx Hp Hl Hy Hm.
  destruct (generate_report_writes e w Hv Hmax Hx Hp Hl) as (n & Hidx & ->).
  rewrite Hy, Hm. cbn [buckets_from].
  destruct (write_excel_content_cases e w (_get_products e w)
              (bucket_at 1 1 :: buckets_from n (next_ym 1 1).1 (next_ym 1 1).2)
              (_get_location_ids e w))
    as [(ws & _ & _ & Hok)|[(-> & _)|(_ & _ & ? & _)]]; [|done|done].
  destruct (Hok Hp) as [_ Heves].
  by specialize (Heves (bucket_at 1 1) (list_elem_of_here _ _)).
Qed.

Lemma report_overflows_in_january_of_year_1_witness :
  generate_report shop w_year_1 = Raise OverflowError.
Proof.
  apply (report_overflows_in_january_of_year_1 shop w_year_1);
    try reflexivity; try discriminate.
  - repeat split; reflexivity.
  - intros [H _]. discriminate H.
Defined.

(** X16. The error "No months found in the selected date range." is never
    raised by report generation on well-formed dates: a request that passes
    the date constraint has at least one month (or ends in December 9999 and
    fails in the month computation). *)
Theorem no_months_error_is_unreachable (e : env) (w : wizard) :
  valid_date (date_from w) = true →
  valid_date (date_to w) = true →
  generate_report e w ≠ Raise (UserError "No months found in the selected date range.").
Proof.
  intros Hf Ht. unfold generate_report.
  destruct (_check_dates w) as [[]|ex|] eqn:Hcheck; cbn [Py.bind]; [| |done].
  2:{ unfold _check_dates in Hcheck. case_match; [|done].
      injection Hcheck as <-. intros [=]. }
  apply check_dates_passes in Hcheck.
  assert (valid_request w) as Hv by done.
  unfold action_generate_report.
  destruct (xlsxwriter e); cbn [negb]; [|intros [=]].
  destruct (_get_products e w) as [|p ps]; [intros [=]|].
  destruct (decide (last_month_of_time (date_to w))) as [Hmax|Hmax].
  { by rewrite months_in_range_overflow. }
  destruct (months_in_range_ok w Hv Hmax) as (n & Hn & _ & ->).
  destruct n as [|n]; [lia|]. cbn [Py.bind buckets_from].
  destruct (_get_location_ids e w) as [|l ls]; [intros [=]|].
  intros Hrun.
  apply (f_equal is_user_error) in Hrun.
  rewrite no_user_error_bind in Hrun;
    [done|apply write_excel_content_no_user_error|done].
Qed.

Lemma no_months_error_is_unreachable_witness :
  generate_report shop w_reversed
  ≠ Raise (UserError "No months found in the selected date range.").
Proof. by apply (no_months_error_is_unreachable shop w_reversed). Defined.

(** X17. Which error a request gets when several conditions hold: the date
    constraint comes first, then the missing spreadsheet library, then the
    empty product selection, each whatever the later conditions are; and a
    request with well-formed dates ending before December 9999 that passes
    these three gets "No stock locations found." when there is no internal
    location. *)
Theorem report_errors_in_order (e : env) (w : wizard) :
  (date_ltb (date_to w) (date_from w) = true →
   generate_report e w = Raise (UserError "Start Date must be before End Date."))
  ∧ (date_ltb (date_to w) (date_from w) = false → xlsxwriter e = false →
     generate_report e w
     = Raise (UserError "xlsxwriter library is required. Please install it using: pip install xlsxwriter"))
  ∧ (date_ltb (date_to w) (date_from w) = false → xlsxwriter e = true →
     _get_products e w = [] →
     generate_report e w = Raise (UserError "No products found with the given criteria."))
  ∧ (valid_date (date_from w) = true → valid_date (date_to w) = true →
     ¬ last_month_of_time (date_to w) →
     date_ltb (date_to w) (date_from w) = false → xlsxwriter e = true →
     _get_products e w ≠ [] → _get_location_ids e w = [] →
     generate_report e w = Raise (UserError "No stock locations found.")).
Proof.
  unfold generate_report, action_generate_report, _check_dates.
  repeat apply conj.
  - by intros ->.
  - by intros -> ->.
  - by intros -> -> ->.
  - intros Hf Ht Hmax Hle Hx Hp Hl. rewrite Hle, Hx, Hl. cbn [Py.bind negb].
    destruct (_get_products e w); [done|].
    destruct (months_in_range_ok w) as (n & Hn & _ & ->); [|done|].
    + unfold date_ltb in Hle. apply negb_false_iff in Hle. done.
    + destruct n; [lia|]. done.
Qed.

Lemma report_errors_in_order_witness :
  generate_report shop_without_locations w_2024
  = Raise (UserError "No stock locations found.").
Proof.
  by apply (report_errors_in_order shop_without_locations w_2024);
    try (intros [H _]; discriminate H).
Defined.

(** ** The layout of the worksheet *)

(** The column definitions of this view are those of the rows: the same
    keys and format types, in the same order. *)
Lemma column_defs_agree :
  month_columns = (λ col_def, (col_def.1.1, col_def.2)) <$> month_column_defs
  ∧ year_columns = (λ col_def, (col_def.1.1, col_def.2)) <$> year_column_defs.
Proof. split; reflexivity. Qed.

(** The loops that thread [col], in closed form. *)
Lemma merge_header_loop (row width : Z) (fmt : string) (names : list string) :
  ∀ (col : Z) (calls : list sheet_call),
  foldl (merge_header row width fmt) (col, calls) names
  = (col + width * Z.of_nat (length names),
     calls ++ imap (λ k name, Merge_range row (col + width * Z.of_nat k) row
                                (col + width * Z.of_nat k + width - 1) name fmt) names).
Proof.
  induction names as [|name names IH]; intros col calls.
  - simpl. by rewrite Z.mul_0_r, Z.add_0_r, app_nil_r.
  - cbn [foldl merge_header]. rewrite IH. cbn [imap length].
    rewrite <- app_assoc. cbn [app]. f_equal; [lia|]. f_equal.
    rewrite Z.mul_0_r, Z.add_0_r. f_equal.
    apply imap_ext. intros k x _. simpl. f_equal; lia.
Qed.

Lemma sub_header_loop (row : Z) (fmt : string) (defs : list (string * string * string)) :
  ∀ (col : Z) (calls : list sheet_call),
  foldl (write_sub_header row fmt) (col, calls) defs
  = (col + Z.of_nat (length defs),
     calls ++ imap (λ j lf, Write_string row (col + Z.of_nat j) lf.1 lf.2)
                   ((λ col_def, (col_def.1.2, fmt)) <$> defs)).
Proof.
  induction defs as [|d defs IH]; intros col calls.
  - simpl. by rewrite Z.add_0_r, app_nil_r.
  - cbn [foldl write_sub_header]. rewrite IH. cbn [imap length fmap list_fmap].
    rewrite <- app_assoc. cbn [app]. f_equal; [lia|]. f_equal.
    rewrite Z.add_0_r. f_equal.
    apply imap_ext. intros k x _. simpl. f_equal; lia.
Qed.

Lemma sub_header_groups {A : Type} (row : Z) (fmt : string)
    (defs : list (string * string * string)) (groups : list A) :
  ∀ (col : Z) (calls : list sheet_call),
  foldl (λ st _, foldl (write_sub_header row fmt) st defs) (col, calls) groups
  = (col + Z.of_nat (length groups) * Z.of_nat (length defs),
     calls ++ imap (λ j lf, Write_string row (col + Z.of_nat j) lf.1 lf.2)
                   (groups ≫= λ _, (λ col_def, (col_def.1.2, fmt)) <$> defs)).
Proof.
  induction groups as [|g groups IH]; intros col calls.
  - simpl. by rewrite Z.add_0_r, app_nil_r.
  - cbn [foldl]. rewrite sub_header_loop, IH. rewrite bind_cons, imap_app.
    rewrite <- app_assoc. f_equal; [cbn [length]; lia|]. f_equal. f_equal.
    apply imap_ext. intros k x _. simpl. rewrite length_fmap. f_equal; lia.
Qed.

Lemma write_cell_loop (data_row : Z) (cells : list cell) :
  ∀ (col : Z) (calls : list sheet_call),
  foldl (write_cell data_row) (col, calls) cells
  = (col + Z.of_nat (length cells),
     calls ++ imap (λ j c, Write_number data_row (col + Z.of_nat j)
                             (cell_value c) (cell_format c)) cells).
Proof.
  induction cells as [|c cells IH]; intros col calls.
  - simpl. by rewrite Z.add_0_r, app_nil_r.
  - cbn [foldl write_cell]. rewrite IH. cbn [imap length].
    rewrite <- app_assoc. cbn [app]. f_equal; [lia|]. f_equal.
    rewrite Z.add_0_r. f_equal.
    apply imap_ext. intros k x _. simpl. f_equal; lia.
Qed.

Lemma data_rows_loop (e : env) (avs : Z → list attribute_value) (rows : list sheet_row) :
  ∀ (data_row : Z) (calls : list sheet_call),
  foldl (write_data_row e avs) (data_row, calls) rows
  = (data_row + Z.of_nat (length rows),
     calls ++ concat (imap (λ i row, data_row_calls e avs (data_row + Z.of_nat i) row)
                           rows)).
Proof.
  induction rows as [|row rows IH]; intros data_row calls.
  - simpl. by rewrite Z.add_0_r, app_nil_r.
  - cbn [foldl write_data_row]. rewrite write_cell_loop. cbn [snd].
    rewrite IH. cbn [imap length concat]. f_equal; [lia|].
    rewrite <- !app_assoc. cbn [app]. f_equal. unfold data_row_calls at 2.
    rewrite Z.add_0_r. cbn [app]. f_equal. f_equal. f_equal.
    apply imap_ext. intros k x _. simpl. f_equal. lia.
Qed.

Lemma length_bind_const {A B : Type} (l : list A) (k : list B) :
  length (l ≫= λ _, k) = (length l * length k)%nat.
Proof.
  induction l as [|x l IH]; [done|].
  rewrite bind_cons, length_app, IH. simpl. lia.
Qed.

(** The calls of the header rows, in closed form. *)
Lemma write_headers_closed_form (w : wizard) (months : list month_bucket) :
  let n := Z.of_nat (length months) in
  let last_col := 8 * n + 6 * Z.of_nat (length (years_of months)) in
  write_headers w months
  = [Merge_range 0 0 0 last_col
       ("Stock Movement Report (" +:+ isoformat (date_from w)
        +:+ " to " +:+ isoformat (date_to w) +:+ ")") "title";
     Write_string 1 0 "Product" "header_month";
     Write_string 2 0 "Variant" "header_col"]
    ++ imap (λ k b, Merge_range 1 (1 + 8 * Z.of_nat k) 1 (8 + 8 * Z.of_nat k)
                      (m_name b) "header_month") months
    ++ imap (λ j year, Merge_range 1 (1 + 8 * n + 6 * Z.of_nat j) 1
                         (6 + 8 * n + 6 * Z.of_nat j)
                         ("Year " +:+ pretty year +:+ " Total") "header_year")
            (years_of months)
    ++ imap (λ j lf, Write_string 2 (1 + Z.of_nat j) lf.1 lf.2) (sub_header_labels months)
    ++ [Set_column 0 0 45; Set_column 1 last_col 12;
        Set_row 0 30; Set_row 1 25; Set_row 2 40].
Proof.
  intros n last_col. unfold write_headers. cbn zeta.
  rewrite !merge_header_loop. cbn [snd].
  rewrite !sub_header_groups. cbn [snd].
  assert (total_cols months - 1 = last_col) as ->.
  { unfold total_cols, cols_per_month, last_col, n. simpl. lia. }
  rewrite !imap_fmap, !length_fmap. unfold sub_header_labels. rewrite imap_app.
  change (Z.of_nat (length month_column_defs)) with 8.
  change (Z.of_nat (length year_column_defs)) with 6.
  change cols_per_month with 8. change (1 + 1) with 2.
  rewrite <- !app_assoc. cbn [app]. do 3 f_equal.
  f_equal; [apply imap_ext; intros k b _; simpl; f_equal; lia|].
  f_equal; [apply imap_ext; intros k b _; simpl; f_equal; lia|].
  f_equal. f_equal.
  apply imap_ext. intros k b _. unfold compose. f_equal.
  rewrite length_bind_const, length_fmap.
  change (length month_column_defs) with 8%nat. lia.
Qed.

(** X18. The header rows, with [n] the number of months: the title is merged
    over row 0 from column 0 to column 8n + 6 * (number of years); row 1 has
    "Product" in column 0, then for the k-th month its name merged over
    columns 1 + 8k .. 8 + 8k, then for the j-th year its title merged over
    columns 1 + 8n + 6j .. 6 + 8n + 6j; row 2 has "Variant" in column 0 and
    one sub-header per column from column 1 on, without a gap, the eight
    monthly labels for each month and then the six yearly labels for each
    year; the data columns 1 .. 8n + 6 * (number of years) get width 12. *)
Theorem write_headers_layout (w : wizard) (months : list month_bucket) :
  let n := Z.of_nat (length months) in
  let last_col := 8 * n + 6 * Z.of_nat (length (years_of months)) in
  write_headers w months
  = [Merge_range 0 0 0 last_col
       ("Stock Movement Report (" +:+ isoformat (date_from w)
        +:+ " to " +:+ isoformat (date_to w) +:+ ")") "title";
     Write_string 1 0 "Product" "header_month";
     Write_string 2 0 "Variant" "header_col"]
    ++ imap (λ k b, Merge_range 1 (1 + 8 * Z.of_nat k) 1 (8 + 8 * Z.of_nat k)
                      (m_name b) "header_month") months
    ++ imap (λ j year, Merge_range 1 (1 + 8 * n + 6 * Z.of_nat j) 1
                         (6 + 8 * n + 6 * Z.of_nat j)
                         ("Year " +:+ pretty year +:+ " Total") "header_year")
            (years_of months)
    ++ imap (λ j lf, Write_string 2 (1 + Z.of_nat j) lf.1 lf.2) (sub_header_labels months)
    ++ [Set_column 0 0 45; Set_column 1 last_col 12;
        Set_row 0 30; Set_row 1 25; Set_row 2 40].
Proof. apply write_headers_closed_form. Qed.

(** The calls of the data rows, in closed form. *)
Lemma sheet_calls_closed_form (e : env) (avs : Z → list attribute_value) (w : wizard)
    (months : list month_bucket) (ws : worksheet) :
  sheet_calls e avs w months ws
  = write_headers w months
    ++ concat (imap (λ i row, data_row_calls e avs (3 + Z.of_nat i) row) (ws_rows ws))
    ++ [Freeze_panes 3 1;
        Autofilter 2 0 (2 + Z.of_nat (length (ws_rows ws))) (total_cols months - 1)].
Proof.
  unfold sheet_calls. cbn zeta. rewrite data_rows_loop. cbn [fst snd].
  rewrite <- app_assoc.
  by replace (3 + Z.of_nat (length (ws_rows ws)) - 1)
    with (2 + Z.of_nat (length (ws_rows ws))) by lia.
Qed.

(** X19. The data rows: after the headers, the i-th row of the worksheet is
    written in sheet row 3 + i, the display name of its product in column 0
    and its j-th cell in column 1 + j; then the panes are frozen below row 2
    and right of column 0, and the autofilter runs from the sub-header row 2
    to the row of the last product, over all the columns. *)
Theorem sheet_calls_layout (e : env) (avs : Z → list attribute_value) (w : wizard)
    (months : list month_bucket) (ws : worksheet) :
  sheet_calls e avs w months ws
  = write_headers w months
    ++ concat (imap (λ i row, data_row_calls e avs (3 + Z.of_nat i) row) (ws_rows ws))
    ++ [Freeze_panes 3 1;
        Autofilter 2 0 (2 + Z.of_nat (length (ws_rows ws))) (total_cols months - 1)].
Proof. apply sheet_calls_closed_form. Qed.

Lemma bind_const_length {A A' B : Type} (l : list A) (l' : list A') (k : list B) :
  length l = length l' → (l ≫= λ _, k) = (l' ≫= λ _, k).
Proof.
  revert l'. induction l as [|x l IH]; intros [|x' l'] Hlen; try done.
  rewrite !bind_cons. f_equal. apply IH. by injection Hlen.
Qed.

Lemma write_product_row_formats (e : env) (w : wizard)
    (months : list month_bucket) (location_ids : list Z)
    (rows rows' : list sheet_row) (product : product_product) :
  write_product_row e w months location_ids rows product = Ok rows' →
  ∃ row, rows' = rows ++ [row]
    ∧ cell_format <$> row_cells row = cell_formats months.
Proof.
  unfold write_product_row, row_months.
  intros ([cells yt] & Hmonths & (cells' & Hyears & [= <-])%bind_Ok_inv)%bind_Ok_inv.
  apply month_loop_spec in Hmonths as (entries & Hall & -> & _).
  apply year_loop_spec in Hyears as (totals & Htotals & ->).
  eexists. split; [reflexivity|]. cbn [row_cells fst snd app].
  rewrite fmap_app, !fmap_bind_list. unfold cell_formats. f_equal.
  - symmetry. apply bind_const_length. by eapply Forall2_length.
  - symmetry. apply bind_const_length. by eapply Forall2_length.
Qed.

Lemma rows_loop_formats (e : env) (w : wizard) (months : list month_bucket)
    (location_ids : list Z) (products : list product_product) :
  ∀ rows0 rows,
  for_each (write_product_row e w months location_ids) rows0 products = Ok rows →
  Forall (λ row, cell_format <$> row_cells row = cell_formats months) rows0 →
  Forall (λ row, cell_format <$> row_cells row = cell_formats months) rows.
Proof.
  induction products as [|product products IH]; intros rows0 rows Hrun Hrows0.
  - by injection Hrun as <-.
  - cbn [for_each] in Hrun. apply bind_Ok_inv in Hrun as (rows1 & Hrow & Hrest).
    apply write_product_row_formats in Hrow as (row & -> & Hrow).
    apply (IH _ _ Hrest). apply Forall_app. split; [done|]. by constructor.
Qed.

Lemma cell_formats_length (months : list month_bucket) :
  Z.of_nat (length (cell_formats months)) = total_cols months - 1.
Proof.
  unfold cell_formats, total_cols, cols_per_month.
  rewrite length_app, !length_bind_const. simpl. lia.
Qed.

Lemma write_excel_content_formats (e : env) (w : wizard)
    (products : list product_product) (months : list month_bucket)
    (location_ids : list Z) (ws : worksheet) :
  _write_excel_content e w products months location_ids = Ok ws →
  Forall (λ row, cell_format <$> row_cells row = cell_formats months) (ws_rows ws).
Proof.
  unfold _write_excel_content. intros (rows & Hrows & [= <-])%bind_Ok_inv.
  by apply rows_loop_formats in Hrows.
Qed.

(** X20. Every row of a worksheet [_write_excel_content] returns has exactly
    one cell per sub-header of row 2, that is [total_cols - 1] cells; the
    monthly cells have the formats integer, integer, currency, integer,
    currency, integer, currency, integer, and the yearly cells alternate
    year_number and year_currency. *)
Theorem row_cells_fill_the_columns (e : env) (w : wizard)
    (products : list product_product) (months : list month_bucket)
    (location_ids : list Z) (ws : worksheet) (row : sheet_row) :
  _write_excel_content e w products months location_ids = Ok ws →
  row ∈ ws_rows ws →
  cell_format <$> row_cells row = cell_formats months
  ∧ length (row_cells row) = length (sub_header_labels months)
  ∧ Z.of_nat (length (row_cells row)) = total_cols months - 1.
Proof.
  intros Hrun Hrow. apply write_excel_content_formats in Hrun.
  rewrite Forall_forall in Hrun. specialize (Hrun row Hrow).
  split; [done|].
  assert (length (row_cells row) = length (cell_formats months)) as ->.
  { by rewrite <- Hrun, length_fmap. }
  split; [|apply cell_formats_length].
  unfold cell_formats, sub_header_labels.
  rewrite !length_app, !length_bind_const. done.
Qed.

Lemma row_cells_fill_the_columns_witness :
  ∃ ws row,
    _write_excel_content shop w_2024 [bolt] [january_2024; february_2024] [1; 2] = Ok ws
    ∧ ws_rows ws = [row]
    ∧ Z.of_nat (length (row_cells row)) = 22.
Proof.
  eexists _, _. split; [reflexivity|]. split; [reflexivity|].
  eapply (row_cells_fill_the_columns shop w_2024 [bolt] [january_2024; february_2024]
            [1; 2]); [reflexivity|apply list_elem_of_here].
Defined.

(** X21. Every format a call of a run names is a key of the dict that
    [_create_excel_formats] builds, so no lookup in [formats] fails; and the
    format "number", the fallback of the monthly cells, is never used. *)
Theorem formats_are_defined (e : env) (avs : Z → list attribute_value) (w : wizard)
    (products : list product_product) (months : list month_bucket)
    (location_ids : list Z) (calls : list sheet_call) (c : sheet_call) (fmt : string) :
  _write_excel_calls e avs w products months location_ids = Ok calls →
  c ∈ calls → call_format c = Some fmt →
  is_Some (_create_excel_formats !! fmt) ∧ fmt ≠ "number".
Proof.
  unfold _write_excel_calls. intros (ws & Hrun & [= <-])%bind_Ok_inv.
  apply write_excel_content_formats in Hrun. rewrite Forall_forall in Hrun.
  rewrite sheet_calls_closed_form, write_headers_closed_form.
  rewrite !elem_of_app, !elem_of_cons, !elem_of_nil, !elem_of_lookup_imap.
  intros Hc Hfmt.
  assert (fmt ∈ ["title"; "header_month"; "header_col"; "header_year";
                 "header_year_col"; "product"; "integer"; "currency";
                 "year_number"; "year_currency"]) as Hin.
  { destruct Hc as [[[->|[->|[->|[]]]]|[(k & b & -> & _)|[(j & y & -> & _)|
      [(j & lf & -> & Hlf)|[->|[->|[->|[->|[->|[]]]]]]]]]]|[Hc|[->|[->|[]]]]];
      simplify_eq/=; try (repeat constructor; fail).
    - apply list_elem_of_lookup_2 in Hlf. unfold sub_header_labels in Hlf.
      apply elem_of_app in Hlf as [Hlf|Hlf];
        apply list_elem_of_bind in Hlf as (? & Hlf & _);
        apply list_elem_of_fmap in Hlf as (d & -> & _); simpl;
        repeat constructor.
    - apply list_elem_of_In, in_concat in Hc as (l & Hl%list_elem_of_In & Hc%list_elem_of_In).
      apply elem_of_lookup_imap in Hl as (i & row & -> & Hrow%list_elem_of_lookup_2).
      unfold data_row_calls in Hc. apply elem_of_cons in Hc as [->|Hc].
      { simplify_eq/=. repeat constructor. }
      apply elem_of_lookup_imap in Hc as (j & cl & -> & Hcl%list_elem_of_lookup_2).
      simplify_eq/=.
      assert (cell_format cl ∈ cell_formats months) as Hcf.
      { rewrite <- (Hrun row Hrow). by apply list_elem_of_fmap_2. }
      unfold cell_formats in Hcf.
      apply elem_of_app in Hcf as [Hcf|Hcf];
        apply list_elem_of_bind in Hcf as (? & Hcf & _);
        repeat (apply elem_of_cons in Hcf as [->|Hcf]; [repeat constructor|]);
        by apply elem_of_nil in Hcf. }
  repeat (apply elem_of_cons in Hin as [->|Hin]; [split; [by eexists|done]|]).
  by apply elem_of_nil in Hin.
Qed.

Lemma formats_are_defined_witness :
  ∃ calls,
    _write_excel_calls shop shop_attribute_values w_2024 [bolt] [january_2024] [1; 2] = Ok calls
    ∧ is_Some (_create_excel_formats !! "title").
Proof.
  eexists. split; [reflexivity|].
  eapply (formats_are_defined shop shop_attribute_values w_2024 [bolt] [january_2024] [1; 2] _
            (Merge_range 0 0 0 14 _ "title"));
    [reflexivity|apply list_elem_of_here|reflexivity].
Defined.

(** ** The display name of a variant *)

Lemma string_length_app (s t : string) :
  String.length (s +:+ t) = (String.length s + String.length t)%nat.
Proof. induction s as [|a s IH]; simpl; [done|by rewrite IH]. Qed.

Lemma string_prefix_app (s t : string) : String.prefix s (s +:+ t) = true.
Proof.
  induction s as [|a s IH]; simpl; [by destruct t|].
  by destruct (Ascii.ascii_dec a a).
Qed.

Lemma string_prefix_refl (s : string) : String.prefix s s = true.
Proof.
  induction s as [|a s IH]; simpl; [done|].
  by destruct (Ascii.ascii_dec a a).
Qed.

(** X22. The display name of a variant starts with the name of its template;
    it is the bare template name exactly when the variant has no attribute
    values; with the single value [v] it is
    "<template> (<attribute>: <value>)". *)
Theorem display_name_extends_template_name (e : env)
    (avs : Z → list attribute_value) (product : product_product) :
  String.prefix (product_name e product) (_get_product_display_name e avs product) = true
  ∧ (_get_product_display_name e avs product = product_name e product
     ↔ avs (prod_id product) = [])
  ∧ ∀ v, avs (prod_id product) = [v] →
      _get_product_display_name e avs product
      = product_name e product
        +:+ " (" +:+ (av_attribute_name v +:+ ": " +:+ av_name v) +:+ ")".
Proof.
  unfold _get_product_display_name.
  destruct (avs (prod_id product)) as [|v vs]; cbn zeta.
  - split; [apply string_prefix_refl|]. split; done.
  - cbn [fmap list_fmap].
    split; [apply string_prefix_app|]. split.
    + split; [|done]. intros Heq. apply (f_equal String.length) in Heq.
      rewrite !string_length_app in Heq. simpl in Heq. lia.
    + by intros v' [= -> ->].
Qed.

(** On the example, variant 21 of Kit K shows both its values. *)
Lemma display_name_of_a_variant :
  _get_product_display_name shop shop_attribute_values
    {| prod_id := 21; prod_tmpl_id := 2 |}
  = "Kit K (Color: Red, Size: M)".
Proof. reflexivity. Qed.

(** ** The years of a report *)

Lemma StronglySorted_seqZ (n : nat) : ∀ m, StronglySorted Z.le (seqZ m (Z.of_nat n)).
Proof.
  induction n as [|n IH]; intros m; [constructor|].
  rewrite seqZ_cons by lia. constructor.
  - replace (Z.pred (Z.of_nat (S n))) with (Z.of_nat n) by lia. apply IH.
  - apply Forall_forall. intros x Hx%elem_of_seqZ. lia.
Qed.

Lemma years_of_sorted (months : list month_bucket) :
  StronglySorted Z.le (years_of months) ∧ NoDup (years_of months).
Proof.
  unfold years_of. split.
  - apply StronglySorted_merge_sort; apply _.
  - rewrite merge_sort_Permutation. apply NoDup_remove_dups.
Qed.

Lemma years_of_buckets (n : nat) (y m : Z) (last_year last_month : Z) :
  1 ≤ m ≤ 12 → 1 ≤ last_month ≤ 12 → (0 < n)%nat →
  12 * last_year + last_month = 12 * y + m + Z.of_nat n - 1 →
  years_of (buckets_from n y m) = seqZ y (last_year - y + 1).
Proof.
  intros Hm Hlm Hn Hidx.
  destruct (years_of_sorted (buckets_from n y m)) as [Hsorted Hnd].
  apply (StronglySorted_unique Z.le); [done| |].
  { replace (last_year - y + 1) with (Z.of_nat (Z.to_nat (last_year - y + 1))) by lia.
    apply StronglySorted_seqZ. }
  apply NoDup_Permutation; [done|apply NoDup_seqZ|].
  intros y'. rewrite years_of_elem, elem_of_seqZ. split.
  - intros (b & (i & Hi)%list_elem_of_lookup & <-).
    pose proof (lookup_lt_Some _ _ _ Hi) as Hlt. rewrite buckets_from_length in Hlt.
    destruct (buckets_from_lookup _ _ _ _ _ Hm Hi) as (Hb & Hmb & _). lia.
  - intros Hy'.
    destruct (lookup_lt_is_Some_2 (buckets_from n y m)
                (Z.to_nat (if decide (y' = y) then 0 else 12 * (y' - y) + 1 - m)))
      as [b Hb].
    { rewrite buckets_from_length. case_decide; lia. }
    exists b. split; [by eapply list_elem_of_lookup_2|].
    destruct (buckets_from_lookup _ _ _ _ _ Hm Hb) as (Hidx' & Hmb & _).
    case_decide; lia.
Qed.

(** X23. The years of a report. For a request with well-formed dates in
    order whose end is before December 9999, the years over which the
    worksheet totals ([sorted(set(...))] of the years of the months) are
    the calendar years from the year of [date_from] to the year of
    [date_to], each once, in ascending order. *)
Theorem report_years_are_consecutive (w : wizard) :
  valid_request w →
  ¬ last_month_of_time (date_to w) →
  ∃ months, _get_months_in_range w = Ok months
    ∧ years_of months
      = seqZ (year (date_from w)) (year (date_to w) - year (date_from w) + 1).
Proof.
  intros Hv Hmax.
  destruct (months_in_range_ok w Hv Hmax) as (n & Hn & Hidx & ->).
  destruct Hv as ((_ & Hfm & _)%valid_ymd_spec & (_ & Htm & _)%valid_ymd_spec & _).
  eexists. split; [done|]. unfold month_index in Hidx.
  apply (years_of_buckets n _ _ (year (date_to w)) (month (date_to w))); try done. lia.
Qed.

Lemma report_years_are_consecutive_witness :
  ∃ months, _get_months_in_range w_three_years = Ok months
    ∧ years_of months = [2023; 2024; 2025].
Proof.
  apply (report_years_are_consecutive w_three_years).
  - repeat split; reflexivity.
  - intros [H _]. discriminate H.
Defined.

(** ** Channels that are switched off *)

Lemma sql_sum_zero {A : Type} (f : A → Qc) (l : list A) :
  Forall (λ x, f x = 0%Qc) l → sql_sum (f <$> l) = 0%Qc.
Proof.
  induction 1 as [|x l Hx _ IH]; [done|].
  rewrite fmap_cons, sql_sum_cons, Hx, IH. ring.
Qed.

(** The figures [_get_stock_moves_data] gives for a channel that is switched
    off. *)
Lemma stock_moves_data_switched_off (e : env) (w : wizard) (product_id : Z)
    (date_start date_end : date) (location_ids : list Z) (data : MoveData.t) :
  _get_stock_moves_data e w product_id date_start date_end location_ids = Ok data →
  (include_purchases w = false →
   MoveData.purchase_qty data = 0%Qc ∧ MoveData.purchase_value data = 0%Qc)
  ∧ (include_sales w = false →
     MoveData.sale_qty data = 0%Qc ∧ MoveData.sale_value data = 0%Qc)
  ∧ (include_pos w = false →
     MoveData.pos_qty data = 0%Qc ∧ MoveData.pos_value data = 0%Qc).
Proof.
  unfold _get_stock_moves_data. destruct location_ids as [|l ls]; [done|].
  intros [= <-]. cbn [MoveData.purchase_qty MoveData.purchase_value MoveData.sale_qty
    MoveData.sale_value MoveData.pos_qty MoveData.pos_value].
  split; [|split]; by intros ->.
Qed.

(** The flows of a year are flows the wizard computed. *)
Lemma flows_of_year_computed (e : env) (w : wizard) (product_id : Z)
    (location_ids : list Z) (y : Z) (months : list month_bucket)
    (entries : list month_entry) :
  Forall2 (computed_entry e w product_id location_ids) months entries →
  Forall (λ d, ∃ b, _get_stock_moves_data e w product_id (m_start b) (m_end b)
                      location_ids = Ok d)
         (flows_of_year y months entries).
Proof.
  unfold flows_of_year.
  induction 1 as [|b en months entries (_ & Hflows & _) _ IH]; [constructor|].
  cbn [zip zip_with]. rewrite filter_cons. case_decide; [|done].
  rewrite fmap_cons. constructor; [|done]. by exists b.
Qed.

(** The monthly columns of a row. *)
Lemma switched_off_months (e : env) (w : wizard) (product_id : Z)
    (location_ids : list Z) (months : list month_bucket) (entries : list month_entry) :
  Forall2 (computed_entry e w product_id location_ids) months entries →
  Forall2 (λ key v, switched_off w key = true → v = 0%Qc)
          (months ≫= λ _, (λ col_def, col_def.1.1) <$> month_column_defs)
          (entries ≫= month_values).
Proof.
  induction 1 as [|b en months entries (_ & Hflows & _) _ IH]; [constructor|].
  rewrite !bind_cons. apply Forall2_app; [|done].
  apply stock_moves_data_switched_off in Hflows as (Hp & Hs & Hpos).
  repeat constructor; cbn [switched_off fst snd];
    try discriminate; intros ?%negb_true_iff; tauto.
Qed.

(** The yearly columns of a row. *)
Lemma switched_off_years (e : env) (w : wizard) (product_id : Z)
    (location_ids : list Z) (months : list month_bucket) (entries : list month_entry)
    (years : list Z) :
  Forall2 (computed_entry e w product_id location_ids) months entries →
  Forall2 (λ key v, switched_off w key = true → v = 0%Qc)
          (years ≫= λ _, (λ col_def, col_def.1.1) <$> year_column_defs)
          (years ≫= λ y, year_sums y months entries).
Proof.
  intros Hall. induction years as [|y years IH]; [constructor|].
  rewrite !bind_cons. apply Forall2_app; [|done].
  pose proof (flows_of_year_computed e w product_id location_ids y
                months entries Hall) as Hflows.
  unfold year_sums. cbn zeta.
  repeat constructor; cbn [switched_off fst snd];
    intros ?%negb_true_iff; apply sql_sum_zero;
    (eapply Forall_impl; [exact Hflows|]);
    intros d (b & Hd%stock_moves_data_switched_off); tauto.
Qed.

(** X24. A channel that is switched off shows zero in every column: in
    every row of a worksheet [_write_excel_content] returns, the cell of
    each monthly and yearly purchase column is 0 when [include_purchases] is
    off, and likewise the sale columns for [include_sales] and the
    point-of-sale columns for [include_pos]. *)
Theorem switched_off_channels_show_zero (e : env) (w : wizard)
    (products : list product_product) (months : list month_bucket)
    (location_ids : list Z) (ws : worksheet) (row : sheet_row) :
  _write_excel_content e w products months location_ids = Ok ws →
  row ∈ ws_rows ws →
  Forall2 (λ key c, switched_off w key = true → cell_value c = 0%Qc)
          (column_keys months) (row_cells row).
Proof.
  intros Hrun Hrow. apply write_excel_content_rows in Hrun.
  assert (∃ product, row_of e w months location_ids product row)
    as (product & _ & entries & Hall & Hvalues).
  { apply list_elem_of_lookup in Hrow as (i & Hi).
    destruct (Forall2_lookup_r _ _ _ _ _ Hrun Hi) as (product & _ & ?). eauto. }
  apply (Forall2_fmap_r cell_value (λ key v, switched_off w key = true → v = 0%Qc)).
  rewrite Hvalues. unfold column_keys, spec_row_values. apply Forall2_app.
  - by eapply switched_off_months.
  - by eapply switched_off_years.
Qed.

Lemma switched_off_channels_show_zero_witness :
  ∃ ws row,
    _write_excel_content shop w_sales_only [bolt] [january_2024] shop_locations = Ok ws
    ∧ ws_rows ws = [row]
    ∧ Forall2 (λ key c, switched_off w_sales_only key = true → cell_value c = 0%Qc)
              (column_keys [january_2024]) (row_cells row).
Proof.
  eexists _, _. split; [reflexivity|]. split; [reflexivity|].
  eapply (switched_off_channels_show_zero shop w_sales_only [bolt] [january_2024]
            shop_locations); [reflexivity|apply list_elem_of_here].
Defined.

(** ** A report that fits the sheet *)

Lemma total_cols_eq (months : list month_bucket) :
  total_cols months
  = 1 + 8 * Z.of_nat (length months) + 6 * Z.of_nat (length (years_of months)).
Proof. unfold total_cols, cols_per_month. simpl. lia. Qed.

Lemma sub_header_labels_length (months : list month_bucket) :
  Z.of_nat (length (sub_header_labels months)) = total_cols months - 1.
Proof.
  rewrite total_cols_eq. unfold sub_header_labels.
  rewrite length_app, !length_bind_const, !length_fmap. simpl. lia.
Qed.

(** A run whose columns and rows fit the sheet makes no call outside of
    it. *)
Lemma sheet_calls_in_sheet (e : env) (avs : Z → list attribute_value) (w : wizard)
    (months : list month_bucket) (ws : worksheet) :
  months ≠ [] →
  Forall (λ row, cell_format <$> row_cells row = cell_formats months) (ws_rows ws) →
  total_cols months ≤ xlsx_max_cols →
  3 + Z.of_nat (length (ws_rows ws)) ≤ xlsx_max_rows →
  Forall call_in_sheet (sheet_calls e avs w months ws).
Proof.
  intros Hne Hrows Hcols Hrws. rewrite Forall_forall in Hrows.
  pose proof (sub_header_labels_length months) as Hlabels.
  pose proof (cell_formats_length months) as Hformats.
  rewrite total_cols_eq in *.
  assert (0 < length months)%nat by (destruct months; [done|simpl; lia]).
  unfold xlsx_max_cols, xlsx_max_rows in *.
  apply Forall_forall. intros c.
  rewrite sheet_calls_closed_form, write_headers_closed_form.
  rewrite !elem_of_app, !elem_of_cons, !elem_of_nil, !elem_of_lookup_imap.
  rewrite total_cols_eq.
  intros [[[->|[->|[->|[]]]]|[(k & b & -> & Hk%lookup_lt_Some)
           |[(j & y & -> & Hj%lookup_lt_Some)
           |[(j & lf & -> & Hj%lookup_lt_Some)|[->|[->|[->|[->|[->|[]]]]]]]]]]
          |[Hc|[->|[->|[]]]]];
    unfold call_in_sheet, cell_in_sheet, xlsx_max_cols, xlsx_max_rows; try lia.
  apply list_elem_of_In, in_concat in Hc as (l & Hl%list_elem_of_In & Hc%list_elem_of_In).
  apply elem_of_lookup_imap in Hl as (i & row & -> & Hrow).
  pose proof (lookup_lt_Some _ _ _ Hrow) as Hi.
  apply list_elem_of_lookup_2 in Hrow.
  unfold data_row_calls in Hc. apply elem_of_cons in Hc as [->|Hc]; [lia|].
  apply elem_of_lookup_imap in Hc as (j & cl & -> & Hj%lookup_lt_Some).
  assert (length (row_cells row) = length (cell_formats months)) as Hlen.
  { by rewrite <- (Hrows row Hrow), length_fmap. }
  lia.
Qed.

(** The months and the years of a request. *)
Lemma request_months_and_years (w : wizard) (months : list month_bucket) :
  valid_request w → ¬ last_month_of_time (date_to w) →
  _get_months_in_range w = Ok months →
  months ≠ []
  ∧ Z.of_nat (length months) = month_index (date_to w) - month_index (date_from w) + 1
  ∧ Z.of_nat (length (years_of months)) = year (date_to w) - year (date_from w) + 1.
Proof.
  intros Hv Hmax Hrun.
  destruct (months_in_range_ok w Hv Hmax) as (n & Hn & Hidx & Hrun').
  rewrite Hrun' in Hrun. injection Hrun as <-.
  destruct Hv as ((_ & Hfm & _)%valid_ymd_spec & (_ & Htm & _)%valid_ymd_spec & _).
  split; [destruct n; [lia|done]|]. split; [rewrite buckets_from_length; lia|].
  unfold month_index in Hidx.
  rewrite (years_of_buckets n _ _ (year (date_to w)) (month (date_to w)))
    by (done || lia).
  rewrite length_seqZ. lia.
Qed.

(** X14. When a report is generated. For a request with well-formed dates
    in order whose end is before December 9999 and whose start is not in
    January of year 1, with the spreadsheet library present, at least one
    selected product and at least one internal location, and whose columns
    (1 + 8 per month + 6 per year) and rows (3 + one per selected product)
    fit an xlsx sheet, report generation succeeds: the file is named
    Stock_Movement_Report_<from>_<to>.xlsx with the two dates in ISO format,
    the wizard writes one row per selected product in the order of
    [_get_products] and one month header per calendar month from the month
    of [date_from] to the month of [date_to], and every call it makes on the
    worksheet addresses cells inside the sheet, so that none is dropped. *)
Theorem report_is_generated (e : env) (avs : Z → list attribute_value) (w : wizard) :
  valid_request w →
  ¬ last_month_of_time (date_to w) →
  xlsxwriter e = true →
  _get_products e w ≠ [] →
  _get_location_ids e w ≠ [] →
  ¬ (year (date_from w) = 1 ∧ month (date_from w) = 1) →
  1 + 8 * (month_index (date_to w) - month_index (date_from w) + 1)
    + 6 * (year (date_to w) - year (date_from w) + 1) ≤ xlsx_max_cols →
  3 + Z.of_nat (length (_get_products e w)) ≤ xlsx_max_rows →
  ∃ r months,
    generate_report e w = Ok r
    ∧ _get_months_in_range w = Ok months
    ∧ file_name r = "Stock_Movement_Report_" +:+ isoformat (date_from w)
                    +:+ "_" +:+ isoformat (date_to w) +:+ ".xlsx"
    ∧ row_product <$> ws_rows (excel_file r) = _get_products e w
    ∧ ws_month_headers (excel_file r) = m_name <$> months
    ∧ Z.of_nat (length months)
      = month_index (date_to w) - month_index (date_from w) + 1
    ∧ Forall call_in_sheet (sheet_calls e avs w months (excel_file r)).
Proof.
  intros Hv Hmax Hx Hp Hl Hfirst Hcols Hrws.
  destruct (generate_report_writes e w Hv Hmax Hx Hp Hl) as (n & Hidx & ->).
  destruct (months_in_range_ok w Hv Hmax) as (n' & Hn' & Hidx' & Hmonths).
  assert (n' = S n) as -> by lia.
  destruct (request_months_and_years w _ Hv Hmax Hmonths) as (Hne & Hlen & Hyears).
  pose proof Hv as ((Hy & Hm & _)%valid_ymd_spec & _ & _).
  destruct (write_excel_content_cases e w (_get_products e w)
              (buckets_from (S n) (year (date_from w)) (month (date_from w)))
              (_get_location_ids e w))
    as [(ws & Hrun & Hrows & _)|[(_ & _ & b & Hb & Hov)|(_ & _ & ? & _)]]; [| |done].
  - rewrite Hrun. eexists _, _. split; [reflexivity|]. split; [exact Hmonths|].
    cbn [excel_file file_name]. split; [done|]. split; [done|].
    split; [by apply write_excel_content_headers in Hrun as [-> _]|].
    split; [done|].
    apply sheet_calls_in_sheet; [done|by eapply write_excel_content_formats| |].
    + rewrite total_cols_eq, Hlen, Hyears. done.
    + apply (f_equal length) in Hrows. rewrite length_fmap in Hrows.
      by rewrite Hrows.
  - apply buckets_from_eves in Hb; [|lia|lia|done]. by rewrite Hov in Hb.
Qed.

Lemma report_is_generated_witness :
  ∃ r months,
    generate_report shop w_2024 = Ok r
    ∧ _get_months_in_range w_2024 = Ok months
    ∧ file_name r = "Stock_Movement_Report_2024-01-15_2024-03-02.xlsx"
    ∧ row_product <$> ws_rows (excel_file r) = _get_products shop w_2024
    ∧ ws_month_headers (excel_file r) = m_name <$> months
    ∧ Z.of_nat (length months) = 3
    ∧ Forall call_in_sheet
        (sheet_calls shop shop_attribute_values w_2024 months (excel_file r)).
Proof.
  apply (report_is_generated shop shop_attribute_values w_2024).
  - repeat split; reflexivity.
  - intros [H _]. discriminate H.
  - reflexivity.
  - discriminate.
  - discriminate.
  - intros [H _]. discriminate H.
  - vm_compute. discriminate.
  - vm_compute. discriminate.
Defined.
